(** * terraform-provider-circleci: the API client and the resource handlers

    A shallow embedding of [internal/provider]: the shared API client
    ([MakeRequest], [Get], [Post], [Put], [Delete], [BuildURL],
    [GetAllPages]) and the lifecycle handlers of the resources
    (Context, EnvironmentVariable, CheckoutKey, Pipeline, Job,
    RunnerToken).

    Conventions of the embedding.
    - Go strings are [string]; Go [int]/[int64] values are [Z].
    - A Go [error] value is an [error]; a function returning [(T, error)]
      returns [error + T].
    - The network is the only effect. A computation of type [IO A] threads
      the list of HTTP requests sent so far; [HTTPClient] of the client
      decides the answer to a request from that history and the request
      itself, so a server with arbitrary internal state is covered.
    - What lives in Go's standard library (net/url, net/http request
      construction, encoding/json, strconv.Quote) is not re-implemented:
      it is taken as an interface ([NetLib], [JSONMarshal],
      [JSONUnmarshal], [JSONDecode]). *)

From Stdlib Require Import ZArith Lia Ascii String.
From stdpp Require Import base strings list gmap pretty.

Local Open Scope Z_scope.
Local Open Scope string_scope.
Local Open Scope list_scope.

(** ** Go errors *)

(** [APIError] of the client: the structured error body of the API. *)
Record APIError := { Message : string; Code : Z }.

(** [func (e APIError) Error() string] *)
Definition APIError_Error (e : APIError) : string :=
  if decide (Code e ≠ 0)
  then "CircleCI API error (code " +:+ pretty (Code e) +:+ "): " +:+ Message e
  else "CircleCI API error: " +:+ Message e.

(** The [error] values that flow through the provider: errors made by
    [fmt.Errorf] or returned by a library ([errorString]), an [APIError]
    returned as an error, and [fmt.Errorf("...: %w", err)] wrappers. *)
Inductive error :=
| errorString (s : string)
| errAPI (e : APIError)
| errWrap (prefix : string) (inner : error).

Fixpoint Error (e : error) : string :=
  match e with
  | errorString s => s
  | errAPI a => APIError_Error a
  | errWrap p inner => p +:+ Error inner
  end.

(** ** HTTP messages and the transport *)

Record Request := {
  Method : string;
  URL : string;
  ReqBody : option string;
  Header : gmap string string
}.

Record Response := { StatusCode : Z; Body : string }.

Definition StatusOK : Z := 200.
Definition StatusCreated : Z := 201.
Definition StatusNotFound : Z := 404.

(** [*http.Client]: what [Do] answers to a request, given the requests
    already sent. *)
Definition HttpClient := list Request -> Request -> error + Response.

(** [type CircleCIClient struct] (provider.go) *)
Record CircleCIClient := {
  ApiToken : string;
  BaseURL : string;
  HTTPClient : HttpClient
}.

(** ** The effect: a log of the requests sent *)

Definition IO (A : Type) : Type := list Request -> A * list Request.

Global Instance IO_ret : MRet IO := fun A a h => (a, h).
Global Instance IO_bind : MBind IO :=
  fun A B k m h => let '(a, h') := m h in k a h'.

(** [c.HTTPClient.Do(req)] *)
Definition Do (c : CircleCIClient) (req : Request) : IO (error + Response) :=
  fun h => (HTTPClient c h req, h ++ [req]).

(** The requests a computation sends when started after history [h]. *)
Definition sent {A} (m : IO A) (h : list Request) : list Request :=
  drop (length h) (snd (m h)).

(** ** Library interfaces *)

(** net/url, net/http and strconv, as far as the client uses them. *)
Class NetLib := {
  (** [*url.URL] *)
  ParsedURL : Type;
  (** [url.Parse] *)
  url_Parse : string -> error + ParsedURL;
  (** [u.Query()]: a [url.Values], that is [map[string][]string] *)
  URL_Query : ParsedURL -> gmap string (list string);
  (** [q.Encode()] *)
  Values_Encode : gmap string (list string) -> string;
  (** [u.RawQuery = s] *)
  URL_set_RawQuery : ParsedURL -> string -> ParsedURL;
  (** [u.String()] *)
  URL_String : ParsedURL -> string;
  (** [url.PathEscape] *)
  url_PathEscape : string -> string;
  (** the error of [http.NewRequestWithContext(ctx, method, url, body)],
      if any *)
  http_NewRequest_error : string -> string -> option error;
  (** [strconv.Quote], the [%q] verb *)
  strconv_Quote : string -> string
}.

(** [json.Marshal(v)] for the request payloads. *)
Class JSONMarshal (A : Type) := json_Marshal : A -> error + string.

(** [json.Unmarshal(data, &v)] into a fresh [v]. *)
Class JSONUnmarshal (A : Type) := json_Unmarshal : string -> error + A.

(** [json.NewDecoder(r).Decode(&v)] into a fresh [v]. *)
Class JSONDecode (A : Type) := json_Decode : string -> error + A.

(** A [body interface{}] argument: [nil] or a payload to marshal. *)
Inductive ReqPayload :=
| body_nil
| body_of {A : Type} `{JSONMarshal A} (a : A).

(** A [result interface{}] argument: [nil] or a pointer to decode into. *)
Inductive Dest : Type -> Type :=
| dest_nil : Dest unit
| dest_ptr (A : Type) `{JSONDecode A} : Dest A.

(** [PaginatedResponse]; an item is an arbitrary decoded JSON value. *)
Record PaginatedResponse (Item : Type) := {
  Items : list Item;
  NextPageToken : string
}.
Arguments Items {Item} _.
Arguments NextPageToken {Item} _.

(** ** The API client *)

Section Client.
Context {net : NetLib} {unmarshalAPIError : JSONUnmarshal APIError}.

(** The four headers [MakeRequest] sets. *)
Definition MakeRequest_headers (c : CircleCIClient) : gmap string string :=
  <["User-Agent" := "terraform-provider-circleci"]>
    (<["Accept" := "application/json"]>
      (<["Content-Type" := "application/json"]>
        (<["Circle-Token" := ApiToken c]> ∅))).

(** The first step of [MakeRequest]: [requestBody] is nil for a nil body
    and the marshalled JSON otherwise. *)
Definition marshal_body (body : ReqPayload) : error + option string :=
  match body with
  | body_nil => inr None
  | body_of a =>
      match json_Marshal a with
      | inl err => inl (errWrap "failed to marshal request body: " err)
      | inr jsonData => inr (Some jsonData)
      end
  end.

(** The request [MakeRequest] hands to [c.HTTPClient.Do]. *)
Definition MakeRequest_request (c : CircleCIClient) (method endpoint : string)
    (requestBody : option string) : Request :=
  {| Method := method; URL := BaseURL c +:+ endpoint;
     ReqBody := requestBody; Header := MakeRequest_headers c |}.

(** [func (c *CircleCIClient) MakeRequest(ctx, method, endpoint, body)] *)
Definition MakeRequest (c : CircleCIClient) (method endpoint : string)
    (body : ReqPayload) : IO (error + Response) :=
  match marshal_body body with
  | inl err => mret (inl err)
  | inr requestBody =>
      let url := BaseURL c +:+ endpoint in
      match http_NewRequest_error method url with
      | Some err => mret (inl (errWrap "failed to create request: " err))
      | None =>
          let req := MakeRequest_request c method endpoint requestBody in
          r ← Do c req;
          match r with
          | inl err => mret (inl (errWrap "failed to make request: " err))
          | inr resp =>
              if decide (StatusCode resp >= 400) then
                let bodyBytes := Body resp in
                let apiErr :=
                  match json_Unmarshal (A := APIError) bodyBytes with
                  | inr e => e
                  | inl _ =>
                      {| Message := "HTTP " +:+ pretty (StatusCode resp)
                                      +:+ ": " +:+ bodyBytes;
                         Code := StatusCode resp |}
                  end in
                mret (inl (errAPI apiErr))
              else mret (inr resp)
          end
      end
  end.

(** The tail shared by [Get], [Post] and [Put]:
    [if result != nil { return json.NewDecoder(resp.Body).Decode(result) }] *)
Definition decode_into {A} (result : Dest A) (resp : Response) : error + A :=
  match result in Dest T return error + T with
  | dest_nil => inr tt
  | dest_ptr A => json_Decode (Body resp)
  end.

(** [func (c *CircleCIClient) Get(ctx, endpoint, result)] *)
Definition Get {A} (c : CircleCIClient) (endpoint : string)
    (result : Dest A) : IO (error + A) :=
  r ← MakeRequest c "GET" endpoint body_nil;
  match r with
  | inl err => mret (inl err)
  | inr resp => mret (decode_into result resp)
  end.

(** [func (c *CircleCIClient) Post(ctx, endpoint, body, result)] *)
Definition Post {A} (c : CircleCIClient) (endpoint : string)
    (body : ReqPayload) (result : Dest A) : IO (error + A) :=
  r ← MakeRequest c "POST" endpoint body;
  match r with
  | inl err => mret (inl err)
  | inr resp => mret (decode_into result resp)
  end.

(** [func (c *CircleCIClient) Put(ctx, endpoint, body, result)] *)
Definition Put {A} (c : CircleCIClient) (endpoint : string)
    (body : ReqPayload) (result : Dest A) : IO (error + A) :=
  r ← MakeRequest c "PUT" endpoint body;
  match r with
  | inl err => mret (inl err)
  | inr resp => mret (decode_into result resp)
  end.

(** [func (c *CircleCIClient) Delete(ctx, endpoint)] *)
Definition Delete (c : CircleCIClient) (endpoint : string) : IO (error + unit) :=
  r ← MakeRequest c "DELETE" endpoint body_nil;
  match r with
  | inl err => mret (inl err)
  | inr _ => mret (inr tt)
  end.

(** [func BuildURL(endpoint string, params map[string]string) string].
    The [range] loop sets distinct keys, so its iteration order does not
    matter; [q.Set(key, value)] stores the one-element slice. *)
Definition BuildURL (endpoint : string) (params : gmap string string) : string :=
  if decide (size params = 0%nat) then endpoint
  else
    match url_Parse endpoint with
    | inl _ => endpoint
    | inr u =>
        let q := map_fold (fun key value q => <[key := [value]]> q)
                          (URL_Query u) params in
        URL_String (URL_set_RawQuery u (Values_Encode q))
    end.

(** [func EscapeProjectSlug(slug string) string] *)
Definition EscapeProjectSlug (slug : string) : string := url_PathEscape slug.

Section Pagination.
Context {Item : Type} {decodePage : JSONDecode (PaginatedResponse Item)}.

(** The query parameters of one iteration of the loop of [GetAllPages]:
    a copy of [params], with [page-token] added when a token is known. *)
Definition page_params (params : gmap string string)
    (nextPageToken : string) : gmap string string :=
  let queryParams := params in
  if decide (nextPageToken ≠ "")
  then <["page-token" := nextPageToken]> queryParams
  else queryParams.

(** The [for] loop of [GetAllPages], run for at most [fuel] iterations;
    [None] when the fuel runs out before the loop exits. *)
Fixpoint GetAllPages_loop (fuel : nat) (c : CircleCIClient)
    (endpoint : string) (params : gmap string string)
    (allItems : list Item) (nextPageToken : string)
    : IO (option (error + list Item)) :=
  match fuel with
  | O => mret None
  | S fuel' =>
      let queryParams := page_params params nextPageToken in
      let url := BuildURL endpoint queryParams in
      r ← Get c url (dest_ptr (PaginatedResponse Item));
      match r with
      | inl err => mret (Some (inl err))
      | inr response =>
          let allItems := allItems ++ Items response in
          if decide (NextPageToken response = "")
          then mret (Some (inr allItems))
          else GetAllPages_loop fuel' c endpoint params allItems
                 (NextPageToken response)
      end
  end.

(** [func (c *CircleCIClient) GetAllPages(ctx, endpoint, params)] *)
Definition GetAllPages (fuel : nat) (c : CircleCIClient)
    (endpoint : string) (params : gmap string string)
    : IO (option (error + list Item)) :=
  GetAllPages_loop fuel c endpoint params [] "".
End Pagination.
End Client.

(** ** Terraform plugin framework values *)

(** [types.String]: null, unknown or a known string. *)
Inductive tfString := StringNull | StringUnknown | StringValue (s : string).

Definition ValueString (v : tfString) : string :=
  match v with StringValue s => s | _ => "" end.

Definition IsNull (v : tfString) : bool :=
  match v with StringNull => true | _ => false end.

(** [types.Int64] *)
Inductive tfInt64 := Int64Null | Int64Unknown | Int64Value (z : Z).

Definition ValueInt64 (v : tfInt64) : Z :=
  match v with Int64Value z => z | _ => 0 end.

(** [types.Object] holding a struct of type [A], and [types.Map] of
    strings. *)
Inductive tfObject (A : Type) := ObjectNull | ObjectUnknown | ObjectValue (a : A).
Arguments ObjectNull {A}.
Arguments ObjectUnknown {A}.
Arguments ObjectValue {A} _.

Inductive tfMap := MapNull | MapUnknown | MapValue (elems : gmap string tfString).

Definition Map_IsNull (m : tfMap) : bool :=
  match m with MapNull => true | _ => false end.

(** ** Diagnostics *)

Inductive Severity := SeverityError | SeverityWarning.

Record Diagnostic := {
  severity : Severity;
  Summary : string;
  Detail : string;
  AttributePath : option string
}.

Global Instance Severity_eq_dec : EqDecision Severity.
Proof. solve_decision. Defined.
Global Instance Diagnostic_eq_dec : EqDecision Diagnostic.
Proof. solve_decision. Defined.

Definition is_error (d : Diagnostic) : bool :=
  match severity d with SeverityError => true | SeverityWarning => false end.

(** [diags.HasError()] *)
Definition HasError (diags : list Diagnostic) : bool := existsb is_error diags.

(** [diags.Append(in...)]: a diagnostic already present is not added
    again. *)
Fixpoint Append (diags : list Diagnostic) (new : list Diagnostic) : list Diagnostic :=
  match new with
  | [] => diags
  | d :: rest =>
      if decide (d ∈ diags) then Append diags rest
      else Append (diags ++ [d]) rest
  end.

Definition ErrorDiagnostic (summary detail : string) : Diagnostic :=
  {| severity := SeverityError; Summary := summary; Detail := detail;
     AttributePath := None |}.

Definition WarningDiagnostic (summary detail : string) : Diagnostic :=
  {| severity := SeverityWarning; Summary := summary; Detail := detail;
     AttributePath := None |}.

Definition AttributeErrorDiagnostic (path summary detail : string) : Diagnostic :=
  {| severity := SeverityError; Summary := summary; Detail := detail;
     AttributePath := Some path |}.

(** ** Requests and responses of the lifecycle handlers

    A plan or a state is held as the typed model the handler reads it
    into, so [req.Plan.Get(ctx, &data)] and [req.State.Get(ctx, &data)]
    yield that model and no diagnostics. The state of a response is
    [Some data] after [resp.State.Set(ctx, &data)] and [None] after
    [resp.State.RemoveResource(ctx)]; the host hands Read, Update and
    Delete the prior state in it. *)

Record CreateRequest (M : Type) := { create_Plan : M }.
Record ReadRequest (M : Type) := { read_State : M }.
Record UpdateRequest (M : Type) := { update_Plan : M; update_State : M }.
Record DeleteRequest (M : Type) := { delete_State : M }.
Arguments create_Plan {M} _.
Arguments read_State {M} _.
Arguments update_Plan {M} _.
Arguments update_State {M} _.
Arguments delete_State {M} _.

(** [resource.CreateResponse], [ReadResponse], [UpdateResponse] and
    [DeleteResponse]: the two fields the handlers use. *)
Record Resp (M : Type) := {
  resp_State : option M;
  resp_Diagnostics : list Diagnostic
}.
Arguments resp_State {M} _.
Arguments resp_Diagnostics {M} _.

(** [req.Plan.Get(ctx, &data)] / [req.State.Get(ctx, &data)] *)
Definition tfsdk_Get {M} (src : M) : list Diagnostic * M := ([], src).

(** [resp.Diagnostics.Append(diags...)] *)
Definition Diagnostics_Append {M} (resp : Resp M) (diags : list Diagnostic) : Resp M :=
  {| resp_State := resp_State resp; resp_Diagnostics := Append (resp_Diagnostics resp) diags |}.

(** [resp.Diagnostics.AddError(summary, detail)] *)
Definition AddError {M} (resp : Resp M) (summary detail : string) : Resp M :=
  Diagnostics_Append resp [ErrorDiagnostic summary detail].

(** [resp.Diagnostics.AddWarning(summary, detail)] *)
Definition AddWarning {M} (resp : Resp M) (summary detail : string) : Resp M :=
  Diagnostics_Append resp [WarningDiagnostic summary detail].

(** [resp.Diagnostics.AddAttributeError(path.Root(p), summary, detail)] *)
Definition AddAttributeError {M} (resp : Resp M) (p summary detail : string) : Resp M :=
  Diagnostics_Append resp [AttributeErrorDiagnostic p summary detail].

(** [resp.Diagnostics.Append(resp.State.Set(ctx, &data)...)]: the typed
    model always fits the schema, so [Set] yields no diagnostics. *)
Definition State_Set {M} (resp : Resp M) (data : M) : Resp M :=
  Diagnostics_Append {| resp_State := Some data; resp_Diagnostics := resp_Diagnostics resp |} [].

(** [resp.State.RemoveResource(ctx)] *)
Definition RemoveResource {M} (resp : Resp M) : Resp M :=
  {| resp_State := None; resp_Diagnostics := resp_Diagnostics resp |}.

(** Import works attribute by attribute on an untyped state. *)
Inductive AttrValue := AttrString (s : string) | AttrInt64 (z : Z).

Record ImportStateRequest := { import_ID : string }.

Record ImportStateResponse := {
  import_State : gmap string AttrValue;
  import_Diagnostics : list Diagnostic
}.

(** [resp.Diagnostics.Append(resp.State.SetAttribute(ctx, path.Root(p), v)...)]
    for an attribute of the schema and a value of its type. *)
Definition SetAttribute (resp : ImportStateResponse) (p : string) (v : AttrValue)
    : ImportStateResponse :=
  {| import_State := <[p := v]> (import_State resp);
     import_Diagnostics := Append (import_Diagnostics resp) [] |}.

Definition import_AddError (resp : ImportStateResponse) (summary detail : string)
    : ImportStateResponse :=
  {| import_State := import_State resp;
     import_Diagnostics :=
       Append (import_Diagnostics resp) [ErrorDiagnostic summary detail] |}.

(** ** Go string functions used by the import handlers *)

(** [strings.Index(s, string(sep))] for a one-byte separator. *)
Fixpoint index_byte (sep : ascii) (s : string) : option nat :=
  match s with
  | EmptyString => None
  | String a rest =>
      if decide (a = sep) then Some 0%nat
      else S <$> index_byte sep rest
  end.

(** [s[:m]] and [s[m:]] *)
Fixpoint take_string (m : nat) (s : string) : string :=
  match m, s with
  | S m', String a rest => String a (take_string m' rest)
  | _, _ => EmptyString
  end.

Fixpoint drop_string (m : nat) (s : string) : string :=
  match m, s with
  | S m', String _ rest => drop_string m' rest
  | _, _ => s
  end.

(** [strings.SplitN(s, string(sep), n)] for a one-byte separator and
    [n >= 0]: at most [n] pieces, the last one holding the unsplit
    remainder. *)
Fixpoint SplitN (s : string) (sep : ascii) (n : nat) : list string :=
  match n with
  | O => []
  | S O => [s]
  | S n' =>
      match index_byte sep s with
      | None => [s]
      | Some m => take_string m s :: SplitN (drop_string (S m) s) sep n'
      end
  end.

(** [strconv.ParseInt(s, 10, 64)]: an optional sign, then one or more
    decimal digits, the value within the range of [int64]. [None] stands
    for a returned error. *)
Definition digit_value (a : ascii) : option Z :=
  let n := Z.of_nat (nat_of_ascii a) in
  if decide (48 <= n <= 57) then Some (n - 48) else None.

Fixpoint parse_digits (acc : Z) (s : string) : option Z :=
  match s with
  | EmptyString => Some acc
  | String a rest =>
      match digit_value a with
      | None => None
      | Some d => parse_digits (10 * acc + d) rest
      end
  end.

Definition ParseUint10 (s : string) : option Z :=
  match s with
  | EmptyString => None
  | _ => parse_digits 0 s
  end.

Definition ParseInt10_64 (s : string) : option Z :=
  match s with
  | EmptyString => None
  | String a rest =>
      let '(neg, digits) :=
        if decide (a = "+"%char) then (false, rest)
        else if decide (a = "-"%char) then (true, rest)
        else (false, s) in
      match ParseUint10 digits with
      | None => None
      | Some un =>
          let cutoff := 2 ^ 63 in
          if negb neg && bool_decide (un >= cutoff) then None
          else if neg && bool_decide (un > cutoff) then None
          else Some (if neg then - un else un)
      end
  end.

(** ** resource_context.go *)

Module ContextResource.

(** [ContextOwner] and [ContextResourceModel] *)
Record ContextOwner := {
  owner_ID : tfString;
  owner_Slug : tfString;
  owner_Type : tfString
}.

Record ContextResourceModel := {
  ID : tfString;
  Name : tfString;
  Owner : tfObject ContextOwner
}.

(** The API models [Owner] and [Context]. *)
Record OwnerAPI := { api_owner_ID : string; api_owner_Slug : string; api_owner_Type : string }.

Record ContextAPI := {
  api_ID : string;
  api_Name : string;
  api_CreatedAt : string;
  api_Owner : OwnerAPI
}.

Section Handlers.
Context {net : NetLib} {unmarshalAPIError : JSONUnmarshal APIError}
        {decodeContext : JSONDecode ContextAPI}.

(** [func (r *ContextResource) Read(ctx, req, resp)].
    [types.ObjectValue] is given three string attributes for three string
    attribute types, so it yields the object and no diagnostics. *)
Definition Read (client : CircleCIClient) (req : ReadRequest ContextResourceModel)
    (resp : Resp ContextResourceModel) : IO (Resp ContextResourceModel) :=
  let '(diags, data) := tfsdk_Get (read_State req) in
  let resp := Diagnostics_Append resp diags in
  if HasError (resp_Diagnostics resp) then mret resp
  else
    r ← Get client ("/context/" +:+ ValueString (ID data)) (dest_ptr ContextAPI);
    match r with
    | inl err =>
        mret (AddError resp "Client Error"
                ("Unable to read context, got error: " +:+ Error err))
    | inr context =>
        let data := {| ID := ID data; Name := StringValue (api_Name context);
                       Owner := Owner data |} in
        let ownerObj := ObjectValue
          {| owner_ID := StringValue (api_owner_ID (api_Owner context));
             owner_Slug := StringValue (api_owner_Slug (api_Owner context));
             owner_Type := StringValue (api_owner_Type (api_Owner context)) |} in
        let resp := Diagnostics_Append resp [] in
        if HasError (resp_Diagnostics resp) then mret resp
        else
          let data := {| ID := ID data; Name := Name data; Owner := ownerObj |} in
          mret (State_Set resp data)
    end.

(** [func (r *ContextResource) Update(ctx, req, resp)] *)
Definition Update (client : CircleCIClient) (req : UpdateRequest ContextResourceModel)
    (resp : Resp ContextResourceModel) : IO (Resp ContextResourceModel) :=
  let '(diags, data) := tfsdk_Get (update_Plan req) in
  let resp := Diagnostics_Append resp diags in
  if HasError (resp_Diagnostics resp) then mret resp
  else
    mret (AddError resp "Update Not Supported"
      "CircleCI contexts cannot be updated. Changes to name or owner require destroying and recreating the context.").

End Handlers.

(** [CreateContextRequest] *)
Record CreateContextRequest := {
  req_Name : string;
  req_Owner : OwnerAPI
}.

Section Lifecycle.
Context {net : NetLib} {unmarshalAPIError : JSONUnmarshal APIError}
        {decodeContext : JSONDecode ContextAPI}
        {marshalCreate : JSONMarshal CreateContextRequest}.

(** [data.Owner.As(ctx, &owner, basetypes.ObjectAsOptions{})]: the
    diagnostics it returns and the struct it leaves in [owner]. *)
Variable Owner_As : tfObject ContextOwner -> list Diagnostic * ContextOwner.

(** [func (r *ContextResource) Create(ctx, req, resp)] *)
Definition Create (client : CircleCIClient) (req : CreateRequest ContextResourceModel)
    (resp : Resp ContextResourceModel) : IO (Resp ContextResourceModel) :=
  let '(diags, data) := tfsdk_Get (create_Plan req) in
  let resp := Diagnostics_Append resp diags in
  if HasError (resp_Diagnostics resp) then mret resp
  else
    let '(diags, owner) := Owner_As (Owner data) in
    let resp := Diagnostics_Append resp diags in
    if HasError (resp_Diagnostics resp) then mret resp
    else
      let createReq :=
        {| req_Name := ValueString (Name data);
           req_Owner := {| api_owner_ID := ValueString (owner_ID owner);
                           api_owner_Slug := ValueString (owner_Slug owner);
                           api_owner_Type := ValueString (owner_Type owner) |} |} in
      r ← Post client "/context" (body_of createReq) (dest_ptr ContextAPI);
      match r with
      | inl err =>
          mret (AddError resp "Client Error"
                  ("Unable to create context, got error: " +:+ Error err))
      | inr context =>
          let data := {| ID := StringValue (api_ID context); Name := Name data;
                         Owner := Owner data |} in
          mret (State_Set resp data)
      end.

(** [func (r *ContextResource) Delete(ctx, req, resp)] *)
Definition Delete (client : CircleCIClient) (req : DeleteRequest ContextResourceModel)
    (resp : Resp ContextResourceModel) : IO (Resp ContextResourceModel) :=
  let '(diags, data) := tfsdk_Get (delete_State req) in
  let resp := Diagnostics_Append resp diags in
  if HasError (resp_Diagnostics resp) then mret resp
  else
    r ← Delete client ("/context/" +:+ ValueString (ID data));
    match r with
    | inl err =>
        mret (AddError resp "Client Error"
                ("Unable to delete context, got error: " +:+ Error err))
    | inr _ => mret resp
    end.

End Lifecycle.
End ContextResource.

(** ** The environment variable resource (resource_project.go, second part) *)

Module EnvironmentVariableResource.

Record EnvironmentVariableResourceModel := {
  ID : tfString;
  ContextID : tfString;
  Name : tfString;
  Value : tfString
}.

(** The API model [EnvironmentVariable]. *)
Record EnvironmentVariable := {
  api_Variable : string;
  api_Value : string;
  api_CreatedAt : string;
  api_UpdatedAt : string
}.

Record CreateEnvironmentVariableRequest := {
  req_Name : string;
  req_Value : string
}.

Section Handlers.
Context {net : NetLib} {unmarshalAPIError : JSONUnmarshal APIError}
        {decodeEnvVar : JSONDecode EnvironmentVariable}
        {marshalEnvVar : JSONMarshal CreateEnvironmentVariableRequest}.

(** The endpoint both handlers format:
    ["/context/%s/environment-variable/%s"] *)
Definition endpoint_of (data : EnvironmentVariableResourceModel) : string :=
  "/context/" +:+ ValueString (ContextID data) +:+ "/environment-variable/"
    +:+ ValueString (Name data).

(** [func (r *EnvironmentVariableResource) Create(ctx, req, resp)] *)
Definition Create (client : CircleCIClient)
    (req : CreateRequest EnvironmentVariableResourceModel)
    (resp : Resp EnvironmentVariableResourceModel)
    : IO (Resp EnvironmentVariableResourceModel) :=
  let '(diags, data) := tfsdk_Get (create_Plan req) in
  let resp := Diagnostics_Append resp diags in
  if HasError (resp_Diagnostics resp) then mret resp
  else
    let createReq := {| req_Name := ValueString (Name data);
                        req_Value := ValueString (Value data) |} in
    let endpoint := endpoint_of data in
    r ← Put client endpoint (body_of createReq) (dest_ptr EnvironmentVariable);
    match r with
    | inl err =>
        mret (AddError resp "Client Error"
                ("Unable to create environment variable, got error: " +:+ Error err))
    | inr envVar =>
        let data :=
          {| ID := StringValue (ValueString (ContextID data) +:+ ":"
                                  +:+ ValueString (Name data));
             ContextID := ContextID data; Name := Name data;
             Value := Value data |} in
        mret (State_Set resp data)
    end.

(** [func (r *EnvironmentVariableResource) Read(ctx, req, resp)] *)
Definition Read (client : CircleCIClient)
    (req : ReadRequest EnvironmentVariableResourceModel)
    (resp : Resp EnvironmentVariableResourceModel)
    : IO (Resp EnvironmentVariableResourceModel) :=
  let '(diags, data) := tfsdk_Get (read_State req) in
  let resp := Diagnostics_Append resp diags in
  if HasError (resp_Diagnostics resp) then mret resp
  else
    let endpoint := endpoint_of data in
    r ← Get client endpoint (dest_ptr EnvironmentVariable);
    match r with
    | inl err =>
        mret (AddError resp "Client Error"
                ("Unable to read environment variable, got error: " +:+ Error err))
    | inr envVar =>
        let data := {| ID := ID data; ContextID := ContextID data;
                       Name := StringValue (api_Variable envVar);
                       Value := Value data |} in
        mret (State_Set resp data)
    end.

(** [func (r *EnvironmentVariableResource) ImportState(ctx, req, resp)] *)
Definition ImportState (req : ImportStateRequest) (resp : ImportStateResponse)
    : ImportStateResponse :=
  let parts := SplitN (import_ID req) ":"%char 2 in
  match parts with
  | [part0; part1] =>
      let resp := SetAttribute resp "context_id" (AttrString part0) in
      let resp := SetAttribute resp "name" (AttrString part1) in
      SetAttribute resp "id" (AttrString (import_ID req))
  | _ =>
      import_AddError resp "Unexpected Import Identifier"
        ("Expected import identifier with format: context_id:variable_name. Got: "
           +:+ strconv_Quote (import_ID req))
  end.

End Handlers.

Section Lifecycle.
Context {net : NetLib} {unmarshalAPIError : JSONUnmarshal APIError}
        {decodeEnvVar : JSONDecode EnvironmentVariable}
        {marshalEnvVar : JSONMarshal CreateEnvironmentVariableRequest}.

(** [func (r *EnvironmentVariableResource) Update(ctx, req, resp)] *)
Definition Update (client : CircleCIClient)
    (req : UpdateRequest EnvironmentVariableResourceModel)
    (resp : Resp EnvironmentVariableResourceModel)
    : IO (Resp EnvironmentVariableResourceModel) :=
  let '(diags, data) := tfsdk_Get (update_Plan req) in
  let resp := Diagnostics_Append resp diags in
  if HasError (resp_Diagnostics resp) then mret resp
  else
    let updateReq := {| req_Name := ValueString (Name data);
                        req_Value := ValueString (Value data) |} in
    let endpoint := endpoint_of data in
    r ← Put client endpoint (body_of updateReq) (dest_ptr EnvironmentVariable);
    match r with
    | inl err =>
        mret (AddError resp "Client Error"
                ("Unable to update environment variable, got error: " +:+ Error err))
    | inr envVar => mret (State_Set resp data)
    end.

(** [func (r *EnvironmentVariableResource) Delete(ctx, req, resp)] *)
Definition Delete (client : CircleCIClient)
    (req : DeleteRequest EnvironmentVariableResourceModel)
    (resp : Resp EnvironmentVariableResourceModel)
    : IO (Resp EnvironmentVariableResourceModel) :=
  let '(diags, data) := tfsdk_Get (delete_State req) in
  let resp := Diagnostics_Append resp diags in
  if HasError (resp_Diagnostics resp) then mret resp
  else
    let endpoint := endpoint_of data in
    r ← Delete client endpoint;
    match r with
    | inl err =>
        mret (AddError resp "Client Error"
                ("Unable to delete environment variable, got error: " +:+ Error err))
    | inr _ => mret resp
    end.

End Lifecycle.
End EnvironmentVariableResource.

(** ** resource_checkout_key.go *)

Module CheckoutKeyResource.

Record CheckoutKeyResourceModel := {
  ID : tfString;
  ProjectSlug : tfString;
  Type_ : tfString;
  Fingerprint : tfString;
  PublicKey : tfString;
  CreatedAt : tfString
}.

Section Handlers.
Context {net : NetLib}.

(** [func (r *CheckoutKeyResource) Update(ctx, req, resp)] *)
Definition Update (client : CircleCIClient)
    (req : UpdateRequest CheckoutKeyResourceModel)
    (resp : Resp CheckoutKeyResourceModel) : IO (Resp CheckoutKeyResourceModel) :=
  mret (AddError resp "Update Not Supported"
    "CircleCI checkout keys cannot be updated. Changes require destroying and recreating the key.").

(** [func (r *CheckoutKeyResource) ImportState(ctx, req, resp)] *)
Definition ImportState (req : ImportStateRequest) (resp : ImportStateResponse)
    : ImportStateResponse :=
  let parts := SplitN (import_ID req) ":"%char 2 in
  match parts with
  | [part0; part1] =>
      let resp := SetAttribute resp "project_slug" (AttrString part0) in
      let resp := SetAttribute resp "fingerprint" (AttrString part1) in
      SetAttribute resp "id" (AttrString (import_ID req))
  | _ =>
      import_AddError resp "Unexpected Import Identifier"
        ("Expected import identifier with format: project_slug:fingerprint. Got: "
           +:+ strconv_Quote (import_ID req))
  end.

End Handlers.

(** The API model [CheckoutKey] and [CreateCheckoutKeyRequest]. *)
Record CheckoutKey := {
  api_PublicKey : string;
  api_Type : string;
  api_Fingerprint : string;
  api_Preferred : bool;
  api_CreatedAt : string
}.

Record CreateCheckoutKeyRequest := { req_Type : string }.

Section Lifecycle.
Context {net : NetLib} {unmarshalAPIError : JSONUnmarshal APIError}
        {decodeKey : JSONDecode CheckoutKey}
        {marshalCreate : JSONMarshal CreateCheckoutKeyRequest}.

(** [func (r *CheckoutKeyResource) Create(ctx, req, resp)] *)
Definition Create (client : CircleCIClient)
    (req : CreateRequest CheckoutKeyResourceModel)
    (resp : Resp CheckoutKeyResourceModel) : IO (Resp CheckoutKeyResourceModel) :=
  let '(diags, data) := tfsdk_Get (create_Plan req) in
  let resp := Diagnostics_Append resp diags in
  if HasError (resp_Diagnostics resp) then mret resp
  else
    let createReq := {| req_Type := ValueString (Type_ data) |} in
    let slug := EscapeProjectSlug (ValueString (ProjectSlug data)) in
    let endpoint := "/project/" +:+ slug +:+ "/checkout-key" in
    r ← Post client endpoint (body_of createReq) (dest_ptr CheckoutKey);
    match r with
    | inl err =>
        mret (AddError resp "Client Error"
                ("Unable to create checkout key, got error: " +:+ Error err))
    | inr checkoutKey =>
        let data :=
          {| ID := StringValue (ValueString (ProjectSlug data) +:+ ":"
                                  +:+ api_Fingerprint checkoutKey);
             ProjectSlug := ProjectSlug data;
             Type_ := Type_ data;
             Fingerprint := StringValue (api_Fingerprint checkoutKey);
             PublicKey := StringValue (api_PublicKey checkoutKey);
             CreatedAt := StringValue (api_CreatedAt checkoutKey) |} in
        mret (State_Set resp data)
    end.

(** The endpoint Read and Delete format:
    ["/project/%s/checkout-key/%s"] *)
Definition key_endpoint (data : CheckoutKeyResourceModel) : string :=
  "/project/" +:+ EscapeProjectSlug (ValueString (ProjectSlug data))
    +:+ "/checkout-key/" +:+ ValueString (Fingerprint data).

(** [func (r *CheckoutKeyResource) Read(ctx, req, resp)] *)
Definition Read (client : CircleCIClient)
    (req : ReadRequest CheckoutKeyResourceModel)
    (resp : Resp CheckoutKeyResourceModel) : IO (Resp CheckoutKeyResourceModel) :=
  let '(diags, data) := tfsdk_Get (read_State req) in
  let resp := Diagnostics_Append resp diags in
  if HasError (resp_Diagnostics resp) then mret resp
  else
    let endpoint := key_endpoint data in
    r ← Get client endpoint (dest_ptr CheckoutKey);
    match r with
    | inl err =>
        mret (AddError resp "Client Error"
                ("Unable to read checkout key, got error: " +:+ Error err))
    | inr checkoutKey =>
        let data :=
          {| ID := ID data; ProjectSlug := ProjectSlug data;
             Type_ := StringValue (api_Type checkoutKey);
             Fingerprint := Fingerprint data;
             PublicKey := StringValue (api_PublicKey checkoutKey);
             CreatedAt := StringValue (api_CreatedAt checkoutKey) |} in
        mret (State_Set resp data)
    end.

(** [func (r *CheckoutKeyResource) Delete(ctx, req, resp)] *)
Definition Delete (client : CircleCIClient)
    (req : DeleteRequest CheckoutKeyResourceModel)
    (resp : Resp CheckoutKeyResourceModel) : IO (Resp CheckoutKeyResourceModel) :=
  let '(diags, data) := tfsdk_Get (delete_State req) in
  let resp := Diagnostics_Append resp diags in
  if HasError (resp_Diagnostics resp) then mret resp
  else
    let endpoint := key_endpoint data in
    r ← Delete client endpoint;
    match r with
    | inl err =>
        mret (AddError resp "Client Error"
                ("Unable to delete checkout key, got error: " +:+ Error err))
    | inr _ => mret resp
    end.

End Lifecycle.
End CheckoutKeyResource.

(** ** resource_pipeline.go *)

Module PipelineResource.

Record PipelineCommit := { Subject : tfString; Body_ : tfString }.

Record PipelineVCS := {
  vcs_ProviderName : tfString;
  vcs_TargetRepositoryURL : tfString;
  vcs_Branch : tfString;
  vcs_ReviewID : tfString;
  vcs_ReviewURL : tfString;
  vcs_Revision : tfString;
  vcs_Tag : tfString;
  vcs_Commit : tfObject PipelineCommit
}.

Record PipelineResourceModel := {
  ID : tfString;
  ProjectSlug : tfString;
  Branch : tfString;
  Tag : tfString;
  Parameters : tfMap;
  Number : tfInt64;
  State : tfString;
  CreatedAt : tfString;
  UpdatedAt : tfString;
  VCS : tfObject PipelineVCS
}.

(** The API models [CommitInfo], [VCSInfo] and [Pipeline] (the
    [pipeline_parameters] of the latter are read by no handler and left
    out). *)
Record CommitInfo := { api_Subject : string; api_Body : string }.

Record VCSInfo := {
  api_ProviderName : string;
  api_TargetRepositoryURL : string;
  api_Branch : string;
  api_ReviewID : string;
  api_ReviewURL : string;
  api_Revision : string;
  api_Tag : string;
  api_Commit : CommitInfo
}.

Record Pipeline := {
  api_ID : string;
  api_Number : Z;
  api_ProjectSlug : string;
  api_State : string;
  api_CreatedAt : string;
  api_UpdatedAt : string;
  api_VCS : VCSInfo
}.

(** [TriggerPipelineRequest]; [None] is the nil map. *)
Record TriggerPipelineRequest := {
  req_Branch : string;
  req_Tag : string;
  req_Parameters : option (gmap string string)
}.

Section Handlers.
Context {net : NetLib} {unmarshalAPIError : JSONUnmarshal APIError}
        {decodePipeline : JSONDecode Pipeline}
        {marshalTrigger : JSONMarshal TriggerPipelineRequest}.

(** [data.Parameters.ElementsAs(ctx, &parameters, false)]: the
    diagnostics it returns and the Go map it leaves in [parameters]
    ([None] for nil). *)
Variable ElementsAs : tfMap -> list Diagnostic * option (gmap string string).

(** [func (r *PipelineResource) Create(ctx, req, resp)].
    [types.ObjectValueFrom] is applied to structs that match the attribute
    types given, so it yields the object and no diagnostics. *)
Definition Create (client : CircleCIClient) (req : CreateRequest PipelineResourceModel)
    (resp : Resp PipelineResourceModel) : IO (Resp PipelineResourceModel) :=
  let '(diags, data) := tfsdk_Get (create_Plan req) in
  let resp := Diagnostics_Append resp diags in
  if HasError (resp_Diagnostics resp) then mret resp
  else if IsNull (Branch data) && IsNull (Tag data) then
    mret (AddAttributeError resp "branch" "Missing Required Attribute"
            "Either 'branch' or 'tag' must be specified.")
  else if negb (IsNull (Branch data)) && negb (IsNull (Tag data)) then
    mret (AddAttributeError resp "branch" "Conflicting Attributes"
            "Cannot specify both 'branch' and 'tag'.")
  else
    let '(resp, parameters) :=
      if negb (Map_IsNull (Parameters data)) then
        let '(diags, parameters) := ElementsAs (Parameters data) in
        (Diagnostics_Append resp diags, parameters)
      else (resp, None) in
    if negb (Map_IsNull (Parameters data)) && HasError (resp_Diagnostics resp)
    then mret resp
    else
      let triggerReq :=
        {| req_Branch := if negb (IsNull (Branch data))
                         then ValueString (Branch data) else "";
           req_Tag := if negb (IsNull (Tag data))
                      then ValueString (Tag data) else "";
           req_Parameters :=
             match parameters with
             | Some ps => Some (map_fold (fun k v m => <[k := v]> m) ∅ ps)
             | None => None
             end |} in
      let slug := EscapeProjectSlug (ValueString (ProjectSlug data)) in
      let endpoint := "/project/" +:+ slug +:+ "/pipeline" in
      r ← Post client endpoint (body_of triggerReq) (dest_ptr Pipeline);
      match r with
      | inl err =>
          mret (AddError resp "Client Error"
                  ("Unable to trigger pipeline, got error: " +:+ Error err))
      | inr pipeline =>
          let commitObj := ObjectValue
            {| Subject := StringValue (api_Subject (api_Commit (api_VCS pipeline)));
               Body_ := StringValue (api_Body (api_Commit (api_VCS pipeline))) |} in
          let resp := Diagnostics_Append resp [] in
          if HasError (resp_Diagnostics resp) then mret resp
          else
            let vcsObj := ObjectValue
              {| vcs_ProviderName := StringValue (api_ProviderName (api_VCS pipeline));
                 vcs_TargetRepositoryURL :=
                   StringValue (api_TargetRepositoryURL (api_VCS pipeline));
                 vcs_Branch := StringValue (api_Branch (api_VCS pipeline));
                 vcs_ReviewID := StringValue (api_ReviewID (api_VCS pipeline));
                 vcs_ReviewURL := StringValue (api_ReviewURL (api_VCS pipeline));
                 vcs_Revision := StringValue (api_Revision (api_VCS pipeline));
                 vcs_Tag := StringValue (api_Tag (api_VCS pipeline));
                 vcs_Commit := commitObj |} in
            let resp := Diagnostics_Append resp [] in
            if HasError (resp_Diagnostics resp) then mret resp
            else
              let data :=
                {| ID := StringValue (api_ID pipeline);
                   ProjectSlug := ProjectSlug data;
                   Branch := Branch data; Tag := Tag data;
                   Parameters := Parameters data;
                   Number := Int64Value (api_Number pipeline);
                   State := StringValue (api_State pipeline);
                   CreatedAt := StringValue (api_CreatedAt pipeline);
                   UpdatedAt := StringValue (api_UpdatedAt pipeline);
                   VCS := vcsObj |} in
              mret (State_Set resp data)
      end.

(** [func (r *PipelineResource) Read(ctx, req, resp)] *)
Definition Read (client : CircleCIClient) (req : ReadRequest PipelineResourceModel)
    (resp : Resp PipelineResourceModel) : IO (Resp PipelineResourceModel) :=
  let '(diags, data) := tfsdk_Get (read_State req) in
  let resp := Diagnostics_Append resp diags in
  if HasError (resp_Diagnostics resp) then mret resp
  else
    let endpoint := "/pipeline/" +:+ ValueString (ID data) in
    r ← Get client endpoint (dest_ptr Pipeline);
    match r with
    | inl err =>
        mret (AddError resp "Client Error"
                ("Unable to read pipeline, got error: " +:+ Error err))
    | inr pipeline =>
        let data :=
          {| ID := ID data; ProjectSlug := ProjectSlug data;
             Branch := Branch data; Tag := Tag data;
             Parameters := Parameters data;
             Number := Int64Value (api_Number pipeline);
             State := StringValue (api_State pipeline);
             CreatedAt := StringValue (api_CreatedAt pipeline);
             UpdatedAt := StringValue (api_UpdatedAt pipeline);
             VCS := VCS data |} in
        mret (State_Set resp data)
    end.

(** [func (r *PipelineResource) Update(ctx, req, resp)] *)
Definition Update (client : CircleCIClient) (req : UpdateRequest PipelineResourceModel)
    (resp : Resp PipelineResourceModel) : IO (Resp PipelineResourceModel) :=
  mret (AddError resp "Update Not Supported"
    "Pipelines cannot be updated once created. To trigger a new pipeline, create a new resource.").

(** [func (r *PipelineResource) Delete(ctx, req, resp)] *)
Definition Delete (client : CircleCIClient) (req : DeleteRequest PipelineResourceModel)
    (resp : Resp PipelineResourceModel) : IO (Resp PipelineResourceModel) :=
  let '(diags, data) := tfsdk_Get (delete_State req) in
  let resp := Diagnostics_Append resp diags in
  if HasError (resp_Diagnostics resp) then mret resp
  else if decide (ValueString (State data) = "running") then
    let endpoint := "/pipeline/" +:+ ValueString (ID data) +:+ "/cancel" in
    r ← Post client endpoint body_nil dest_nil;
    match r with
    | inl err =>
        mret (AddWarning resp "Pipeline Cancel Failed"
                ("Could not cancel running pipeline: " +:+ Error err))
    | inr _ => mret resp
    end
  else mret resp.

End Handlers.
End PipelineResource.

(** ** resource_job.go *)

Module JobResource.

Record JobResourceModel := {
  ID : tfString;
  JobNumber : tfInt64;
  Name : tfString;
  ProjectSlug : tfString;
  Status : tfString;
  StartedAt : tfString;
  StoppedAt : tfString;
  ApprovalID : tfString;
  ApprovalType : tfString;
  Action : tfString
}.

(** The API model [JobAPI]. *)
Record JobAPI := {
  api_ID : string;
  api_JobNumber : Z;
  api_Name : string;
  api_ProjectSlug : string;
  api_Status : string;
  api_StartedAt : string;
  api_StoppedAt : string;
  api_ApprovalID : string;
  api_ApprovalType : string
}.

(** [func (r *JobResource) mapJobToModel(job *JobAPI, data *JobResourceModel)] *)
Definition mapJobToModel (job : JobAPI) (data : JobResourceModel) : JobResourceModel :=
  {| ID := StringValue (api_ID job);
     JobNumber := Int64Value (api_JobNumber job);
     Name := StringValue (api_Name job);
     ProjectSlug := StringValue (api_ProjectSlug job);
     Status := StringValue (api_Status job);
     StartedAt := StringValue (api_StartedAt job);
     StoppedAt := if decide (api_StoppedAt job ≠ "")
                  then StringValue (api_StoppedAt job) else StringNull;
     ApprovalID := if decide (api_ApprovalID job ≠ "")
                   then StringValue (api_ApprovalID job) else StringNull;
     ApprovalType := if decide (api_ApprovalType job ≠ "")
                     then StringValue (api_ApprovalType job) else StringNull;
     Action := Action data |}.

Section Handlers.
Context {net : NetLib} {unmarshalAPIError : JSONUnmarshal APIError}
        {decodeJob : JSONDecode JobAPI}.

(** One [case] of [performJobAction] after its endpoint is formatted: the
    POST and the status check; [verb] is the word of the error message. *)
Definition post_action (client : CircleCIClient) (endpoint verb : string)
    : IO (option error) :=
  r ← MakeRequest client "POST" endpoint body_nil;
  match r with
  | inl err => mret (Some err)
  | inr httpResp =>
      if decide (StatusCode httpResp ≠ StatusOK)
      then mret (Some (errorString ("failed to " +:+ verb +:+ " job, status: "
                                      +:+ pretty (StatusCode httpResp))))
      else mret None
  end.

(** [func (r *JobResource) performJobAction(ctx, projectSlug, jobNumber,
    action, approvalID) error]; [None] is the nil error. *)
Definition performJobAction (client : CircleCIClient) (projectSlug : string)
    (jobNumber : Z) (action approvalID : string) : IO (option error) :=
  if decide (action = "cancel") then
    post_action client
      ("/v2/project/" +:+ projectSlug +:+ "/job/" +:+ pretty jobNumber +:+ "/cancel")
      "cancel"
  else if decide (action = "approve") then
    if decide (approvalID = "") then
      mret (Some (errorString "approval_id is required for approve action"))
    else
      post_action client
        ("/v2/workflow/" +:+ projectSlug +:+ "/approve/" +:+ approvalID)
        "approve"
  else if decide (action = "rerun") then
    post_action client
      ("/v2/project/" +:+ projectSlug +:+ "/job/" +:+ pretty jobNumber +:+ "/rerun")
      "rerun"
  else
    mret (Some (errorString ("unsupported action: " +:+ action
                  +:+ ". Supported actions: cancel, approve, rerun"))).

(** [func (r *JobResource) Create(ctx, req, resp)] *)
Definition Create (client : CircleCIClient) (req : CreateRequest JobResourceModel)
    (resp : Resp JobResourceModel) : IO (Resp JobResourceModel) :=
  let '(diags, data) := tfsdk_Get (create_Plan req) in
  let resp := Diagnostics_Append resp diags in
  if HasError (resp_Diagnostics resp) then mret resp
  else
    let projectSlug := ValueString (ProjectSlug data) in
    let jobNumber := ValueInt64 (JobNumber data) in
    let endpoint := "/v2/project/" +:+ projectSlug +:+ "/job/" +:+ pretty jobNumber in
    r ← MakeRequest client "GET" endpoint body_nil;
    match r with
    | inl err => mret (AddError resp "Failed to get job" (Error err))
    | inr httpResp =>
        if decide (StatusCode httpResp ≠ StatusOK) then
          mret (AddError resp "Failed to get job"
                  ("CircleCI API returned status " +:+ pretty (StatusCode httpResp)))
        else
          match json_Decode (A := JobAPI) (Body httpResp) with
          | inl err => mret (AddError resp "Failed to decode response" (Error err))
          | inr job =>
              let action := ValueString (Action data) in
              e ← (if decide (action ≠ "")
                   then performJobAction client projectSlug jobNumber action
                          (ValueString (ApprovalID data))
                   else mret None);
              match e with
              | Some err => mret (AddError resp "Failed to perform job action" (Error err))
              | None =>
                  let data := mapJobToModel job data in
                  mret (State_Set resp data)
              end
          end
    end.

(** [func (r *JobResource) Read(ctx, req, resp)] *)
Definition Read (client : CircleCIClient) (req : ReadRequest JobResourceModel)
    (resp : Resp JobResourceModel) : IO (Resp JobResourceModel) :=
  let '(diags, data) := tfsdk_Get (read_State req) in
  let resp := Diagnostics_Append resp diags in
  if HasError (resp_Diagnostics resp) then mret resp
  else
    let projectSlug := ValueString (ProjectSlug data) in
    let jobNumber := ValueInt64 (JobNumber data) in
    let endpoint := "/v2/project/" +:+ projectSlug +:+ "/job/" +:+ pretty jobNumber in
    r ← MakeRequest client "GET" endpoint body_nil;
    match r with
    | inl err => mret (AddError resp "Failed to get job" (Error err))
    | inr httpResp =>
        if decide (StatusCode httpResp = StatusNotFound) then
          mret (RemoveResource resp)
        else if decide (StatusCode httpResp ≠ StatusOK) then
          mret (AddError resp "Failed to get job"
                  ("CircleCI API returned status " +:+ pretty (StatusCode httpResp)))
        else
          match json_Decode (A := JobAPI) (Body httpResp) with
          | inl err => mret (AddError resp "Failed to decode response" (Error err))
          | inr job =>
              let data := mapJobToModel job data in
              mret (State_Set resp data)
          end
    end.

(** [func (r *JobResource) Update(ctx, req, resp)]. The final [r.Read] is
    handed a fresh [ReadResponse] holding copies of [resp.State] and
    [resp.Diagnostics]; what it writes there does not reach [resp]. *)
Definition Update (client : CircleCIClient) (req : UpdateRequest JobResourceModel)
    (resp : Resp JobResourceModel) : IO (Resp JobResourceModel) :=
  let '(diags, data) := tfsdk_Get (update_Plan req) in
  let resp := Diagnostics_Append resp diags in
  if HasError (resp_Diagnostics resp) then mret resp
  else
    let action := ValueString (Action data) in
    e ← (if decide (action ≠ "")
         then
           let projectSlug := ValueString (ProjectSlug data) in
           let jobNumber := ValueInt64 (JobNumber data) in
           performJobAction client projectSlug jobNumber action
             (ValueString (ApprovalID data))
         else mret None);
    match e with
    | Some err => mret (AddError resp "Failed to perform job action" (Error err))
    | None =>
        _ ← Read client {| read_State := update_State req |}
              {| resp_State := resp_State resp;
                 resp_Diagnostics := resp_Diagnostics resp |};
        mret resp
    end.

(** [func (r *JobResource) ImportState(ctx, req, resp)] *)
Definition ImportState (req : ImportStateRequest) (resp : ImportStateResponse)
    : ImportStateResponse :=
  let idParts := SplitN (import_ID req) ":"%char 2 in
  match idParts with
  | [projectSlug; jobNumberStr] =>
      match ParseInt10_64 jobNumberStr with
      | None =>
          import_AddError resp "Invalid job number"
            ("Job number must be a valid integer, got: " +:+ strconv_Quote jobNumberStr)
      | Some jobNumber =>
          let resp := SetAttribute resp "project_slug" (AttrString projectSlug) in
          let resp := SetAttribute resp "job_number" (AttrInt64 jobNumber) in
          SetAttribute resp "id" (AttrString (import_ID req))
      end
  | _ =>
      import_AddError resp "Invalid import ID"
        ("Import ID must be in format 'project_slug:job_number' (e.g., 'gh/myorg/myrepo:123'), got: "
           +:+ strconv_Quote (import_ID req))
  end.

End Handlers.

(** [func (r *JobResource) Delete(ctx, req, resp)]: an empty body. *)
Definition Delete (client : CircleCIClient) (req : DeleteRequest JobResourceModel)
    (resp : Resp JobResourceModel) : IO (Resp JobResourceModel) :=
  mret resp.
End JobResource.

(** ** The runner token resource *)

Module RunnerTokenResource.

Record RunnerTokenResourceModel := {
  ID : tfString;
  ResourceClass : tfString;
  Nickname : tfString;
  Token : tfString;
  CreatedAt : tfString
}.

(** The anonymous [apiResponse] struct of [Read]. *)
Record ReadAPIResponse := {
  api_ID : string;
  api_ResourceClass : string;
  api_Nickname : string;
  api_CreatedAt : string
}.

Section Handlers.
Context {net : NetLib} {decodeToken : JSONDecode ReadAPIResponse}.

(** [func (r *RunnerTokenResource) Read(ctx, req, resp)] *)
Definition Read (client : CircleCIClient) (req : ReadRequest RunnerTokenResourceModel)
    (resp : Resp RunnerTokenResourceModel) : IO (Resp RunnerTokenResourceModel) :=
  let '(diags, data) := tfsdk_Get (read_State req) in
  let resp := Diagnostics_Append resp diags in
  if HasError (resp_Diagnostics resp) then mret resp
  else
    let url := BaseURL client +:+ "/runner/token/" +:+ ValueString (ID data) in
    match http_NewRequest_error "GET" url with
    | Some err =>
        mret (AddError resp "Error creating request"
                ("Unable to create runner token request: " +:+ Error err))
    | None =>
        let httpReq :=
          {| Method := "GET"; URL := url; ReqBody := None;
             Header := <["Accept" := "application/json"]>
                         (<["Circle-Token" := ApiToken client]> ∅) |} in
        r ← Do client httpReq;
        match r with
        | inl err =>
            mret (AddError resp "Error reading runner token"
                    ("Unable to read runner token: " +:+ Error err))
        | inr httpResp =>
            if decide (StatusCode httpResp = StatusNotFound) then
              mret (RemoveResource resp)
            else if decide (StatusCode httpResp ≠ StatusOK) then
              mret (AddError resp "Error reading runner token"
                      ("API returned status " +:+ pretty (StatusCode httpResp)
                         +:+ " when reading runner token"))
            else
              match json_Decode (A := ReadAPIResponse) (Body httpResp) with
              | inl err =>
                  mret (AddError resp "Error parsing response"
                          ("Unable to parse runner token response: " +:+ Error err))
              | inr apiResponse =>
                  let data :=
                    {| ID := StringValue (api_ID apiResponse);
                       ResourceClass := StringValue (api_ResourceClass apiResponse);
                       Nickname := StringValue (api_Nickname apiResponse);
                       Token := Token data;
                       CreatedAt := StringValue (api_CreatedAt apiResponse) |} in
                  mret (State_Set resp data)
              end
        end
    end.

(** [func (r *RunnerTokenResource) Update(ctx, req, resp)] *)
Definition Update (client : CircleCIClient)
    (req : UpdateRequest RunnerTokenResourceModel)
    (resp : Resp RunnerTokenResourceModel) : IO (Resp RunnerTokenResourceModel) :=
  mret (AddError resp "Runner token cannot be updated"
    "Runner tokens are immutable. Any changes require creating a new token.").

(** [func (r *RunnerTokenResource) Delete(ctx, req, resp)] *)
Definition Delete (client : CircleCIClient)
    (req : DeleteRequest RunnerTokenResourceModel)
    (resp : Resp RunnerTokenResourceModel) : IO (Resp RunnerTokenResourceModel) :=
  let '(diags, data) := tfsdk_Get (delete_State req) in
  let resp := Diagnostics_Append resp diags in
  if HasError (resp_Diagnostics resp) then mret resp
  else
    let url := BaseURL client +:+ "/runner/token/" +:+ ValueString (ID data) in
    match http_NewRequest_error "DELETE" url with
    | Some err =>
        mret (AddError resp "Error creating request"
                ("Unable to create runner token deletion request: " +:+ Error err))
    | None =>
        let httpReq :=
          {| Method := "DELETE"; URL := url; ReqBody := None;
             Header := <["Circle-Token" := ApiToken client]> ∅ |} in
        r ← Do client httpReq;
        match r with
        | inl err =>
            mret (AddError resp "Error deleting runner token"
                    ("Unable to delete runner token: " +:+ Error err))
        | inr httpResp =>
            if decide (StatusCode httpResp ≠ StatusOK
                       ∧ StatusCode httpResp ≠ StatusNotFound) then
              mret (AddError resp "Error deleting runner token"
                      ("API returned status " +:+ pretty (StatusCode httpResp)
                         +:+ " when deleting runner token"))
            else mret resp
        end
    end.

End Handlers.

(** The [createReq] map of [Create] and its anonymous [apiResponse]
    struct. *)
Record CreateTokenRequest := {
  req_resource_class : string;
  req_nickname : string
}.

Record CreateAPIResponse := {
  created_ID : string;
  created_ResourceClass : string;
  created_Nickname : string;
  created_Token : string;
  created_CreatedAt : string
}.

Section Lifecycle.
Context {net : NetLib} {decodeCreated : JSONDecode CreateAPIResponse}
        {marshalCreate : JSONMarshal CreateTokenRequest}.

(** The request [Create] builds once the body is marshalled. *)
Definition Create_request (client : CircleCIClient) (body : string) : Request :=
  {| Method := "POST"; URL := BaseURL client +:+ "/runner/token";
     ReqBody := Some body;
     Header := <["Accept" := "application/json"]>
                 (<["Content-Type" := "application/json"]>
                   (<["Circle-Token" := ApiToken client]> ∅)) |}.

(** [func (r *RunnerTokenResource) Create(ctx, req, resp)] *)
Definition Create (client : CircleCIClient)
    (req : CreateRequest RunnerTokenResourceModel)
    (resp : Resp RunnerTokenResourceModel) : IO (Resp RunnerTokenResourceModel) :=
  let '(diags, data) := tfsdk_Get (create_Plan req) in
  let resp := Diagnostics_Append resp diags in
  if HasError (resp_Diagnostics resp) then mret resp
  else
    let createReq := {| req_resource_class := ValueString (ResourceClass data);
                        req_nickname := ValueString (Nickname data) |} in
    match json_Marshal createReq with
    | inl err =>
        mret (AddError resp "Error creating runner token"
                ("Unable to marshal request: " +:+ Error err))
    | inr body =>
        let url := BaseURL client +:+ "/runner/token" in
        match http_NewRequest_error "POST" url with
        | Some err =>
            mret (AddError resp "Error creating request"
                    ("Unable to create runner token request: " +:+ Error err))
        | None =>
            let httpReq := Create_request client body in
            r ← Do client httpReq;
            match r with
            | inl err =>
                mret (AddError resp "Error creating runner token"
                        ("Unable to create runner token: " +:+ Error err))
            | inr httpResp =>
                if decide (StatusCode httpResp ≠ StatusCreated) then
                  mret (AddError resp "Error creating runner token"
                          ("API returned status " +:+ pretty (StatusCode httpResp)
                             +:+ " when creating runner token"))
                else
                  match json_Decode (A := CreateAPIResponse) (Body httpResp) with
                  | inl err =>
                      mret (AddError resp "Error parsing response"
                              ("Unable to parse runner token creation response: "
                                 +:+ Error err))
                  | inr apiResponse =>
                      let data :=
                        {| ID := StringValue (created_ID apiResponse);
                           ResourceClass :=
                             StringValue (created_ResourceClass apiResponse);
                           Nickname := StringValue (created_Nickname apiResponse);
                           Token := StringValue (created_Token apiResponse);
                           CreatedAt := StringValue (created_CreatedAt apiResponse) |} in
                      mret (State_Set resp data)
                  end
            end
        end
    end.

End Lifecycle.
End RunnerTokenResource.

(** ** resource_project.go, first part: the project resource *)

Module ProjectResource.

Record ProjectResourceModel := {
  ID : tfString;
  Slug : tfString;
  Name : tfString;
  Organization : tfString;
  VcsURL : tfString;
  VcsType : tfString
}.

(** The API models [VcsInfo] and [Project]. *)
Record VcsInfo := {
  api_VcsURL : string;
  api_Provider : string;
  api_DefaultBranch : string
}.

Record Project := {
  api_ID : string;
  api_Slug : string;
  api_Name : string;
  api_Organization : string;
  api_VcsInfo : VcsInfo
}.

Section Handlers.
Context {net : NetLib} {unmarshalAPIError : JSONUnmarshal APIError}
        {decodeProject : JSONDecode Project}.

(** [func (r *ProjectResource) readProject(ctx, data, diagnostics)]: the
    model and the diagnostics as the call leaves them. *)
Definition readProject (client : CircleCIClient) (data : ProjectResourceModel)
    (diagnostics : list Diagnostic) : IO (ProjectResourceModel * list Diagnostic) :=
  let slug := EscapeProjectSlug (ValueString (Slug data)) in
  let endpoint := "/project/" +:+ slug in
  r ← Get client endpoint (dest_ptr Project);
  match r with
  | inl err =>
      mret (data, Append diagnostics
                    [ErrorDiagnostic "Client Error"
                       ("Unable to read project, got error: " +:+ Error err)])
  | inr project =>
      mret ({| ID := StringValue (api_ID project);
               Slug := Slug data;
               Name := StringValue (api_Name project);
               Organization := StringValue (api_Organization project);
               VcsURL := StringValue (api_VcsURL (api_VcsInfo project));
               VcsType := StringValue (api_Provider (api_VcsInfo project)) |},
            diagnostics)
  end.

(** [func (r *ProjectResource) Create(ctx, req, resp)] *)
Definition Create (client : CircleCIClient) (req : CreateRequest ProjectResourceModel)
    (resp : Resp ProjectResourceModel) : IO (Resp ProjectResourceModel) :=
  let '(diags, data) := tfsdk_Get (create_Plan req) in
  let resp := Diagnostics_Append resp diags in
  if HasError (resp_Diagnostics resp) then mret resp
  else
    let slug := EscapeProjectSlug (ValueString (Slug data)) in
    let endpoint := "/project/" +:+ slug +:+ "/follow" in
    r ← Post client endpoint body_nil dest_nil;
    match r with
    | inl err =>
        mret (AddError resp "Client Error"
                ("Unable to follow project, got error: " +:+ Error err))
    | inr _ =>
        '(data, diagnostics) ← readProject client data (resp_Diagnostics resp);
        let resp := {| resp_State := resp_State resp;
                       resp_Diagnostics := diagnostics |} in
        if HasError (resp_Diagnostics resp) then mret resp
        else mret (State_Set resp data)
    end.

(** [func (r *ProjectResource) Read(ctx, req, resp)] *)
Definition Read (client : CircleCIClient) (req : ReadRequest ProjectResourceModel)
    (resp : Resp ProjectResourceModel) : IO (Resp ProjectResourceModel) :=
  let '(diags, data) := tfsdk_Get (read_State req) in
  let resp := Diagnostics_Append resp diags in
  if HasError (resp_Diagnostics resp) then mret resp
  else
    '(data, diagnostics) ← readProject client data (resp_Diagnostics resp);
    let resp := {| resp_State := resp_State resp;
                   resp_Diagnostics := diagnostics |} in
    if HasError (resp_Diagnostics resp) then mret resp
    else mret (State_Set resp data).

(** [func (r *ProjectResource) Update(ctx, req, resp)] *)
Definition Update (client : CircleCIClient) (req : UpdateRequest ProjectResourceModel)
    (resp : Resp ProjectResourceModel) : IO (Resp ProjectResourceModel) :=
  let '(diags, data) := tfsdk_Get (update_Plan req) in
  let resp := Diagnostics_Append resp diags in
  if HasError (resp_Diagnostics resp) then mret resp
  else
    let resp := AddWarning resp "Project Update"
      "CircleCI projects are primarily read-only. Most project settings are managed through separate resources." in
    mret (State_Set resp data).

(** [func (r *ProjectResource) Delete(ctx, req, resp)] *)
Definition Delete (client : CircleCIClient) (req : DeleteRequest ProjectResourceModel)
    (resp : Resp ProjectResourceModel) : IO (Resp ProjectResourceModel) :=
  let '(diags, data) := tfsdk_Get (delete_State req) in
  let resp := Diagnostics_Append resp diags in
  if HasError (resp_Diagnostics resp) then mret resp
  else
    let slug := EscapeProjectSlug (ValueString (Slug data)) in
    let endpoint := "/project/" +:+ slug +:+ "/unfollow" in
    r ← Post client endpoint body_nil dest_nil;
    match r with
    | inl err =>
        mret (AddError resp "Client Error"
                ("Unable to unfollow project, got error: " +:+ Error err))
    | inr _ => mret resp
    end.

(** [func (r *ProjectResource) ImportState(ctx, req, resp)] *)
Definition ImportState (req : ImportStateRequest) (resp : ImportStateResponse)
    : ImportStateResponse :=
  SetAttribute resp "slug" (AttrString (import_ID req)).

End Handlers.
End ProjectResource.

(** ** resource_policy.go *)

(** [types.Bool] *)
Inductive tfBool := BoolNull | BoolUnknown | BoolValue (b : bool).

Module PolicyResource.

Record PolicyResourceModel := {
  ID : tfString;
  Name : tfString;
  Description : tfString;
  Content : tfString;
  OrgID : tfString;
  Enabled : tfBool;
  CreatedAt : tfString;
  UpdatedAt : tfString
}.

(** The API model [PolicyAPI]. *)
Record PolicyAPI := {
  api_ID : string;
  api_Name : string;
  api_Description : string;
  api_Content : string;
  api_OrgID : string;
  api_Enabled : bool;
  api_CreatedAt : string;
  api_UpdatedAt : string
}.

(** [func (r *PolicyResource) mapPolicyToModel(policy, data)] *)
Definition mapPolicyToModel (policy : PolicyAPI) (data : PolicyResourceModel)
    : PolicyResourceModel :=
  {| ID := StringValue (api_ID policy);
     Name := StringValue (api_Name policy);
     Description := if decide (api_Description policy ≠ "")
                    then StringValue (api_Description policy) else StringNull;
     Content := StringValue (api_Content policy);
     OrgID := StringValue (api_OrgID policy);
     Enabled := BoolValue (api_Enabled policy);
     CreatedAt := StringValue (api_CreatedAt policy);
     UpdatedAt := StringValue (api_UpdatedAt policy) |}.

Definition StatusNoContent : Z := 204.

Section Handlers.
Context {net : NetLib} {unmarshalAPIError : JSONUnmarshal APIError}
        {decodePolicy : JSONDecode PolicyAPI}.

(** The endpoint Read and Delete format: ["/v2/policy/%s/%s"] *)
Definition policy_endpoint (data : PolicyResourceModel) : string :=
  "/v2/policy/" +:+ ValueString (OrgID data) +:+ "/" +:+ ValueString (ID data).

(** [func (r *PolicyResource) Read(ctx, req, resp)] *)
Definition Read (client : CircleCIClient) (req : ReadRequest PolicyResourceModel)
    (resp : Resp PolicyResourceModel) : IO (Resp PolicyResourceModel) :=
  let '(diags, data) := tfsdk_Get (read_State req) in
  let resp := Diagnostics_Append resp diags in
  if HasError (resp_Diagnostics resp) then mret resp
  else
    let endpoint := policy_endpoint data in
    r ← MakeRequest client "GET" endpoint body_nil;
    match r with
    | inl err => mret (AddError resp "Failed to get policy" (Error err))
    | inr httpResp =>
        if decide (StatusCode httpResp = StatusNotFound) then
          mret (RemoveResource resp)
        else if decide (StatusCode httpResp ≠ StatusOK) then
          mret (AddError resp "Failed to get policy"
                  ("CircleCI API returned status " +:+ pretty (StatusCode httpResp)))
        else
          match json_Decode (A := PolicyAPI) (Body httpResp) with
          | inl err => mret (AddError resp "Failed to decode response" (Error err))
          | inr policy => mret (State_Set resp (mapPolicyToModel policy data))
          end
    end.

(** [func (r *PolicyResource) Delete(ctx, req, resp)] *)
Definition Delete (client : CircleCIClient) (req : DeleteRequest PolicyResourceModel)
    (resp : Resp PolicyResourceModel) : IO (Resp PolicyResourceModel) :=
  let '(diags, data) := tfsdk_Get (delete_State req) in
  let resp := Diagnostics_Append resp diags in
  if HasError (resp_Diagnostics resp) then mret resp
  else
    let endpoint := policy_endpoint data in
    r ← MakeRequest client "DELETE" endpoint body_nil;
    match r with
    | inl err => mret (AddError resp "Failed to delete policy" (Error err))
    | inr httpResp =>
        if decide (StatusCode httpResp ≠ StatusOK
                   ∧ StatusCode httpResp ≠ StatusNoContent) then
          mret (AddError resp "Failed to delete policy"
                  ("CircleCI API returned status " +:+ pretty (StatusCode httpResp)))
        else mret resp
    end.

(** [func (r *PolicyResource) ImportState(ctx, req, resp)] *)
Definition ImportState (req : ImportStateRequest) (resp : ImportStateResponse)
    : ImportStateResponse :=
  let idParts := SplitN (import_ID req) ":"%char 2 in
  match idParts with
  | [orgID; policyID] =>
      let resp := SetAttribute resp "org_id" (AttrString orgID) in
      SetAttribute resp "id" (AttrString policyID)
  | _ =>
      import_AddError resp "Invalid import ID"
        ("Import ID must be in format 'org_id:policy_id', got: "
           +:+ strconv_Quote (import_ID req))
  end.

End Handlers.
End PolicyResource.

(** ** provider.go *)

Module Provider.

(** [CircleCIProviderModel] *)
Record CircleCIProviderModel := {
  cfg_ApiToken : tfString;
  cfg_BaseURL : tfString
}.

Record ConfigureRequest := { Config : CircleCIProviderModel }.

(** [provider.ConfigureResponse]: [None] is the nil provider data. *)
Record ConfigureResponse := {
  DataSourceData : option CircleCIClient;
  ResourceData : option CircleCIClient;
  cfg_Diagnostics : list Diagnostic
}.

Section Configure.
(** [os.Getenv], and the transport behind [&http.Client{}]. *)
Variable Getenv : string -> string.
Variable defaultClient : HttpClient.

(** [func (p *CircleCIProvider) Configure(ctx, req, resp)] *)
Definition Configure (req : ConfigureRequest) (resp : ConfigureResponse)
    : ConfigureResponse :=
  let '(diags, data) := tfsdk_Get (Config req) in
  let diagnostics := Append (cfg_Diagnostics resp) diags in
  if HasError diagnostics then
    {| DataSourceData := DataSourceData resp; ResourceData := ResourceData resp;
       cfg_Diagnostics := diagnostics |}
  else
    let apiToken := if IsNull (cfg_ApiToken data) then Getenv "CIRCLECI_TOKEN"
                    else ValueString (cfg_ApiToken data) in
    let baseURL := if IsNull (cfg_BaseURL data) then "https://circleci.com/api/v2"
                   else ValueString (cfg_BaseURL data) in
    let diagnostics :=
      if decide (apiToken = "") then
        Append diagnostics
          [ErrorDiagnostic "Unable to find API token"
             "The CircleCI API token can be set in the provider configuration block api_token attribute or using the CIRCLECI_TOKEN environment variable. If either is already set, ensure the value is not empty."]
      else diagnostics in
    if HasError diagnostics then
      {| DataSourceData := DataSourceData resp; ResourceData := ResourceData resp;
         cfg_Diagnostics := diagnostics |}
    else
      let client := {| ApiToken := apiToken; BaseURL := baseURL;
                       HTTPClient := defaultClient |} in
      {| DataSourceData := Some client; ResourceData := Some client;
         cfg_Diagnostics := diagnostics |}.

End Configure.
End Provider.

(** ** Identifier helpers of the client *)

(** [strings.Count(s, string(sep))] for a one-byte separator. *)
Fixpoint count_byte (sep : ascii) (s : string) : nat :=
  match s with
  | EmptyString => 0%nat
  | String a rest =>
      if decide (a = sep) then S (count_byte sep rest) else count_byte sep rest
  end.

(** [strings.Contains(s, string(sep))] for a one-byte separator. *)
Definition contains_byte (sep : ascii) (s : string) : bool :=
  match index_byte sep s with Some _ => true | None => false end.

(** [func ParseID(id string) (string, error)] *)
Definition ParseID (id : string) : error + string :=
  if decide (id = "") then inl (errorString "id cannot be empty")
  else if contains_byte "/"%char id
          && bool_decide (2 <= length (SplitN id "/"%char (S (String.length id))))%nat
  then inr id
  else if bool_decide (String.length id = 36%nat)
          && bool_decide (count_byte "-"%char id = 4%nat)
  then inr id
  else inr id.

(** [func ValidateUUID(id string) bool] *)
Definition ValidateUUID (id : string) : bool :=
  bool_decide (String.length id = 36%nat)
  && bool_decide (count_byte "-"%char id = 4%nat).

(** ** Test doubles

    Concrete library implementations and scripted servers on which the
    handlers can be run. *)

Module Fixtures.

(** A stand-in for [q.Encode()]: [k=v&] for every key, in key order of
    the map. *)
Definition encode (q : gmap string (list string)) : string :=
  foldr (fun kv acc => fst kv +:+ "=" +:+ foldr String.append "" (snd kv) +:+ "&" +:+ acc)
        "" (map_to_list q).

(** URLs are kept as text: parsing always succeeds, there is no query in
    the endpoint, escaping and quoting leave the text as it is. *)
Definition net : NetLib :=
  {| ParsedURL := string;
     url_Parse := fun s => inr s;
     URL_Query := fun _ => ∅;
     Values_Encode := encode;
     URL_set_RawQuery := fun u q => u +:+ "?" +:+ q;
     URL_String := fun u => u;
     url_PathEscape := fun s => s;
     http_NewRequest_error := fun _ _ => None;
     strconv_Quote := fun s => "'" +:+ s +:+ "'" |}.

(** A JSON object starts with a brace; anything else is not an error
    body. The message of a decoded error is the text after the brace. *)
Definition unmarshalAPIError : JSONUnmarshal APIError :=
  fun body =>
    match body with
    | String "{" msg => inr {| Message := msg; Code := 0 |}
    | _ => inl (errorString "invalid character looking for beginning of value")
    end.

(** A page on the wire: one byte of token (["."] for none), then the
    items, one byte each. *)
Definition decodePage : JSONDecode (PaginatedResponse string) :=
  fun body =>
    match body with
    | String tok items =>
        inr {| Items := (fun a => String a "") <$> list_ascii_of_string items;
               NextPageToken := if decide (tok = "."%char) then "" else String tok "" |}
    | EmptyString => inl (errorString "EOF")
    end.

(** A server that answers the [n]-th request it receives with the [n]-th
    entry of a script, whatever the request. *)
Definition scripted (answers : list (error + Response)) : HttpClient :=
  fun h _ => default (inl (errorString "EOF")) (answers !! length h).

Definition ok (body : string) : error + Response :=
  inr {| StatusCode := 200; Body := body |}.

Definition status (code : Z) (body : string) : error + Response :=
  inr {| StatusCode := code; Body := body |}.

Definition client (answers : list (error + Response)) : CircleCIClient :=
  {| ApiToken := "token"; BaseURL := "https://circleci.com/api/v2";
     HTTPClient := scripted answers |}.

(** Decoders of the API models: the body is taken as the name (or the
    identifier) of the object, the other fields are fixed. *)
Definition decodeContext : JSONDecode ContextResource.ContextAPI :=
  fun body =>
    inr {| ContextResource.api_ID := "ctx-1";
           ContextResource.api_Name := body;
           ContextResource.api_CreatedAt := "2024-01-01T00:00:00Z";
           ContextResource.api_Owner :=
             {| ContextResource.api_owner_ID := "org-1";
                ContextResource.api_owner_Slug := "github";
                ContextResource.api_owner_Type := "organization" |} |}.

Definition decodeEnvVar : JSONDecode EnvironmentVariableResource.EnvironmentVariable :=
  fun body =>
    inr {| EnvironmentVariableResource.api_Variable := body;
           EnvironmentVariableResource.api_Value := "";
           EnvironmentVariableResource.api_CreatedAt := "";
           EnvironmentVariableResource.api_UpdatedAt := "" |}.

Definition marshalEnvVar
    : JSONMarshal EnvironmentVariableResource.CreateEnvironmentVariableRequest :=
  fun r => inr (EnvironmentVariableResource.req_Name r +:+ "="
                  +:+ EnvironmentVariableResource.req_Value r).

Definition decodePipeline : JSONDecode PipelineResource.Pipeline :=
  fun body =>
    inr {| PipelineResource.api_ID := body;
           PipelineResource.api_Number := 1;
           PipelineResource.api_ProjectSlug := "gh/org/repo";
           PipelineResource.api_State := "created";
           PipelineResource.api_CreatedAt := "";
           PipelineResource.api_UpdatedAt := "";
           PipelineResource.api_VCS :=
             {| PipelineResource.api_ProviderName := "github";
                PipelineResource.api_TargetRepositoryURL := "";
                PipelineResource.api_Branch := "main";
                PipelineResource.api_ReviewID := "";
                PipelineResource.api_ReviewURL := "";
                PipelineResource.api_Revision := "";
                PipelineResource.api_Tag := "";
                PipelineResource.api_Commit :=
                  {| PipelineResource.api_Subject := "";
                     PipelineResource.api_Body := "" |} |} |}.

Definition marshalTrigger : JSONMarshal PipelineResource.TriggerPipelineRequest :=
  fun r => inr (PipelineResource.req_Branch r +:+ "|" +:+ PipelineResource.req_Tag r).

(** [ElementsAs] on a map whose elements are all known. *)
Definition ElementsAs (m : tfMap) : list Diagnostic * option (gmap string string) :=
  match m with
  | MapValue elems => ([], Some (ValueString <$> elems))
  | _ => ([ErrorDiagnostic "Value Conversion Error" "unhandled null or unknown value"], None)
  end.

Definition decodeJob : JSONDecode JobResource.JobAPI :=
  fun body =>
    inr {| JobResource.api_ID := body;
           JobResource.api_JobNumber := 7;
           JobResource.api_Name := "build";
           JobResource.api_ProjectSlug := "gh/org/repo";
           JobResource.api_Status := "on_hold";
           JobResource.api_StartedAt := "";
           JobResource.api_StoppedAt := "";
           JobResource.api_ApprovalID := "";
           JobResource.api_ApprovalType := "" |}.

Definition decodeToken : JSONDecode RunnerTokenResource.ReadAPIResponse :=
  fun body =>
    inr {| RunnerTokenResource.api_ID := body;
           RunnerTokenResource.api_ResourceClass := "org/class";
           RunnerTokenResource.api_Nickname := "nick";
           RunnerTokenResource.api_CreatedAt := "" |}.

(** The response the host hands to Read, Update and Delete: the prior
    state and no diagnostics; and the one it hands to Create. *)
Definition fresh {M} (prior : M) : Resp M :=
  {| resp_State := Some prior; resp_Diagnostics := [] |}.

Definition fresh_create {M} : Resp M :=
  {| resp_State := None; resp_Diagnostics := [] |}.

Definition fresh_import : ImportStateResponse :=
  {| import_State := ∅; import_Diagnostics := [] |}.

(** Further decoders and encoders, on the same pattern. *)
Definition marshalContext : JSONMarshal ContextResource.CreateContextRequest :=
  fun r => inr (ContextResource.req_Name r).

(** [As] on a known owner object; a null or unknown one is reported. *)
Definition Owner_As (o : tfObject ContextResource.ContextOwner)
    : list Diagnostic * ContextResource.ContextOwner :=
  match o with
  | ObjectValue owner => ([], owner)
  | _ =>
      ([ErrorDiagnostic "Value Conversion Error" "unhandled null or unknown value"],
       {| ContextResource.owner_ID := StringNull;
          ContextResource.owner_Slug := StringNull;
          ContextResource.owner_Type := StringNull |})
  end.

Definition decodeKey : JSONDecode CheckoutKeyResource.CheckoutKey :=
  fun body =>
    inr {| CheckoutKeyResource.api_PublicKey := "ssh-rsa AAAA";
           CheckoutKeyResource.api_Type := "deploy-key";
           CheckoutKeyResource.api_Fingerprint := body;
           CheckoutKeyResource.api_Preferred := true;
           CheckoutKeyResource.api_CreatedAt := "" |}.

Definition marshalKey : JSONMarshal CheckoutKeyResource.CreateCheckoutKeyRequest :=
  fun r => inr (CheckoutKeyResource.req_Type r).

Definition decodeProject : JSONDecode ProjectResource.Project :=
  fun body =>
    inr {| ProjectResource.api_ID := body;
           ProjectResource.api_Slug := "gh/org/repo";
           ProjectResource.api_Name := "repo";
           ProjectResource.api_Organization := "org";
           ProjectResource.api_VcsInfo :=
             {| ProjectResource.api_VcsURL := "https://github.com/org/repo";
                ProjectResource.api_Provider := "github";
                ProjectResource.api_DefaultBranch := "main" |} |}.

Definition decodePolicy : JSONDecode PolicyResource.PolicyAPI :=
  fun body =>
    inr {| PolicyResource.api_ID := body;
           PolicyResource.api_Name := "policy";
           PolicyResource.api_Description := "";
           PolicyResource.api_Content := "package org";
           PolicyResource.api_OrgID := "org-1";
           PolicyResource.api_Enabled := true;
           PolicyResource.api_CreatedAt := "";
           PolicyResource.api_UpdatedAt := "" |}.

Definition decodeCreated : JSONDecode RunnerTokenResource.CreateAPIResponse :=
  fun body =>
    inr {| RunnerTokenResource.created_ID := "t-1";
           RunnerTokenResource.created_ResourceClass := "org/class";
           RunnerTokenResource.created_Nickname := "nick";
           RunnerTokenResource.created_Token := body;
           RunnerTokenResource.created_CreatedAt := "" |}.

Definition marshalToken : JSONMarshal RunnerTokenResource.CreateTokenRequest :=
  fun r => inr (RunnerTokenResource.req_resource_class r +:+ "/"
                  +:+ RunnerTokenResource.req_nickname r).

(** A URL parser that rejects every endpoint, the rest as in [net]. *)
Definition net_unparsable : NetLib :=
  {| ParsedURL := string;
     url_Parse := fun s => inl (errorString "invalid URL escape");
     URL_Query := fun _ => ∅;
     Values_Encode := encode;
     URL_set_RawQuery := fun u q => u +:+ "?" +:+ q;
     URL_String := fun u => u;
     url_PathEscape := fun s => s;
     http_NewRequest_error := fun _ _ => None;
     strconv_Quote := fun s => "'" +:+ s +:+ "'" |}.

(** An environment with or without [CIRCLECI_TOKEN]. *)
Definition env_with (token : string) : string -> string :=
  fun name => if decide (name = "CIRCLECI_TOKEN") then token else "".

Definition fresh_configure : Provider.ConfigureResponse :=
  {| Provider.DataSourceData := None; Provider.ResourceData := None;
     Provider.cfg_Diagnostics := [] |}.

End Fixtures.

(** ** Paginated servers *)

Section PaginationSpec.
Context {net : NetLib} {Item : Type} {decodePage : JSONDecode (PaginatedResponse Item)}.

(** The GET that the loop of [GetAllPages] sends while it holds the token
    [tok] (the empty string before the first answer). *)
Definition page_request (c : CircleCIClient) (endpoint : string)
    (params : gmap string string) (tok : string) : Request :=
  MakeRequest_request c "GET" (BuildURL endpoint (page_params params tok)) None.

(** [serves c endpoint params h tok pages]: from history [h] on, the
    server answers the page requests that start with token [tok] with the
    pages [pages], one after the other; every page but the last names a
    next page, the last one does not. *)
Fixpoint serves (c : CircleCIClient) (endpoint : string)
    (params : gmap string string) (h : list Request) (tok : string)
    (pages : list (PaginatedResponse Item)) : Prop :=
  match pages with
  | [] => False
  | page :: rest =>
      let req := page_request c endpoint params tok in
      http_NewRequest_error "GET" (URL req) = None
      /\ (exists resp, HTTPClient c h req = inr resp
                       /\ StatusCode resp < 400
                       /\ json_Decode (Body resp) = inr page)
      /\ match rest with
         | [] => NextPageToken page = ""
         | _ :: _ =>
             NextPageToken page <> ""
             /\ serves c endpoint params (h ++ [req]) (NextPageToken page) rest
         end
  end.

(** The requests a traversal of [pages] consists of: each carries the
    token of the page before it. *)
Fixpoint page_requests (c : CircleCIClient) (endpoint : string)
    (params : gmap string string) (tok : string)
    (pages : list (PaginatedResponse Item)) : list Request :=
  match pages with
  | [] => []
  | page :: rest =>
      page_request c endpoint params tok
        :: page_requests c endpoint params (NextPageToken page) rest
  end.

(** [answers c h reqs pages]: from history [h] on, the server answers the
    requests [reqs], sent one after the other, with the pages [pages]:
    each request can be built, is answered with a status below 400 and a
    body that decodes to its page. *)
Fixpoint answers (c : CircleCIClient) (h : list Request) (reqs : list Request)
    (pages : list (PaginatedResponse Item)) : Prop :=
  match reqs, pages with
  | [], [] => True
  | req :: reqs', page :: pages' =>
      http_NewRequest_error "GET" (URL req) = None
      /\ (exists resp, HTTPClient c h req = inr resp
                       /\ StatusCode resp < 400
                       /\ json_Decode (Body resp) = inr page)
      /\ answers c (h ++ [req]) reqs' pages'
  | _, _ => False
  end.

End PaginationSpec.

(** ** Outcomes of an import *)

(** [strings.Split(s, string(sep))]: all the pieces. *)
Definition Split (s : string) (sep : ascii) : list string :=
  SplitN s sep (S (String.length s)).

(** The number of [sep]-delimited segments of an identifier. *)
Definition segments (s : string) (sep : ascii) : nat := length (Split s sep).

(** The import was rejected: an error is reported and no attribute is
    set. *)
Definition rejected (resp r : ImportStateResponse) : Prop :=
  import_State r = import_State resp
  /\ HasError (import_Diagnostics r) = true.

(** The import set the attributes [k1] and [k2] and the [id], nothing
    else, and reported nothing. *)
Definition imported (resp r : ImportStateResponse) (id : string)
    (k1 : string) (v1 : AttrValue) (k2 : string) (v2 : AttrValue) : Prop :=
  import_State r
  = <["id" := AttrString id]> (<[k2 := v2]> (<[k1 := v1]> (import_State resp)))
  /\ import_Diagnostics r = import_Diagnostics resp.

(** ** Servers that keep paginating *)

Section PaginationMore.
Context {net : NetLib} {Item : Type} {decodePage : JSONDecode (PaginatedResponse Item)}.

(** [serves_on c endpoint params h tok pages]: as [serves], but every page
    of [pages] names a next page, so the traversal is not over after
    them. *)
Fixpoint serves_on (c : CircleCIClient) (endpoint : string)
    (params : gmap string string) (h : list Request) (tok : string)
    (pages : list (PaginatedResponse Item)) : Prop :=
  match pages with
  | [] => True
  | page :: rest =>
      let req := page_request c endpoint params tok in
      http_NewRequest_error "GET" (URL req) = None
      /\ (exists resp, HTTPClient c h req = inr resp
                       /\ StatusCode resp < 400
                       /\ json_Decode (Body resp) = inr page)
      /\ NextPageToken page <> ""
      /\ serves_on c endpoint params (h ++ [req]) (NextPageToken page) rest
  end.

(** The token in hand after the pages [pages], starting with [tok]. *)
Fixpoint last_token (tok : string) (pages : list (PaginatedResponse Item)) : string :=
  match pages with
  | [] => tok
  | page :: rest => last_token (NextPageToken page) rest
  end.

End PaginationMore.

(** ** Errors of the client, named *)

Section StatusError.
Context {unmarshalAPIError : JSONUnmarshal APIError}.

(** The error [MakeRequest] makes of an answer with a status of 400 or
    more. *)
Definition status_error (resp : Response) : error :=
  errAPI match json_Unmarshal (Body resp) with
         | inr e => e
         | inl _ => {| Message := "HTTP " +:+ pretty (StatusCode resp)
                                    +:+ ": " +:+ Body resp;
                       Code := StatusCode resp |}
         end.

End StatusError.

(** * Properties *)

(** ** Diagnostics *)

Lemma HasError_app (ds1 ds2 : list Diagnostic) :
  HasError (ds1 ++ ds2) = HasError ds1 || HasError ds2.
Proof. unfold HasError. apply existsb_app. Qed.

Lemma HasError_elem (d : Diagnostic) (ds : list Diagnostic) :
  d ∈ ds -> is_error d = true -> HasError ds = true.
Proof.
  intros Hin Herr. unfold HasError. apply existsb_exists.
  exists d. split; [by apply list_elem_of_In | done].
Qed.

Lemma Append_one_fresh (ds : list Diagnostic) (d : Diagnostic) :
  d ∉ ds -> Append ds [d] = ds ++ [d].
Proof. intros Hnin. simpl. by rewrite decide_False. Qed.

Lemma Append_one_elem (ds : list Diagnostic) (d : Diagnostic) :
  d ∈ Append ds [d].
Proof.
  simpl. destruct (decide (d ∈ ds)); [done |].
  apply elem_of_app. right. by apply list_elem_of_singleton.
Qed.

Lemma error_not_elem (ds : list Diagnostic) (d : Diagnostic) :
  HasError ds = false -> is_error d = true -> d ∉ ds.
Proof.
  intros Hno Herr Hin. by rewrite (HasError_elem d ds Hin Herr) in Hno.
Qed.

Lemma Append_error_fresh (ds : list Diagnostic) (d : Diagnostic) :
  HasError ds = false -> is_error d = true -> Append ds [d] = ds ++ [d].
Proof. intros Hno Herr. apply Append_one_fresh. by apply error_not_elem. Qed.

Lemma HasError_Append_error (ds : list Diagnostic) (d : Diagnostic) :
  is_error d = true -> HasError (Append ds [d]) = true.
Proof. intros Herr. eapply HasError_elem; [apply Append_one_elem | done]. Qed.

Lemma HasError_Append_warning (ds : list Diagnostic) (d : Diagnostic) :
  is_error d = false -> HasError (Append ds [d]) = HasError ds.
Proof.
  intros Hw. simpl. destruct (decide (d ∈ ds)); [done |].
  rewrite HasError_app. simpl. rewrite Hw. by rewrite !orb_false_r.
Qed.

Lemma HasError_AddError {M} (resp : Resp M) (summary detail : string) :
  HasError (resp_Diagnostics (AddError resp summary detail)) = true.
Proof. by apply HasError_Append_error. Qed.

Lemma State_AddError {M} (resp : Resp M) (summary detail : string) :
  resp_State (AddError resp summary detail) = resp_State resp.
Proof. done. Qed.

Lemma Diagnostics_Append_nil {M} (resp : Resp M) :
  Diagnostics_Append resp [] = resp.
Proof. by destruct resp. Qed.

(** ** The API client *)

Section ClientFacts.
Context {net : NetLib} {unmarshalAPIError : JSONUnmarshal APIError}.

(** What [MakeRequest] does once the request is built and answered. *)
Lemma MakeRequest_answered (c : CircleCIClient) (method endpoint : string)
    (body : ReqPayload) (requestBody : option string) (h : list Request)
    (resp : Response) :
  marshal_body body = inr requestBody ->
  http_NewRequest_error method (BaseURL c +:+ endpoint) = None ->
  HTTPClient c h (MakeRequest_request c method endpoint requestBody) = inr resp ->
  MakeRequest c method endpoint body h =
    (if decide (StatusCode resp >= 400)
     then inl (errAPI match json_Unmarshal (Body resp) with
                      | inr e => e
                      | inl _ => {| Message := "HTTP " +:+ pretty (StatusCode resp)
                                                 +:+ ": " +:+ Body resp;
                                    Code := StatusCode resp |}
                      end)
     else inr resp,
     h ++ [MakeRequest_request c method endpoint requestBody]).
Proof.
  intros Hm Hn Hd. unfold MakeRequest. rewrite Hm, Hn.
  unfold mbind, IO_bind, Do. rewrite Hd.
  by destruct (decide (StatusCode resp >= 400)).
Qed.

(** [MakeRequest] sends at most the one request it builds. *)
Lemma MakeRequest_log (c : CircleCIClient) (method endpoint : string)
    (body : ReqPayload) (h : list Request) :
  snd (MakeRequest c method endpoint body h) = h
  \/ exists requestBody,
       marshal_body body = inr requestBody
       /\ snd (MakeRequest c method endpoint body h) =
            h ++ [MakeRequest_request c method endpoint requestBody].
Proof.
  unfold MakeRequest. destruct (marshal_body body) as [e | rb]; [by left |].
  destruct (http_NewRequest_error _ _); [by left |].
  right. exists rb. split; [done |].
  unfold mbind, IO_bind, Do.
  destruct (HTTPClient c h _) as [e | resp]; [done |].
  by destruct (decide (StatusCode resp >= 400)).
Qed.

(** C2. Whenever the server answers with a status of 400 or more,
    [MakeRequest] returns an error and no response: the [APIError] decoded
    from the body when the body decodes, and otherwise an error whose text
    holds the status and the raw body; an answer with a status below 400
    is returned as it is, with no error. *)
Theorem MakeRequest_status_mapping (c : CircleCIClient) (method endpoint : string)
    (body : ReqPayload) (requestBody : option string) (h : list Request)
    (resp : Response) :
  marshal_body body = inr requestBody ->
  http_NewRequest_error method (BaseURL c +:+ endpoint) = None ->
  HTTPClient c h (MakeRequest_request c method endpoint requestBody) = inr resp ->
  let out := fst (MakeRequest c method endpoint body h) in
  (StatusCode resp >= 400 ->
     (forall apiErr, json_Unmarshal (Body resp) = inr apiErr ->
        out = inl (errAPI apiErr))
     /\ (forall e, json_Unmarshal (A := APIError) (Body resp) = inl e ->
           let generic :=
             errAPI {| Message := "HTTP " +:+ pretty (StatusCode resp)
                                    +:+ ": " +:+ Body resp;
                       Code := StatusCode resp |} in
           out = inl generic
           /\ Error generic =
                "CircleCI API error (code " +:+ pretty (StatusCode resp)
                  +:+ "): HTTP " +:+ pretty (StatusCode resp)
                  +:+ ": " +:+ Body resp))
  /\ (StatusCode resp < 400 -> out = inr resp).
Proof.
  intros Hm Hn Hd out. subst out.
  rewrite (MakeRequest_answered _ _ _ _ _ _ _ Hm Hn Hd). simpl. split.
  - intros Hge. rewrite decide_True by done. split.
    + intros apiErr ->. done.
    + intros e ->. split; [done |].
      simpl. unfold APIError_Error. simpl.
      rewrite decide_True by lia. done.
  - intros Hlt. rewrite decide_False by lia. done.
Qed.

End ClientFacts.

(** ** Pagination *)

(** The loop of [BuildURL] overrides the keys of [params] in the query
    of the endpoint and keeps the others. *)
Lemma BuildURL_fold (params : gmap string string) (q0 : gmap string (list string)) :
  map_fold (fun key value q => <[key := [value]]> q) q0 params
  = ((fun value => [value]) <$> params) ∪ q0.
Proof.
  apply (map_fold_weak_ind
           (fun r m => r = ((fun value => [value]) <$> m) ∪ q0)).
  - by rewrite fmap_empty, (left_id_L ∅ (∪)).
  - intros i x m r _ ->. by rewrite fmap_insert, insert_union_l.
Qed.

Section PaginationFacts.
Context {net : NetLib} {unmarshalAPIError : JSONUnmarshal APIError}
        {Item : Type} {decodePage : JSONDecode (PaginatedResponse Item)}.

(** No token yet: the parameters are those of the caller. *)
Lemma page_params_first (params : gmap string string) :
  page_params params "" = params.
Proof. unfold page_params. by rewrite decide_False by (intros Hne; by apply Hne). Qed.

(** A token in hand: it is sent as [page-token]. *)
Lemma page_params_next (params : gmap string string) (tok : string) :
  tok <> "" -> page_params params tok = <["page-token" := tok]> params.
Proof. intros Hne. unfold page_params. by rewrite decide_True. Qed.

(** One successful iteration: the GET of a page. *)
Lemma Get_page (c : CircleCIClient) (endpoint : string)
    (params : gmap string string) (tok : string) (h : list Request)
    (resp : Response) (page : PaginatedResponse Item) :
  http_NewRequest_error "GET" (URL (page_request c endpoint params tok)) = None ->
  HTTPClient c h (page_request c endpoint params tok) = inr resp ->
  StatusCode resp < 400 ->
  json_Decode (Body resp) = inr page ->
  Get c (BuildURL endpoint (page_params params tok))
      (dest_ptr (PaginatedResponse Item)) h
  = (inr page, h ++ [page_request c endpoint params tok]).
Proof.
  intros Hn Hd Hlt Hdec. unfold Get, mbind, IO_bind.
  rewrite (MakeRequest_answered c "GET" _ body_nil None h resp eq_refl Hn Hd).
  rewrite decide_False by lia. simpl. by rewrite Hdec.
Qed.

(** The loop, started anywhere in a traversal. *)
Lemma GetAllPages_loop_serves (c : CircleCIClient) (endpoint : string)
    (params : gmap string string) (pages : list (PaginatedResponse Item)) :
  forall (fuel : nat) (h : list Request) (tok : string) (allItems : list Item),
    serves c endpoint params h tok pages ->
    (length pages <= fuel)%nat ->
    GetAllPages_loop fuel c endpoint params allItems tok h
    = (Some (inr (allItems ++ concat (Items <$> pages))),
       h ++ page_requests c endpoint params tok pages).
Proof.
  induction pages as [| page rest IH]; intros fuel h tok allItems Hs Hfuel.
  - destruct Hs.
  - destruct fuel as [| fuel]; [simpl in Hfuel; lia |].
    destruct Hs as (Hn & (resp & Hd & Hlt & Hdec) & Hrest).
    cbn [GetAllPages_loop]. unfold mbind, IO_bind.
    rewrite (Get_page c endpoint params tok h resp page Hn Hd Hlt Hdec).
    destruct rest as [| page' rest'].
    + rewrite decide_True by done. cbn. by rewrite app_nil_r.
    + destruct Hrest as [Hne Hs']. rewrite decide_False by done.
      rewrite (IH fuel _ _ _ Hs') by (simpl in *; lia).
      cbn [fmap list_fmap concat page_requests].
      by rewrite <- !app_assoc.
Qed.

(** The requests of a traversal, page by page: the first with the token
    the traversal starts with, every later one with the token of the page
    before it. *)
Lemma page_requests_snoc (c : CircleCIClient) (endpoint : string)
    (params : gmap string string) (front : list (PaginatedResponse Item))
    (last : PaginatedResponse Item) :
  forall tok,
    page_requests c endpoint params tok (front ++ [last])
    = page_request c endpoint params tok
        :: ((fun page => page_request c endpoint params (NextPageToken page))
              <$> front).
Proof.
  induction front as [| page rest IH]; intros tok; [done |].
  cbn [app page_requests fmap list_fmap]. by rewrite IH.
Qed.

(** A server that answers the requests of a traversal serves its pages. *)
Lemma answers_serves (c : CircleCIClient) (endpoint : string)
    (params : gmap string string) (front : list (PaginatedResponse Item))
    (last : PaginatedResponse Item) :
  forall (h : list Request) (tok : string),
    answers c h (page_requests c endpoint params tok (front ++ [last]))
      (front ++ [last]) ->
    Forall (fun page => NextPageToken page <> "") front ->
    NextPageToken last = "" ->
    serves c endpoint params h tok (front ++ [last]).
Proof.
  induction front as [| page rest IH]; intros h tok Ha Hfront Hlast.
  - cbn in *. destruct Ha as (Hn & Hresp & _). by repeat split.
  - cbn [app page_requests answers] in Ha. destruct Ha as (Hn & Hresp & Ha).
    apply Forall_cons in Hfront as [Hne Hfront].
    specialize (IH _ _ Ha Hfront Hlast).
    cbn [app serves]. split; [done |]. split; [done |].
    destruct (rest ++ [last]) as [| page' rest'] eqn:Hrest.
    + by destruct rest.
    + by split.
Qed.

(** The URL of the first iteration, on an endpoint that parses. *)
Lemma BuildURL_first_page (endpoint : string) (u : ParsedURL)
    (params : gmap string string) :
  url_Parse endpoint = inr u ->
  BuildURL endpoint (page_params params "")
  = if decide (params = ∅) then endpoint
    else URL_String (URL_set_RawQuery u
           (Values_Encode (((fun value => [value]) <$> params) ∪ URL_Query u))).
Proof.
  intros Hparse. rewrite page_params_first. unfold BuildURL.
  destruct (decide (params = ∅)) as [-> | Hne].
  - by rewrite decide_True by apply map_size_empty.
  - rewrite decide_False by (by rewrite map_size_empty_iff).
    by rewrite Hparse, BuildURL_fold.
Qed.

(** The URL of a later iteration: the token is set as [page-token] in
    the query. *)
Lemma BuildURL_next_page (endpoint : string) (u : ParsedURL)
    (params : gmap string string) (tok : string) :
  url_Parse endpoint = inr u ->
  tok <> "" ->
  BuildURL endpoint (page_params params tok)
  = URL_String (URL_set_RawQuery u
      (Values_Encode (<["page-token" := [tok]]>
                        (((fun value => [value]) <$> params) ∪ URL_Query u)))).
Proof.
  intros Hparse Hne. rewrite page_params_next by done. unfold BuildURL.
  rewrite decide_False
    by (rewrite map_size_empty_iff; apply insert_non_empty).
  by rewrite Hparse, BuildURL_fold, fmap_insert, insert_union_l.
Qed.


End PaginationFacts.



(** A 500 answer whose body is not JSON becomes the generic error; the
    request is the only one sent. *)
Lemma MakeRequest_status_mapping_witness :
  let c := Fixtures.client [Fixtures.status 500 "oops"] in
  let resp := {| StatusCode := 500; Body := "oops" |} in
  marshal_body body_nil = inr None
  /\ http_NewRequest_error (NetLib := Fixtures.net) "GET" (BaseURL c +:+ "/me") = None
  /\ HTTPClient c [] (MakeRequest_request c "GET" "/me" None) = inr resp
  /\ fst (MakeRequest (net := Fixtures.net)
            (unmarshalAPIError := Fixtures.unmarshalAPIError)
            c "GET" "/me" body_nil [])
     = inl (errAPI {| Message := "HTTP 500: oops"; Code := 500 |}).
Proof.
  intros c resp.
  assert (Hm : marshal_body body_nil = inr None) by reflexivity.
  assert (Hn : http_NewRequest_error (NetLib := Fixtures.net) "GET"
                 (BaseURL c +:+ "/me") = None) by reflexivity.
  assert (Hd : HTTPClient c [] (MakeRequest_request c "GET" "/me" None) = inr resp)
    by reflexivity.
  split; [exact Hm |]. split; [exact Hn |]. split; [exact Hd |].
  destruct (MakeRequest_status_mapping (net := Fixtures.net)
              (unmarshalAPIError := Fixtures.unmarshalAPIError)
              c "GET" "/me" body_nil None [] resp Hm Hn Hd) as [Hge _].
  destruct (Hge ltac:(simpl; lia)) as [_ Hgeneric].
  exact (proj1 (Hgeneric _ eq_refl)).
Defined.

(** ** Read and a remote object that is gone *)

Section ClientStatusFacts.
Context {net : NetLib} {unmarshalAPIError : JSONUnmarshal APIError}.

(** A response that [MakeRequest] returns has a status below 400. *)
Lemma MakeRequest_ok_status (c : CircleCIClient) (method endpoint : string)
    (body : ReqPayload) (h : list Request) (resp : Response) :
  fst (MakeRequest c method endpoint body h) = inr resp -> StatusCode resp < 400.
Proof.
  unfold MakeRequest. destruct (marshal_body body); [discriminate |].
  destruct (http_NewRequest_error _ _); [discriminate |].
  unfold mbind, IO_bind, Do. destruct (HTTPClient c h _) as [e | r]; [discriminate |].
  destruct (decide (StatusCode r >= 400)); [discriminate |].
  simpl. intros [= ->]. lia.
Qed.

(** An answer with a status of 400 or more makes [Get] fail with an
    [APIError], whatever the destination. *)
Lemma Get_error_status {A} (c : CircleCIClient) (endpoint : string)
    (result : Dest A) (h : list Request) (resp : Response) :
  http_NewRequest_error "GET" (BaseURL c +:+ endpoint) = None ->
  HTTPClient c h (MakeRequest_request c "GET" endpoint None) = inr resp ->
  StatusCode resp >= 400 ->
  exists apiErr,
    Get c endpoint result h
    = (inl (errAPI apiErr), h ++ [MakeRequest_request c "GET" endpoint None]).
Proof.
  intros Hn Hd Hge. unfold Get, mbind, IO_bind.
  rewrite (MakeRequest_answered c "GET" endpoint body_nil None h resp eq_refl Hn Hd).
  rewrite decide_True by done. eexists. reflexivity.
Qed.

End ClientStatusFacts.

Section ReadNotFound.
Context {net : NetLib} {unmarshalAPIError : JSONUnmarshal APIError}
        {decodeContext : JSONDecode ContextResource.ContextAPI}
        {decodeEnvVar : JSONDecode EnvironmentVariableResource.EnvironmentVariable}
        {decodePipeline : JSONDecode PipelineResource.Pipeline}
        {decodeJob : JSONDecode JobResource.JobAPI}
        {decodeToken : JSONDecode RunnerTokenResource.ReadAPIResponse}.

(** The Read of a context whose GET is answered with an error status
    (404 included) keeps the state and reports an error. *)
Lemma ContextResource_Read_error_status (client : CircleCIClient)
    (req : ReadRequest ContextResource.ContextResourceModel)
    (resp : Resp ContextResource.ContextResourceModel)
    (h : list Request) (httpResp : Response) :
  let endpoint := "/context/" +:+ ValueString (ContextResource.ID (read_State req)) in
  HasError (resp_Diagnostics resp) = false ->
  http_NewRequest_error "GET" (BaseURL client +:+ endpoint) = None ->
  HTTPClient client h (MakeRequest_request client "GET" endpoint None) = inr httpResp ->
  StatusCode httpResp >= 400 ->
  let r := fst (ContextResource.Read client req resp h) in
  resp_State r = resp_State resp /\ HasError (resp_Diagnostics r) = true.
Proof.
  intros endpoint Hno Hn Hd Hge r. subst r. unfold ContextResource.Read.
  cbn [tfsdk_Get]. rewrite Diagnostics_Append_nil, Hno.
  unfold mbind, IO_bind.
  destruct (Get_error_status client endpoint
              (dest_ptr ContextResource.ContextAPI) h httpResp Hn Hd Hge) as [e He].
  fold endpoint. rewrite He. cbn [fst mret IO_ret].
  split; [apply State_AddError | apply HasError_AddError].
Qed.

(** The same for an environment variable. *)
Lemma EnvironmentVariableResource_Read_error_status (client : CircleCIClient)
    (req : ReadRequest EnvironmentVariableResource.EnvironmentVariableResourceModel)
    (resp : Resp EnvironmentVariableResource.EnvironmentVariableResourceModel)
    (h : list Request) (httpResp : Response) :
  let endpoint := EnvironmentVariableResource.endpoint_of (read_State req) in
  HasError (resp_Diagnostics resp) = false ->
  http_NewRequest_error "GET" (BaseURL client +:+ endpoint) = None ->
  HTTPClient client h (MakeRequest_request client "GET" endpoint None) = inr httpResp ->
  StatusCode httpResp >= 400 ->
  let r := fst (EnvironmentVariableResource.Read client req resp h) in
  resp_State r = resp_State resp /\ HasError (resp_Diagnostics r) = true.
Proof.
  intros endpoint Hno Hn Hd Hge r. subst r. unfold EnvironmentVariableResource.Read.
  cbn [tfsdk_Get]. rewrite Diagnostics_Append_nil, Hno.
  unfold mbind, IO_bind.
  destruct (Get_error_status client endpoint
              (dest_ptr EnvironmentVariableResource.EnvironmentVariable)
              h httpResp Hn Hd Hge) as [e He].
  fold endpoint. rewrite He. cbn [fst mret IO_ret].
  split; [apply State_AddError | apply HasError_AddError].
Qed.

(** The same for a pipeline. *)
Lemma PipelineResource_Read_error_status (client : CircleCIClient)
    (req : ReadRequest PipelineResource.PipelineResourceModel)
    (resp : Resp PipelineResource.PipelineResourceModel)
    (h : list Request) (httpResp : Response) :
  let endpoint := "/pipeline/" +:+ ValueString (PipelineResource.ID (read_State req)) in
  HasError (resp_Diagnostics resp) = false ->
  http_NewRequest_error "GET" (BaseURL client +:+ endpoint) = None ->
  HTTPClient client h (MakeRequest_request client "GET" endpoint None) = inr httpResp ->
  StatusCode httpResp >= 400 ->
  let r := fst (PipelineResource.Read client req resp h) in
  resp_State r = resp_State resp /\ HasError (resp_Diagnostics r) = true.
Proof.
  intros endpoint Hno Hn Hd Hge r. subst r. unfold PipelineResource.Read.
  cbn [tfsdk_Get]. rewrite Diagnostics_Append_nil, Hno.
  unfold mbind, IO_bind.
  destruct (Get_error_status client endpoint
              (dest_ptr PipelineResource.Pipeline) h httpResp Hn Hd Hge) as [e He].
  fold endpoint. rewrite He. cbn [fst mret IO_ret].
  split; [apply State_AddError | apply HasError_AddError].
Qed.

(** X25. The Read of a job never removes the resource: the test for 404
    comes after [MakeRequest], which has turned every status of 400 or
    more into an error. *)
Lemma JobResource_Read_never_removes (client : CircleCIClient)
    (req : ReadRequest JobResource.JobResourceModel)
    (resp : Resp JobResource.JobResourceModel) (h : list Request) :
  resp_State resp <> None ->
  resp_State (fst (JobResource.Read client req resp h)) <> None.
Proof.
  intros Hsome. unfold JobResource.Read. cbn [tfsdk_Get].
  rewrite Diagnostics_Append_nil.
  destruct (HasError (resp_Diagnostics resp)); [done |].
  unfold mbind, IO_bind.
  match goal with |- context [MakeRequest ?c ?m ?e ?b h] =>
    pose proof (MakeRequest_ok_status c m e b h) as Hok;
    destruct (MakeRequest c m e b h) as [[err | httpResp] h'] end.
  - done.
  - specialize (Hok httpResp eq_refl).
    rewrite decide_False by (unfold StatusNotFound; lia).
    destruct (decide (StatusCode httpResp <> StatusOK)); [done |].
    destruct (json_Decode (Body httpResp)); done.
Qed.

(** X14. The Read of a runner token, which talks to the transport
    itself, does drop the resource on 404 and reports nothing. *)
Lemma RunnerTokenResource_Read_not_found (client : CircleCIClient)
    (req : ReadRequest RunnerTokenResource.RunnerTokenResourceModel)
    (resp : Resp RunnerTokenResource.RunnerTokenResourceModel)
    (h : list Request) (httpReq : Request) (httpResp : Response) :
  let url := BaseURL client +:+ "/runner/token/"
               +:+ ValueString (RunnerTokenResource.ID (read_State req)) in
  HasError (resp_Diagnostics resp) = false ->
  http_NewRequest_error "GET" url = None ->
  httpReq = {| Method := "GET"; URL := url; ReqBody := None;
               Header := <["Accept" := "application/json"]>
                           (<["Circle-Token" := ApiToken client]> ∅) |} ->
  HTTPClient client h httpReq = inr httpResp ->
  StatusCode httpResp = StatusNotFound ->
  RunnerTokenResource.Read client req resp h
  = ({| resp_State := None; resp_Diagnostics := resp_Diagnostics resp |},
     h ++ [httpReq]).
Proof.
  intros url Hno Hn -> Hd H404. unfold RunnerTokenResource.Read.
  cbn [tfsdk_Get]. rewrite Diagnostics_Append_nil, Hno.
  fold url. rewrite Hn. unfold mbind, IO_bind, Do. rewrite Hd.
  by rewrite decide_True.
Qed.

End ReadNotFound.

(** C3. A 404 on Read, resource by resource. For a context, an
    environment variable, a pipeline and a job, a GET answered with 404
    leaves the tracked state in place and reports an error diagnostic;
    only the runner token is dropped from the state without a diagnostic. *)
Theorem Read_not_found_by_resource :
  let gone := Fixtures.client [Fixtures.status 404 "{Not found."] in
  let context :=
    {| ContextResource.ID := StringValue "ctx-1";
       ContextResource.Name := StringValue "shared-context";
       ContextResource.Owner := ObjectNull |} in
  let envVar :=
    {| EnvironmentVariableResource.ID := StringValue "ctx-1:KEY";
       EnvironmentVariableResource.ContextID := StringValue "ctx-1";
       EnvironmentVariableResource.Name := StringValue "KEY";
       EnvironmentVariableResource.Value := StringValue "secret" |} in
  let pipeline :=
    {| PipelineResource.ID := StringValue "p-1";
       PipelineResource.ProjectSlug := StringValue "gh/org/repo";
       PipelineResource.Branch := StringValue "main";
       PipelineResource.Tag := StringNull;
       PipelineResource.Parameters := MapNull;
       PipelineResource.Number := Int64Value 1;
       PipelineResource.State := StringValue "created";
       PipelineResource.CreatedAt := StringNull;
       PipelineResource.UpdatedAt := StringNull;
       PipelineResource.VCS := ObjectNull |} in
  let job :=
    {| JobResource.ID := StringValue "j-1";
       JobResource.JobNumber := Int64Value 7;
       JobResource.Name := StringValue "build";
       JobResource.ProjectSlug := StringValue "gh/org/repo";
       JobResource.Status := StringValue "success";
       JobResource.StartedAt := StringNull;
       JobResource.StoppedAt := StringNull;
       JobResource.ApprovalID := StringNull;
       JobResource.ApprovalType := StringNull;
       JobResource.Action := StringNull |} in
  let token :=
    {| RunnerTokenResource.ID := StringValue "t-1";
       RunnerTokenResource.ResourceClass := StringValue "org/class";
       RunnerTokenResource.Nickname := StringValue "nick";
       RunnerTokenResource.Token := StringValue "secret";
       RunnerTokenResource.CreatedAt := StringNull |} in
  fst (ContextResource.Read (net := Fixtures.net)
         (unmarshalAPIError := Fixtures.unmarshalAPIError)
         (decodeContext := Fixtures.decodeContext)
         gone {| read_State := context |} (Fixtures.fresh context) [])
  = {| resp_State := Some context;
       resp_Diagnostics :=
         [ErrorDiagnostic "Client Error"
            "Unable to read context, got error: CircleCI API error: Not found."] |}
  /\ fst (EnvironmentVariableResource.Read (net := Fixtures.net)
            (unmarshalAPIError := Fixtures.unmarshalAPIError)
            (decodeEnvVar := Fixtures.decodeEnvVar)
            gone {| read_State := envVar |} (Fixtures.fresh envVar) [])
     = {| resp_State := Some envVar;
          resp_Diagnostics :=
            [ErrorDiagnostic "Client Error"
               "Unable to read environment variable, got error: CircleCI API error: Not found."] |}
  /\ fst (PipelineResource.Read (net := Fixtures.net)
            (unmarshalAPIError := Fixtures.unmarshalAPIError)
            (decodePipeline := Fixtures.decodePipeline)
            gone {| read_State := pipeline |} (Fixtures.fresh pipeline) [])
     = {| resp_State := Some pipeline;
          resp_Diagnostics :=
            [ErrorDiagnostic "Client Error"
               "Unable to read pipeline, got error: CircleCI API error: Not found."] |}
  /\ fst (JobResource.Read (net := Fixtures.net)
            (unmarshalAPIError := Fixtures.unmarshalAPIError)
            (decodeJob := Fixtures.decodeJob)
            gone {| read_State := job |} (Fixtures.fresh job) [])
     = {| resp_State := Some job;
          resp_Diagnostics :=
            [ErrorDiagnostic "Failed to get job" "CircleCI API error: Not found."] |}
  /\ fst (RunnerTokenResource.Read (net := Fixtures.net)
            (decodeToken := Fixtures.decodeToken)
            gone {| read_State := token |} (Fixtures.fresh token) [])
     = {| resp_State := None; resp_Diagnostics := [] |}.
Proof. repeat split; vm_compute; reflexivity. Qed.

(** ** Import of composite identifiers *)

Lemma index_byte_append (sep : ascii) (a b : string) :
  index_byte sep a = None ->
  index_byte sep (a +:+ String sep b) = Some (String.length a).
Proof.
  induction a as [| x a IH]; simpl.
  - intros _. by rewrite decide_True.
  - destruct (decide (x = sep)); [discriminate |].
    destruct (index_byte sep a); [discriminate |].
    intros _. by rewrite IH.
Qed.

Lemma take_string_append (a b : string) :
  take_string (String.length a) (a +:+ b) = a.
Proof. induction a as [| x a IH]; simpl; [by destruct b | by rewrite IH]. Qed.

Lemma drop_string_append (sep : ascii) (a b : string) :
  drop_string (S (String.length a)) (a +:+ String sep b) = b.
Proof. induction a as [| x a IH]; simpl; [by destruct b | done]. Qed.

(** No separator: one piece, the identifier itself. *)
Lemma SplitN_2_none (sep : ascii) (s : string) :
  index_byte sep s = None -> SplitN s sep 2 = [s].
Proof. intros Hn. simpl. by rewrite Hn. Qed.

(** A separator: two pieces, cut at the first one. *)
Lemma SplitN_2_first (sep : ascii) (a b : string) :
  index_byte sep a = None -> SplitN (a +:+ String sep b) sep 2 = [a; b].
Proof.
  intros Hn. cbn [SplitN]. rewrite (index_byte_append sep a b Hn).
  by rewrite take_string_append, drop_string_append.
Qed.

(** Two colon-free texts joined by a colon make an identifier of exactly
    two segments, and a colon-free text is one segment. *)
Lemma SplitN_none (sep : ascii) (s : string) (n : nat) :
  index_byte sep s = None -> SplitN s sep (S n) = [s].
Proof. intros Hn. destruct n; [done |]. cbn [SplitN]. by rewrite Hn. Qed.

Lemma SplitN_unfold (sep : ascii) (s : string) (n : nat) :
  SplitN s sep (S (S n))
  = match index_byte sep s with
    | None => [s]
    | Some m => take_string m s :: SplitN (drop_string (S m) s) sep (S n)
    end.
Proof. reflexivity. Qed.

Lemma segments_one (sep : ascii) (a : string) :
  index_byte sep a = None -> segments a sep = 1%nat.
Proof. intros Ha. unfold segments, Split. by rewrite SplitN_none. Qed.

Lemma segments_two (sep : ascii) (a b : string) :
  index_byte sep a = None -> index_byte sep b = None ->
  segments (a +:+ String sep b) sep = 2%nat.
Proof.
  intros Ha Hb. unfold segments, Split.
  destruct (String.length (a +:+ String sep b)) as [| n] eqn:Hlen.
  - destruct a; discriminate.
  - rewrite SplitN_unfold, (index_byte_append sep a b Ha).
    by rewrite drop_string_append, SplitN_none.
Qed.

Lemma rejected_AddError (resp : ImportStateResponse) (summary detail : string) :
  rejected resp (import_AddError resp summary detail).
Proof. split; [done | by apply HasError_Append_error]. Qed.

Section ImportFacts.
Context {net : NetLib}.

(** C4 (amended). The import handlers cut the identifier at its first
    colon. For [a] free of colons: the identifier [a:b] sets the two
    attributes to [a] and [b] and the id to the identifier (for a job,
    provided [b] reads as a base-10 [int64], and the import is rejected
    otherwise); the identifier [a], which has no colon, is rejected: an
    error is reported and no attribute is set. Colons in [b] are allowed:
    they stay in the second attribute. *)
Theorem ImportState_cuts_at_first_colon (resp : ImportStateResponse) (a b : string) :
  index_byte ":"%char a = None ->
  let id := a +:+ ":" +:+ b in
  imported resp
    (EnvironmentVariableResource.ImportState {| import_ID := id |} resp)
    id "context_id" (AttrString a) "name" (AttrString b)
  /\ imported resp
       (CheckoutKeyResource.ImportState {| import_ID := id |} resp)
       id "project_slug" (AttrString a) "fingerprint" (AttrString b)
  /\ match ParseInt10_64 b with
     | Some jobNumber =>
         imported resp (JobResource.ImportState {| import_ID := id |} resp)
           id "project_slug" (AttrString a) "job_number" (AttrInt64 jobNumber)
     | None => rejected resp (JobResource.ImportState {| import_ID := id |} resp)
     end
  /\ rejected resp (EnvironmentVariableResource.ImportState {| import_ID := a |} resp)
  /\ rejected resp (CheckoutKeyResource.ImportState {| import_ID := a |} resp)
  /\ rejected resp (JobResource.ImportState {| import_ID := a |} resp).
Proof.
  intros Hn id.
  assert (Hid : SplitN id ":"%char 2 = [a; b]) by apply (SplitN_2_first _ _ _ Hn).
  assert (Ha : SplitN a ":"%char 2 = [a]) by apply (SplitN_2_none _ _ Hn).
  unfold EnvironmentVariableResource.ImportState, CheckoutKeyResource.ImportState,
    JobResource.ImportState.
  cbn [import_ID]. rewrite Hid, Ha.
  repeat split; try (by apply HasError_Append_error).
  destruct (ParseInt10_64 b); [by split | apply rejected_AddError].
Qed.

End ImportFacts.

(** A job identifier of two segments with a numeric second one. *)
Lemma ImportState_cuts_at_first_colon_witness :
  let a := "gh/org/repo" in
  let b := "123" in
  index_byte ":"%char a = None
  /\ imported Fixtures.fresh_import
       (JobResource.ImportState (net := Fixtures.net)
          {| import_ID := "gh/org/repo:123" |} Fixtures.fresh_import)
       "gh/org/repo:123" "project_slug" (AttrString a) "job_number" (AttrInt64 123)
  /\ rejected Fixtures.fresh_import
       (JobResource.ImportState (net := Fixtures.net)
          {| import_ID := "gh/org/repo" |} Fixtures.fresh_import).
Proof.
  intros a b.
  assert (Hn : index_byte ":"%char a = None) by reflexivity.
  split; [exact Hn |].
  pose proof (ImportState_cuts_at_first_colon (net := Fixtures.net)
                Fixtures.fresh_import a b Hn) as Hcut.
  split.
  - exact (proj1 (proj2 (proj2 Hcut))).
  - exact (proj2 (proj2 (proj2 (proj2 (proj2 Hcut))))).
Defined.

(** C4, as stated, fails. An identifier of three segments is not
    rejected by the import of an environment variable: the text after the
    first colon, second colon included, becomes the name. And an
    identifier of exactly two segments is rejected by the import of a job
    when the second segment is not a number. *)
Lemma ImportState_segment_count_counterexample :
  let three := "ctx-1:KEY:extra" in
  let r := EnvironmentVariableResource.ImportState (net := Fixtures.net)
             {| import_ID := three |} Fixtures.fresh_import in
  let two := "gh/org/repo:abc" in
  let j := JobResource.ImportState (net := Fixtures.net)
             {| import_ID := two |} Fixtures.fresh_import in
  segments three ":"%char = 3%nat
  /\ ~ rejected Fixtures.fresh_import r
  /\ import_State r !! "name" = Some (AttrString "KEY:extra")
  /\ import_Diagnostics r = []
  /\ segments two ":"%char = 2%nat
  /\ rejected Fixtures.fresh_import j.
Proof.
  intros three r two j. split; [reflexivity |]. split.
  - intros [_ Herr]. vm_compute in Herr. discriminate.
  - split; [vm_compute; reflexivity |]. split; [reflexivity |].
    split; [reflexivity |]. split; vm_compute; reflexivity.
Qed.

(** ** The approve action of a job *)

Section JobFacts.
Context {net : NetLib} {unmarshalAPIError : JSONUnmarshal APIError}
        {decodeJob : JSONDecode JobResource.JobAPI}.

(** Without an approval id, [performJobAction] fails on the spot. *)
Lemma performJobAction_approve_no_id (client : CircleCIClient)
    (projectSlug : string) (jobNumber : Z) (h : list Request) :
  JobResource.performJobAction client projectSlug jobNumber "approve" "" h
  = (Some (errorString "approval_id is required for approve action"), h).
Proof. reflexivity. Qed.

(** C5 (amended). With the action [approve] and no approval id, Update
    fails with the validation error before any request is sent and leaves
    the state alone. Create always ends with an error and never sets the
    state, but it validates only after its GET of the job: it sends that
    GET (and nothing else, never the approve POST), and reports the
    validation error when the GET is answered with 200 and a body that
    decodes. *)
Theorem Job_approve_requires_approval_id (client : CircleCIClient)
    (data prior : JobResource.JobResourceModel)
    (resp : Resp JobResource.JobResourceModel) (h : list Request) :
  ValueString (JobResource.Action data) = "approve" ->
  ValueString (JobResource.ApprovalID data) = "" ->
  HasError (resp_Diagnostics resp) = false ->
  let failure :=
    AddError resp "Failed to perform job action"
      "approval_id is required for approve action" in
  let get :=
    MakeRequest_request client "GET"
      ("/v2/project/" +:+ ValueString (JobResource.ProjectSlug data) +:+ "/job/"
         +:+ pretty (ValueInt64 (JobResource.JobNumber data))) None in
  let created := JobResource.Create client {| create_Plan := data |} resp h in
  JobResource.Update client {| update_Plan := data; update_State := prior |} resp h
  = (failure, h)
  /\ HasError (resp_Diagnostics failure) = true
  /\ resp_State failure = resp_State resp
  /\ HasError (resp_Diagnostics (fst created)) = true
  /\ resp_State (fst created) = resp_State resp
  /\ (snd created = h \/ snd created = h ++ [get])
  /\ (forall httpResp job,
        http_NewRequest_error "GET" (URL get) = None ->
        HTTPClient client h get = inr httpResp ->
        StatusCode httpResp = StatusOK ->
        json_Decode (Body httpResp) = inr job ->
        created = (failure, h ++ [get])).
Proof.
  intros Hact Hid Hno failure get created.
  split; [| split; [apply HasError_AddError | split; [apply State_AddError |]]].
  { unfold JobResource.Update. cbn [tfsdk_Get update_Plan].
    rewrite Diagnostics_Append_nil, Hno, Hact, Hid. reflexivity. }
  subst created. unfold JobResource.Create. cbn [tfsdk_Get create_Plan].
  rewrite Diagnostics_Append_nil, Hno, Hact, Hid.
  unfold mbind, IO_bind.
  match goal with |- context [MakeRequest client "GET" ?e body_nil h] =>
    set (endpoint := e) in * end.
  pose proof (MakeRequest_log client "GET" endpoint body_nil h) as Hlog.
  assert (Hget : forall httpResp,
            http_NewRequest_error "GET" (URL get) = None ->
            HTTPClient client h get = inr httpResp ->
            StatusCode httpResp = StatusOK ->
            MakeRequest client "GET" endpoint body_nil h = (inr httpResp, h ++ [get])).
  { intros httpResp Hn Hd Hok.
    rewrite (MakeRequest_answered client "GET" endpoint body_nil None h httpResp
               eq_refl Hn Hd).
    by rewrite decide_False by (rewrite Hok; unfold StatusOK; lia). }
  assert (Hlog' : snd (MakeRequest client "GET" endpoint body_nil h) = h
                  \/ snd (MakeRequest client "GET" endpoint body_nil h) = h ++ [get]).
  { destruct Hlog as [-> | (rb & [= <-] & ->)]; [by left | by right]. }
  clear Hlog.
  destruct (MakeRequest client "GET" endpoint body_nil h) as [[err | httpResp] h'].
  - cbn [fst snd] in *. split; [apply HasError_AddError |].
    split; [apply State_AddError |]. split; [exact Hlog' |].
    intros httpResp job Hn Hd Hok _. by specialize (Hget httpResp Hn Hd Hok).
  - cbn [fst snd] in Hlog'.
    destruct (decide (StatusCode httpResp <> StatusOK)) as [Hst | Hst].
    + cbn [fst snd mret IO_ret]. split; [apply HasError_AddError |].
      split; [apply State_AddError |]. split; [exact Hlog' |].
      intros httpResp' job Hn Hd Hok _.
      specialize (Hget httpResp' Hn Hd Hok). injection Hget as -> _. done.
    + destruct (json_Decode (Body httpResp)) as [err | job] eqn:Hdec.
      * cbn [fst snd mret IO_ret]. split; [apply HasError_AddError |].
        split; [apply State_AddError |]. split; [exact Hlog' |].
        intros httpResp' job Hn Hd Hok Hdec'.
        specialize (Hget httpResp' Hn Hd Hok). injection Hget as -> _. congruence.
      * cbv beta. rewrite (decide_True (P := "approve" <> "")) by done.
        rewrite performJobAction_approve_no_id.
        cbn [fst snd mret IO_ret]. split; [apply HasError_AddError |].
        split; [apply State_AddError |]. split; [exact Hlog' |].
        intros httpResp' job' Hn Hd Hok Hdec'.
        specialize (Hget httpResp' Hn Hd Hok). by injection Hget as _ ->.
Qed.

End JobFacts.

(** An approval job planned with the action [approve] and no approval id. *)
Lemma Job_approve_requires_approval_id_witness :
  let client := Fixtures.client [Fixtures.ok "j-1"] in
  let data :=
    {| JobResource.ID := StringUnknown;
       JobResource.JobNumber := Int64Value 7;
       JobResource.Name := StringUnknown;
       JobResource.ProjectSlug := StringValue "gh/org/repo";
       JobResource.Status := StringUnknown;
       JobResource.StartedAt := StringUnknown;
       JobResource.StoppedAt := StringUnknown;
       JobResource.ApprovalID := StringNull;
       JobResource.ApprovalType := StringUnknown;
       JobResource.Action := StringValue "approve" |} in
  let resp := Fixtures.fresh data in
  ValueString (JobResource.Action data) = "approve"
  /\ ValueString (JobResource.ApprovalID data) = ""
  /\ HasError (resp_Diagnostics resp) = false
  /\ JobResource.Update (net := Fixtures.net)
       (unmarshalAPIError := Fixtures.unmarshalAPIError)
       (decodeJob := Fixtures.decodeJob)
       client {| update_Plan := data; update_State := data |} resp []
     = (AddError resp "Failed to perform job action"
          "approval_id is required for approve action", []).
Proof.
  intros client data resp.
  assert (Hact : ValueString (JobResource.Action data) = "approve") by reflexivity.
  assert (Hid : ValueString (JobResource.ApprovalID data) = "") by reflexivity.
  assert (Hno : HasError (resp_Diagnostics resp) = false) by reflexivity.
  split; [exact Hact |]. split; [exact Hid |]. split; [exact Hno |].
  exact (proj1 (Job_approve_requires_approval_id (net := Fixtures.net)
                  (unmarshalAPIError := Fixtures.unmarshalAPIError)
                  (decodeJob := Fixtures.decodeJob)
                  client data data resp [] Hact Hid Hno)).
Defined.

(** C5, as stated, fails for Create: with the action [approve] and no
    approval id, Create has already sent its GET of the job when it
    reports the validation error. *)
Lemma Job_Create_validates_after_GET_counterexample :
  let client := Fixtures.client [Fixtures.ok "j-1"] in
  let data :=
    {| JobResource.ID := StringUnknown;
       JobResource.JobNumber := Int64Value 7;
       JobResource.Name := StringUnknown;
       JobResource.ProjectSlug := StringValue "gh/org/repo";
       JobResource.Status := StringUnknown;
       JobResource.StartedAt := StringUnknown;
       JobResource.StoppedAt := StringUnknown;
       JobResource.ApprovalID := StringNull;
       JobResource.ApprovalType := StringUnknown;
       JobResource.Action := StringValue "approve" |} in
  let create :=
    JobResource.Create (net := Fixtures.net)
      (unmarshalAPIError := Fixtures.unmarshalAPIError)
      (decodeJob := Fixtures.decodeJob)
      client {| create_Plan := data |} Fixtures.fresh_create in
  sent create []
  = [MakeRequest_request client "GET" "/v2/project/gh/org/repo/job/7" None]
  /\ sent create [] <> []
  /\ resp_Diagnostics (fst (create []))
     = [ErrorDiagnostic "Failed to perform job action"
          "approval_id is required for approve action"].
Proof.
  intros client data create.
  assert (Hsent : sent create []
                  = [MakeRequest_request client "GET" "/v2/project/gh/org/repo/job/7" None])
    by (vm_compute; reflexivity).
  split; [exact Hsent |]. split; [by rewrite Hsent |].
  vm_compute. reflexivity.
Qed.

(** ** Pipelines: branch or tag *)

Section ClientLogFacts.
Context {net : NetLib} {unmarshalAPIError : JSONUnmarshal APIError}.

(** [Post], like [MakeRequest], sends at most the request it builds. *)
Lemma Post_log {A} (c : CircleCIClient) (endpoint : string) (body : ReqPayload)
    (result : Dest A) (h : list Request) :
  snd (Post c endpoint body result h) = h
  \/ exists requestBody,
       marshal_body body = inr requestBody
       /\ snd (Post c endpoint body result h)
          = h ++ [MakeRequest_request c "POST" endpoint requestBody].
Proof.
  unfold Post, mbind, IO_bind.
  pose proof (MakeRequest_log c "POST" endpoint body h) as Hlog.
  destruct (MakeRequest c "POST" endpoint body h) as [[err | resp] h']; exact Hlog.
Qed.

End ClientLogFacts.

Section PipelineCreateFacts.
Context {net : NetLib} {unmarshalAPIError : JSONUnmarshal APIError}
        {decodePipeline : JSONDecode PipelineResource.Pipeline}
        {marshalTrigger : JSONMarshal PipelineResource.TriggerPipelineRequest}.
Variable ElementsAs : tfMap -> list Diagnostic * option (gmap string string).

(** C6. Create of a pipeline with neither branch nor tag, or with both,
    adds an error diagnostic on [branch] and returns with no request sent
    and the state untouched; a request is sent only when exactly one of
    the two is null. *)
Theorem Pipeline_Create_branch_xor_tag (client : CircleCIClient)
    (req : CreateRequest PipelineResource.PipelineResourceModel)
    (resp : Resp PipelineResource.PipelineResourceModel) (h : list Request) :
  HasError (resp_Diagnostics resp) = false ->
  let data := create_Plan req in
  let out := PipelineResource.Create ElementsAs client req resp h in
  let failed d :=
    ({| resp_State := resp_State resp;
        resp_Diagnostics := resp_Diagnostics resp ++ [d] |}, h) in
  (IsNull (PipelineResource.Branch data) = true ->
   IsNull (PipelineResource.Tag data) = true ->
   out = failed (AttributeErrorDiagnostic "branch" "Missing Required Attribute"
                   "Either 'branch' or 'tag' must be specified."))
  /\ (IsNull (PipelineResource.Branch data) = false ->
      IsNull (PipelineResource.Tag data) = false ->
      out = failed (AttributeErrorDiagnostic "branch" "Conflicting Attributes"
                      "Cannot specify both 'branch' and 'tag'."))
  /\ (snd out <> h ->
      xorb (IsNull (PipelineResource.Branch data))
           (IsNull (PipelineResource.Tag data)) = true).
Proof.
  intros Hno data out failed. subst out failed.
  unfold PipelineResource.Create. cbn [tfsdk_Get]. fold data.
  rewrite Diagnostics_Append_nil, Hno.
  split; [| split].
  - intros -> ->. cbn [andb mret IO_ret].
    unfold AddAttributeError, Diagnostics_Append.
    by rewrite Append_error_fresh.
  - intros -> ->. cbn [andb negb mret IO_ret].
    unfold AddAttributeError, Diagnostics_Append.
    by rewrite Append_error_fresh.
  - destruct (IsNull (PipelineResource.Branch data)),
             (IsNull (PipelineResource.Tag data)); cbn; try done.
Qed.

(** What Create sends, when it sends: one POST to the pipeline endpoint
    of the project. *)
Lemma Pipeline_Create_log (client : CircleCIClient)
    (req : CreateRequest PipelineResource.PipelineResourceModel)
    (resp : Resp PipelineResource.PipelineResourceModel) (h : list Request) :
  let endpoint :=
    "/project/"
      +:+ EscapeProjectSlug (ValueString (PipelineResource.ProjectSlug (create_Plan req)))
      +:+ "/pipeline" in
  snd (PipelineResource.Create ElementsAs client req resp h) = h
  \/ exists requestBody,
       snd (PipelineResource.Create ElementsAs client req resp h)
       = h ++ [MakeRequest_request client "POST" endpoint requestBody].
Proof.
  intros endpoint. unfold PipelineResource.Create. cbn [tfsdk_Get].
  rewrite Diagnostics_Append_nil.
  destruct (HasError (resp_Diagnostics resp)); [by left |].
  destruct (IsNull (PipelineResource.Branch (create_Plan req)) && _); [by left |].
  destruct (negb (IsNull (PipelineResource.Branch (create_Plan req))) && _); [by left |].
  match goal with |- context [let '(_, _) := ?e in _] => destruct e as [resp' parameters] end.
  destruct (negb (Map_IsNull _) && _); [by left |].
  unfold mbind, IO_bind. fold endpoint.
  match goal with |- context [Post client endpoint ?b ?d h] =>
    pose proof (Post_log client endpoint b d h) as Hlog;
    destruct (Post client endpoint b d h) as [[err | pipeline] h'] end.
  - cbn in *. destruct Hlog as [-> | (rb & _ & ->)]; [by left | right; by exists rb].
  - cbn [fst snd] in *. rewrite !Diagnostics_Append_nil.
    assert (Hh : h' = h \/ exists rb, h' = h ++ [MakeRequest_request client "POST" endpoint rb]).
    { destruct Hlog as [-> | (rb & _ & ->)]; [by left | right; by exists rb]. }
    by destruct (HasError (resp_Diagnostics resp')).
Qed.

End PipelineCreateFacts.

(** C6 at a plan that sets both a branch and a tag. *)
Lemma Pipeline_Create_branch_xor_tag_witness :
  let client := Fixtures.client [Fixtures.ok "p-1"] in
  let data :=
    {| PipelineResource.ID := StringUnknown;
       PipelineResource.ProjectSlug := StringValue "gh/org/repo";
       PipelineResource.Branch := StringValue "main";
       PipelineResource.Tag := StringValue "v1.0";
       PipelineResource.Parameters := MapNull;
       PipelineResource.Number := Int64Unknown;
       PipelineResource.State := StringUnknown;
       PipelineResource.CreatedAt := StringUnknown;
       PipelineResource.UpdatedAt := StringUnknown;
       PipelineResource.VCS := ObjectUnknown |} in
  HasError (resp_Diagnostics (Fixtures.fresh_create (M := PipelineResource.PipelineResourceModel)))
  = false
  /\ PipelineResource.Create (net := Fixtures.net)
       (unmarshalAPIError := Fixtures.unmarshalAPIError)
       (decodePipeline := Fixtures.decodePipeline)
       (marshalTrigger := Fixtures.marshalTrigger)
       Fixtures.ElementsAs client {| create_Plan := data |} Fixtures.fresh_create []
     = ({| resp_State := None;
           resp_Diagnostics :=
             [AttributeErrorDiagnostic "branch" "Conflicting Attributes"
                "Cannot specify both 'branch' and 'tag'."] |}, []).
Proof.
  intros client data.
  assert (Hno : HasError (resp_Diagnostics
                  (Fixtures.fresh_create (M := PipelineResource.PipelineResourceModel)))
                = false) by reflexivity.
  split; [exact Hno |].
  exact (proj1 (proj2 (Pipeline_Create_branch_xor_tag (net := Fixtures.net)
                         (unmarshalAPIError := Fixtures.unmarshalAPIError)
                         (decodePipeline := Fixtures.decodePipeline)
                         (marshalTrigger := Fixtures.marshalTrigger)
                         Fixtures.ElementsAs client {| create_Plan := data |}
                         Fixtures.fresh_create [] Hno))
           eq_refl eq_refl).
Defined.

(** ** Environment variables: the value is write-only *)

Section EnvironmentVariableFacts.
Context {net : NetLib} {unmarshalAPIError : JSONUnmarshal APIError}
        {decodeEnvVar : JSONDecode EnvironmentVariableResource.EnvironmentVariable}
        {marshalEnvVar :
           JSONMarshal EnvironmentVariableResource.CreateEnvironmentVariableRequest}.

(** The state Create leaves, when it leaves one: the plan, with the id
    filled in. *)
Lemma EnvironmentVariable_Create_state (client : CircleCIClient)
    (plan s : EnvironmentVariableResource.EnvironmentVariableResourceModel)
    (resp : Resp EnvironmentVariableResource.EnvironmentVariableResourceModel)
    (h : list Request) :
  resp_State resp = None ->
  resp_State (fst (EnvironmentVariableResource.Create client
                     {| create_Plan := plan |} resp h)) = Some s ->
  EnvironmentVariableResource.Value s = EnvironmentVariableResource.Value plan
  /\ EnvironmentVariableResource.ContextID s = EnvironmentVariableResource.ContextID plan
  /\ EnvironmentVariableResource.Name s = EnvironmentVariableResource.Name plan.
Proof.
  intros Hnone. unfold EnvironmentVariableResource.Create.
  cbn [tfsdk_Get create_Plan]. rewrite Diagnostics_Append_nil.
  destruct (HasError (resp_Diagnostics resp)).
  { cbn. rewrite Hnone. discriminate. }
  unfold mbind, IO_bind.
  match goal with |- context [Put client ?e ?b ?d h] =>
    destruct (Put client e b d h) as [[err | envVar] h'] end.
  - cbn. rewrite Hnone. discriminate.
  - cbn. intros [= <-]. done.
Qed.

(** C7. Read of an environment variable never touches the value: the
    state after Read holds the value, the context id and the id of the
    prior state, whatever the server answered, and the only attribute
    taken from the answer is the name. Hence a Read that follows a Create
    still holds the value that was planned. *)
Theorem EnvironmentVariable_Read_keeps_value (client : CircleCIClient)
    (prior : EnvironmentVariableResource.EnvironmentVariableResourceModel)
    (resp : Resp EnvironmentVariableResource.EnvironmentVariableResourceModel)
    (h : list Request) :
  resp_State resp = Some prior ->
  let read := EnvironmentVariableResource.Read client {| read_State := prior |} resp h in
  let answer :=
    fst (Get client (EnvironmentVariableResource.endpoint_of prior)
           (dest_ptr EnvironmentVariableResource.EnvironmentVariable) h) in
  (exists name,
     resp_State (fst read)
     = Some {| EnvironmentVariableResource.ID := EnvironmentVariableResource.ID prior;
               EnvironmentVariableResource.ContextID :=
                 EnvironmentVariableResource.ContextID prior;
               EnvironmentVariableResource.Name := name;
               EnvironmentVariableResource.Value :=
                 EnvironmentVariableResource.Value prior |}
     /\ (name = EnvironmentVariableResource.Name prior
         \/ exists envVar,
              answer = inr envVar
              /\ name = StringValue (EnvironmentVariableResource.api_Variable envVar)))
  /\ (forall plan respC hC,
        resp_State respC = None ->
        resp_State (fst (EnvironmentVariableResource.Create client
                           {| create_Plan := plan |} respC hC)) = Some prior ->
        exists s,
          resp_State (fst read) = Some s
          /\ EnvironmentVariableResource.Value s
             = EnvironmentVariableResource.Value plan).
Proof.
  intros Hprior read answer.
  assert (Hread : exists name,
     resp_State (fst read)
     = Some {| EnvironmentVariableResource.ID := EnvironmentVariableResource.ID prior;
               EnvironmentVariableResource.ContextID :=
                 EnvironmentVariableResource.ContextID prior;
               EnvironmentVariableResource.Name := name;
               EnvironmentVariableResource.Value :=
                 EnvironmentVariableResource.Value prior |}
     /\ (name = EnvironmentVariableResource.Name prior
         \/ exists envVar,
              answer = inr envVar
              /\ name = StringValue (EnvironmentVariableResource.api_Variable envVar))).
  { subst read answer. unfold EnvironmentVariableResource.Read.
    cbn [tfsdk_Get read_State]. rewrite Diagnostics_Append_nil.
    destruct (HasError (resp_Diagnostics resp)).
    { exists (EnvironmentVariableResource.Name prior). cbn. rewrite Hprior.
      split; [by destruct prior | by left]. }
    unfold mbind, IO_bind.
    destruct (Get client (EnvironmentVariableResource.endpoint_of prior)
                (dest_ptr EnvironmentVariableResource.EnvironmentVariable) h)
      as [[err | envVar] h'].
    - exists (EnvironmentVariableResource.Name prior). cbn. rewrite Hprior.
      split; [by destruct prior | by left].
    - exists (StringValue (EnvironmentVariableResource.api_Variable envVar)).
      cbn. split; [done | right; by exists envVar]. }
  split; [exact Hread |].
  intros plan respC hC Hnone Hcreated.
  destruct (EnvironmentVariable_Create_state client plan prior respC hC Hnone Hcreated)
    as (Hvalue & _ & _).
  destruct Hread as (name & -> & _). eexists. split; [reflexivity |]. exact Hvalue.
Qed.

End EnvironmentVariableFacts.

(** A Read after a Create, against a server that answers both. *)
Lemma EnvironmentVariable_Read_keeps_value_witness :
  let client := Fixtures.client [Fixtures.ok "KEY"; Fixtures.ok "KEY"] in
  let prior :=
    {| EnvironmentVariableResource.ID := StringValue "ctx-1:KEY";
       EnvironmentVariableResource.ContextID := StringValue "ctx-1";
       EnvironmentVariableResource.Name := StringValue "KEY";
       EnvironmentVariableResource.Value := StringValue "secret" |} in
  resp_State (Fixtures.fresh prior) = Some prior
  /\ exists name,
       resp_State (fst (EnvironmentVariableResource.Read (net := Fixtures.net)
                          (unmarshalAPIError := Fixtures.unmarshalAPIError)
                          (decodeEnvVar := Fixtures.decodeEnvVar)
                          client {| read_State := prior |} (Fixtures.fresh prior) []))
       = Some {| EnvironmentVariableResource.ID := StringValue "ctx-1:KEY";
                 EnvironmentVariableResource.ContextID := StringValue "ctx-1";
                 EnvironmentVariableResource.Name := name;
                 EnvironmentVariableResource.Value := StringValue "secret" |}.
Proof.
  intros client prior.
  assert (Hprior : resp_State (Fixtures.fresh prior) = Some prior) by reflexivity.
  split; [exact Hprior |].
  destruct (proj1 (EnvironmentVariable_Read_keeps_value (net := Fixtures.net)
                     (unmarshalAPIError := Fixtures.unmarshalAPIError)
                     (decodeEnvVar := Fixtures.decodeEnvVar)
                     (marshalEnvVar := Fixtures.marshalEnvVar)
                     client prior (Fixtures.fresh prior) [] Hprior))
    as (name & Hstate & _).
  exists name. exact Hstate.
Defined.

(** ** Update of the immutable resources *)

(** C8. Update of a context, a checkout key, a runner token or a
    pipeline adds one error diagnostic, which says that the resource
    cannot be updated, sends no request and leaves the state as it
    was. *)
Theorem Update_immutable_is_refused (client : CircleCIClient)
    (reqContext : UpdateRequest ContextResource.ContextResourceModel)
    (respContext : Resp ContextResource.ContextResourceModel)
    (reqKey : UpdateRequest CheckoutKeyResource.CheckoutKeyResourceModel)
    (respKey : Resp CheckoutKeyResource.CheckoutKeyResourceModel)
    (reqToken : UpdateRequest RunnerTokenResource.RunnerTokenResourceModel)
    (respToken : Resp RunnerTokenResource.RunnerTokenResourceModel)
    (reqPipeline : UpdateRequest PipelineResource.PipelineResourceModel)
    (respPipeline : Resp PipelineResource.PipelineResourceModel)
    (h : list Request) :
  HasError (resp_Diagnostics respContext) = false ->
  HasError (resp_Diagnostics respKey) = false ->
  HasError (resp_Diagnostics respToken) = false ->
  HasError (resp_Diagnostics respPipeline) = false ->
  ContextResource.Update client reqContext respContext h
  = ({| resp_State := resp_State respContext;
        resp_Diagnostics :=
          resp_Diagnostics respContext ++
          [ErrorDiagnostic "Update Not Supported"
             "CircleCI contexts cannot be updated. Changes to name or owner require destroying and recreating the context."] |},
     h)
  /\ CheckoutKeyResource.Update client reqKey respKey h
     = ({| resp_State := resp_State respKey;
           resp_Diagnostics :=
             resp_Diagnostics respKey ++
             [ErrorDiagnostic "Update Not Supported"
                "CircleCI checkout keys cannot be updated. Changes require destroying and recreating the key."] |},
        h)
  /\ RunnerTokenResource.Update client reqToken respToken h
     = ({| resp_State := resp_State respToken;
           resp_Diagnostics :=
             resp_Diagnostics respToken ++
             [ErrorDiagnostic "Runner token cannot be updated"
                "Runner tokens are immutable. Any changes require creating a new token."] |},
        h)
  /\ PipelineResource.Update client reqPipeline respPipeline h
     = ({| resp_State := resp_State respPipeline;
           resp_Diagnostics :=
             resp_Diagnostics respPipeline ++
             [ErrorDiagnostic "Update Not Supported"
                "Pipelines cannot be updated once created. To trigger a new pipeline, create a new resource."] |},
        h).
Proof.
  intros HnoC HnoK HnoT HnoP.
  unfold ContextResource.Update, CheckoutKeyResource.Update,
    RunnerTokenResource.Update, PipelineResource.Update.
  cbn [tfsdk_Get]. rewrite Diagnostics_Append_nil, HnoC.
  unfold AddError, Diagnostics_Append.
  rewrite !Append_error_fresh by done. done.
Qed.

(** C8 at the responses the host hands over: the prior state and no
    diagnostics. *)
Lemma Update_immutable_is_refused_witness :
  let client := Fixtures.client [] in
  let context :=
    {| ContextResource.ID := StringValue "ctx-1";
       ContextResource.Name := StringValue "shared-context";
       ContextResource.Owner := ObjectNull |} in
  let key :=
    {| CheckoutKeyResource.ID := StringValue "gh/org/repo:aa:bb";
       CheckoutKeyResource.ProjectSlug := StringValue "gh/org/repo";
       CheckoutKeyResource.Type_ := StringValue "deploy-key";
       CheckoutKeyResource.Fingerprint := StringValue "aa:bb";
       CheckoutKeyResource.PublicKey := StringNull;
       CheckoutKeyResource.CreatedAt := StringNull |} in
  let token :=
    {| RunnerTokenResource.ID := StringValue "t-1";
       RunnerTokenResource.ResourceClass := StringValue "org/class";
       RunnerTokenResource.Nickname := StringValue "nick";
       RunnerTokenResource.Token := StringValue "secret";
       RunnerTokenResource.CreatedAt := StringNull |} in
  let pipeline :=
    {| PipelineResource.ID := StringValue "p-1";
       PipelineResource.ProjectSlug := StringValue "gh/org/repo";
       PipelineResource.Branch := StringValue "main";
       PipelineResource.Tag := StringNull;
       PipelineResource.Parameters := MapNull;
       PipelineResource.Number := Int64Value 1;
       PipelineResource.State := StringValue "created";
       PipelineResource.CreatedAt := StringNull;
       PipelineResource.UpdatedAt := StringNull;
       PipelineResource.VCS := ObjectNull |} in
  HasError (resp_Diagnostics (Fixtures.fresh context)) = false
  /\ HasError (resp_Diagnostics (Fixtures.fresh key)) = false
  /\ HasError (resp_Diagnostics (Fixtures.fresh token)) = false
  /\ HasError (resp_Diagnostics (Fixtures.fresh pipeline)) = false
  /\ PipelineResource.Update client
       {| update_Plan := pipeline; update_State := pipeline |}
       (Fixtures.fresh pipeline) []
     = ({| resp_State := Some pipeline;
           resp_Diagnostics :=
             [ErrorDiagnostic "Update Not Supported"
                "Pipelines cannot be updated once created. To trigger a new pipeline, create a new resource."] |},
        []).
Proof.
  intros client context key token pipeline.
  repeat (split; [reflexivity |]).
  exact (proj2 (proj2 (proj2
    (Update_immutable_is_refused client
       {| update_Plan := context; update_State := context |} (Fixtures.fresh context)
       {| update_Plan := key; update_State := key |} (Fixtures.fresh key)
       {| update_Plan := token; update_State := token |} (Fixtures.fresh token)
       {| update_Plan := pipeline; update_State := pipeline |} (Fixtures.fresh pipeline)
       [] eq_refl eq_refl eq_refl eq_refl)))).
Defined.

(** ** Delete of a pipeline *)

Section PipelineDeleteFacts.
Context {net : NetLib} {unmarshalAPIError : JSONUnmarshal APIError}.

(** A request that can be built is sent, whatever comes back. *)
Lemma MakeRequest_sent (c : CircleCIClient) (method endpoint : string)
    (body : ReqPayload) (requestBody : option string) (h : list Request) :
  marshal_body body = inr requestBody ->
  http_NewRequest_error method (BaseURL c +:+ endpoint) = None ->
  snd (MakeRequest c method endpoint body h)
  = h ++ [MakeRequest_request c method endpoint requestBody].
Proof.
  intros Hm Hn. unfold MakeRequest. rewrite Hm, Hn.
  unfold mbind, IO_bind, Do.
  destruct (HTTPClient c h _) as [e | resp]; [done |].
  by destruct (decide (StatusCode resp >= 400)).
Qed.

(** C9. Delete of a pipeline sends the cancel POST exactly when the
    tracked state is [running], and nothing else in any case: the remote
    pipeline is not deleted. A cancel that fails adds a warning, never an
    error: the response of Delete carries no error, so the host drops the
    resource from its state. *)
Theorem Pipeline_Delete_cancels_running (client : CircleCIClient)
    (req : DeleteRequest PipelineResource.PipelineResourceModel)
    (resp : Resp PipelineResource.PipelineResourceModel) (h : list Request) :
  let data := delete_State req in
  let endpoint := "/pipeline/" +:+ ValueString (PipelineResource.ID data) +:+ "/cancel" in
  let cancel := MakeRequest_request client "POST" endpoint None in
  HasError (resp_Diagnostics resp) = false ->
  http_NewRequest_error "POST" (URL cancel) = None ->
  let out := PipelineResource.Delete client req resp h in
  (snd out = if decide (ValueString (PipelineResource.State data) = "running")
             then h ++ [cancel] else h)
  /\ (snd out <> h <-> ValueString (PipelineResource.State data) = "running")
  /\ HasError (resp_Diagnostics (fst out)) = false
  /\ resp_State (fst out) = resp_State resp
  /\ (ValueString (PipelineResource.State data) = "running" ->
      fst out = match fst (Post client endpoint body_nil dest_nil h) with
                | inl err =>
                    AddWarning resp "Pipeline Cancel Failed"
                      ("Could not cancel running pipeline: " +:+ Error err)
                | inr _ => resp
                end).
Proof.
  intros data endpoint cancel Hno Hn out.
  assert (Hout : out =
    if decide (ValueString (PipelineResource.State data) = "running")
    then (match fst (Post client endpoint body_nil dest_nil h) with
          | inl err =>
              AddWarning resp "Pipeline Cancel Failed"
                ("Could not cancel running pipeline: " +:+ Error err)
          | inr _ => resp
          end, h ++ [cancel])
    else (resp, h)).
  { subst out. unfold PipelineResource.Delete. cbn [tfsdk_Get]. fold data.
    rewrite Diagnostics_Append_nil, Hno.
    destruct (decide (ValueString (PipelineResource.State data) = "running")); [| done].
    unfold mbind, IO_bind. fold endpoint.
    assert (Hlog : snd (Post client endpoint body_nil dest_nil h) = h ++ [cancel]).
    { unfold Post, mbind, IO_bind.
      pose proof (MakeRequest_sent client "POST" endpoint body_nil None h eq_refl Hn)
        as Hsent.
      by destruct (MakeRequest client "POST" endpoint body_nil h) as [[err | r] h']. }
    destruct (Post client endpoint body_nil dest_nil h) as [[err | r] h'];
      cbn in Hlog; subst h'; done. }
  rewrite Hout. clear Hout out.
  destruct (decide (ValueString (PipelineResource.State data) = "running")) as [Hrun | Hrun].
  - cbn [fst snd]. split; [done |]. split.
    { split; [done |]. intros _ Heq.
      apply (f_equal length) in Heq. rewrite length_app in Heq. simpl in Heq. lia. }
    destruct (fst (Post client endpoint body_nil dest_nil h)) as [err | r].
    + split; [| done]. unfold AddWarning, Diagnostics_Append. cbn [resp_Diagnostics].
      by rewrite HasError_Append_warning.
    + done.
  - cbn [fst snd]. split; [done |]. split; [| done].
    split; [intros Hne; by destruct Hne | done].
Qed.

End PipelineDeleteFacts.

(** ** Delete of a runner token *)

Section RunnerTokenDeleteFacts.
Context {net : NetLib}.

(** C10. Delete of a runner token whose DELETE is answered with 200 or
    with 404 reports nothing, so deleting a token that is already gone
    succeeds; any other status adds an error diagnostic. *)
Theorem RunnerToken_Delete_accepts_200_and_404 (client : CircleCIClient)
    (req : DeleteRequest RunnerTokenResource.RunnerTokenResourceModel)
    (resp : Resp RunnerTokenResource.RunnerTokenResourceModel)
    (h : list Request) (httpResp : Response) :
  let url := BaseURL client +:+ "/runner/token/"
               +:+ ValueString (RunnerTokenResource.ID (delete_State req)) in
  let httpReq := {| Method := "DELETE"; URL := url; ReqBody := None;
                    Header := <["Circle-Token" := ApiToken client]> ∅ |} in
  HasError (resp_Diagnostics resp) = false ->
  http_NewRequest_error "DELETE" url = None ->
  HTTPClient client h httpReq = inr httpResp ->
  let out := RunnerTokenResource.Delete client req resp h in
  snd out = h ++ [httpReq]
  /\ (StatusCode httpResp = 200 \/ StatusCode httpResp = 404 ->
      fst out = resp /\ HasError (resp_Diagnostics (fst out)) = false)
  /\ (StatusCode httpResp <> 200 -> StatusCode httpResp <> 404 ->
      fst out = AddError resp "Error deleting runner token"
                  ("API returned status " +:+ pretty (StatusCode httpResp)
                     +:+ " when deleting runner token")
      /\ HasError (resp_Diagnostics (fst out)) = true
      /\ resp_State (fst out) = resp_State resp).
Proof.
  intros url httpReq Hno Hn Hd out. subst out.
  unfold RunnerTokenResource.Delete. cbn [tfsdk_Get].
  rewrite Diagnostics_Append_nil, Hno. fold url. rewrite Hn.
  unfold mbind, IO_bind, Do. fold httpReq. rewrite Hd.
  unfold StatusOK, StatusNotFound.
  destruct (decide (StatusCode httpResp <> 200 /\ StatusCode httpResp <> 404))
    as [[H200 H404] | Hok]; cbn [fst snd mret IO_ret].
  - split; [done |]. split; [intros [? | ?]; done |].
    intros _ _. split; [done |]. split; [apply HasError_AddError | apply State_AddError].
  - split; [done |]. split; [done |].
    intros H200 H404. destruct Hok. done.
Qed.

End RunnerTokenDeleteFacts.

(** A running pipeline whose cancel is answered with 500: one POST, a
    warning, no error. *)
Lemma Pipeline_Delete_cancels_running_witness :
  let client := Fixtures.client [Fixtures.status 500 "oops"] in
  let pipeline :=
    {| PipelineResource.ID := StringValue "p-1";
       PipelineResource.ProjectSlug := StringValue "gh/org/repo";
       PipelineResource.Branch := StringValue "main";
       PipelineResource.Tag := StringNull;
       PipelineResource.Parameters := MapNull;
       PipelineResource.Number := Int64Value 1;
       PipelineResource.State := StringValue "running";
       PipelineResource.CreatedAt := StringNull;
       PipelineResource.UpdatedAt := StringNull;
       PipelineResource.VCS := ObjectNull |} in
  let cancel := MakeRequest_request client "POST" "/pipeline/p-1/cancel" None in
  let out :=
    PipelineResource.Delete (net := Fixtures.net)
      (unmarshalAPIError := Fixtures.unmarshalAPIError)
      client {| delete_State := pipeline |} (Fixtures.fresh pipeline) [] in
  HasError (resp_Diagnostics (Fixtures.fresh pipeline)) = false
  /\ http_NewRequest_error (NetLib := Fixtures.net) "POST" (URL cancel) = None
  /\ snd out = [cancel]
  /\ HasError (resp_Diagnostics (fst out)) = false
  /\ fst out
     = {| resp_State := Some pipeline;
          resp_Diagnostics :=
            [WarningDiagnostic "Pipeline Cancel Failed"
               "Could not cancel running pipeline: CircleCI API error (code 500): HTTP 500: oops"] |}.
Proof.
  intros client pipeline cancel out.
  assert (Hno : HasError (resp_Diagnostics (Fixtures.fresh pipeline)) = false)
    by reflexivity.
  assert (Hn : http_NewRequest_error (NetLib := Fixtures.net) "POST" (URL cancel) = None)
    by reflexivity.
  split; [exact Hno |]. split; [exact Hn |].
  destruct (Pipeline_Delete_cancels_running (net := Fixtures.net)
              (unmarshalAPIError := Fixtures.unmarshalAPIError)
              client {| delete_State := pipeline |} (Fixtures.fresh pipeline) [] Hno Hn)
    as (Hlog & _ & Hnoerr & _ & Hrun).
  split; [exact Hlog |]. split; [exact Hnoerr |].
  exact (Hrun eq_refl).
Defined.

(** A token that is already gone: the DELETE is answered with 404 and
    Delete reports nothing. *)
Lemma RunnerToken_Delete_accepts_200_and_404_witness :
  let client := Fixtures.client [Fixtures.status 404 "{Not found."] in
  let token :=
    {| RunnerTokenResource.ID := StringValue "t-1";
       RunnerTokenResource.ResourceClass := StringValue "org/class";
       RunnerTokenResource.Nickname := StringValue "nick";
       RunnerTokenResource.Token := StringValue "secret";
       RunnerTokenResource.CreatedAt := StringNull |} in
  let httpReq :=
    {| Method := "DELETE"; URL := "https://circleci.com/api/v2/runner/token/t-1";
       ReqBody := None; Header := <["Circle-Token" := "token"]> ∅ |} in
  let httpResp := {| StatusCode := 404; Body := "{Not found." |} in
  HasError (resp_Diagnostics (Fixtures.fresh token)) = false
  /\ http_NewRequest_error (NetLib := Fixtures.net) "DELETE"
       "https://circleci.com/api/v2/runner/token/t-1" = None
  /\ HTTPClient client [] httpReq = inr httpResp
  /\ fst (RunnerTokenResource.Delete (net := Fixtures.net)
            client {| delete_State := token |} (Fixtures.fresh token) [])
     = Fixtures.fresh token.
Proof.
  intros client token httpReq httpResp.
  assert (Hno : HasError (resp_Diagnostics (Fixtures.fresh token)) = false)
    by reflexivity.
  assert (Hn : http_NewRequest_error (NetLib := Fixtures.net) "DELETE"
                 "https://circleci.com/api/v2/runner/token/t-1" = None)
    by reflexivity.
  assert (Hd : HTTPClient client [] httpReq = inr httpResp) by reflexivity.
  split; [exact Hno |]. split; [exact Hn |]. split; [exact Hd |].
  destruct (RunnerToken_Delete_accepts_200_and_404 (net := Fixtures.net)
              client {| delete_State := token |} (Fixtures.fresh token) [] httpResp
              Hno Hn Hd) as (_ & Hok & _).
  exact (proj1 (Hok (or_intror eq_refl))).
Defined.

(** * Further properties of the code *)

(** ** The API client: requests *)

Section ClientMoreFacts.
Context {net : NetLib} {unmarshalAPIError : JSONUnmarshal APIError}.

(** X1. [MakeRequest] returns a response exactly when the request could
    be built, the transport answered it and the status of the answer is
    below 400; the response returned is the answer itself. *)
Theorem MakeRequest_returns_response_iff (c : CircleCIClient)
    (method endpoint : string) (body : ReqPayload) (h : list Request)
    (resp : Response) :
  fst (MakeRequest c method endpoint body h) = inr resp
  <-> exists requestBody,
        marshal_body body = inr requestBody
        /\ http_NewRequest_error method (BaseURL c +:+ endpoint) = None
        /\ HTTPClient c h (MakeRequest_request c method endpoint requestBody)
           = inr resp
        /\ StatusCode resp < 400.
Proof.
  split.
  - unfold MakeRequest. destruct (marshal_body body) as [e | rb]; [discriminate |].
    destruct (http_NewRequest_error _ _) eqn:Hn; [discriminate |].
    unfold mbind, IO_bind, Do.
    destruct (HTTPClient c h _) as [e | r] eqn:Hd; [discriminate |].
    destruct (decide (StatusCode r >= 400)); [discriminate |].
    simpl. intros [= ->]. exists rb.
    split; [done |]. split; [done |]. split; [done | lia].
  - intros (rb & Hm & Hn & Hd & Hlt).
    rewrite (MakeRequest_answered c method endpoint body rb h resp Hm Hn Hd).
    by rewrite decide_False by lia.
Qed.

(** X2. [MakeRequest] reaches the network exactly when the body marshals
    and the request can be built, whatever the transport then does; what
    it sends is the single request it built. *)
Theorem MakeRequest_sends_iff_built (c : CircleCIClient)
    (method endpoint : string) (body : ReqPayload) (h : list Request) :
  (snd (MakeRequest c method endpoint body h) <> h
   <-> exists requestBody,
         marshal_body body = inr requestBody
         /\ http_NewRequest_error method (BaseURL c +:+ endpoint) = None)
  /\ (snd (MakeRequest c method endpoint body h) = h
      \/ exists requestBody,
           marshal_body body = inr requestBody
           /\ snd (MakeRequest c method endpoint body h)
              = h ++ [MakeRequest_request c method endpoint requestBody]).
Proof.
  split; [| apply MakeRequest_log].
  split.
  - unfold MakeRequest. destruct (marshal_body body) as [e | rb]; [done |].
    destruct (http_NewRequest_error _ _) eqn:Hn; [done |].
    intros _. by exists rb.
  - intros (rb & Hm & Hn).
    rewrite (MakeRequest_sent c method endpoint body rb h Hm Hn).
    intros Heq. apply (f_equal length) in Heq.
    rewrite length_app in Heq. simpl in Heq. lia.
Qed.

(** X3. On an endpoint that parses and with at least one parameter,
    [BuildURL] encodes the query of the endpoint in which every key of
    [params] holds exactly its value from [params]; the other keys of the
    endpoint's own query are kept. *)
Theorem BuildURL_merges_query (endpoint : string) (params : gmap string string)
    (u : ParsedURL) :
  url_Parse endpoint = inr u ->
  params <> ∅ ->
  let q := ((fun value => [value]) <$> params) ∪ URL_Query u in
  BuildURL endpoint params = URL_String (URL_set_RawQuery u (Values_Encode q))
  /\ (forall key value, params !! key = Some value -> q !! key = Some [value])
  /\ (forall key, params !! key = None -> q !! key = URL_Query u !! key).
Proof.
  intros Hparse Hne q. split; [| split].
  - unfold BuildURL. rewrite decide_False by (by rewrite map_size_empty_iff).
    rewrite Hparse. by rewrite BuildURL_fold.
  - intros key value Hk. subst q. apply lookup_union_Some_l.
    by rewrite lookup_fmap, Hk.
  - intros key Hk. subst q. apply lookup_union_r. by rewrite lookup_fmap, Hk.
Qed.

End ClientMoreFacts.

(** X3 at one parameter and an endpoint with no query of its own. *)
Lemma BuildURL_merges_query_witness :
  let params : gmap string string := <["limit" := "10"]> ∅ in
  url_Parse (NetLib := Fixtures.net) "/items" = inr "/items"
  /\ params <> ∅
  /\ BuildURL (net := Fixtures.net) "/items" params = "/items?limit=10&".
Proof.
  intros params.
  assert (Hparse : url_Parse (NetLib := Fixtures.net) "/items" = inr "/items")
    by reflexivity.
  assert (Hne : params <> ∅) by apply insert_non_empty.
  split; [exact Hparse |]. split; [exact Hne |].
  exact (proj1 (BuildURL_merges_query (net := Fixtures.net)
                  "/items" params "/items" Hparse Hne)).
Defined.

(** ** Pagination: failures and servers that never stop *)

Section PaginationMoreFacts.
Context {net : NetLib} {unmarshalAPIError : JSONUnmarshal APIError}
        {Item : Type} {decodePage : JSONDecode (PaginatedResponse Item)}.


(** The loop while the server keeps naming a next page. *)
Lemma GetAllPages_loop_serves_on (c : CircleCIClient) (endpoint : string)
    (params : gmap string string) (pages : list (PaginatedResponse Item)) :
  forall (fuel : nat) (h : list Request) (tok : string) (allItems : list Item),
    serves_on c endpoint params h tok pages ->
    GetAllPages_loop (length pages + fuel) c endpoint params allItems tok h
    = GetAllPages_loop fuel c endpoint params
        (allItems ++ concat (Items <$> pages)) (last_token tok pages)
        (h ++ page_requests c endpoint params tok pages).
Proof.
  induction pages as [| page rest IH]; intros fuel h tok allItems Hs.
  - cbn. by rewrite !app_nil_r.
  - destruct Hs as (Hn & (resp & Hd & Hlt & Hdec) & Hne & Hrest).
    cbn [length Nat.add GetAllPages_loop]. unfold mbind, IO_bind.
    rewrite (Get_page c endpoint params tok h resp page Hn Hd Hlt Hdec).
    rewrite decide_False by done.
    rewrite (IH fuel _ _ _ Hrest).
    cbn [fmap list_fmap concat page_requests last_token].
    by rewrite <- !app_assoc.
Qed.

(** X5. When the GET of some page fails, after any number of pages that
    were fetched, [GetAllPages] returns that error and none of the items
    it had accumulated, and sends nothing more. *)
Theorem GetAllPages_error_discards_items (c : CircleCIClient) (endpoint : string)
    (params : gmap string string) (pages : list (PaginatedResponse Item))
    (fuel : nat) (h h' : list Request) (err : error) :
  serves_on c endpoint params h "" pages ->
  Get c (BuildURL endpoint (page_params params (last_token "" pages)))
      (dest_ptr (PaginatedResponse Item))
      (h ++ page_requests c endpoint params "" pages)
  = (inl err, h') ->
  (length pages < fuel)%nat ->
  GetAllPages fuel c endpoint params h = (Some (inl err), h').
Proof.
  intros Hs Hfail Hfuel. unfold GetAllPages.
  replace fuel with (length pages + S (fuel - S (length pages)))%nat by lia.
  rewrite (GetAllPages_loop_serves_on c endpoint params pages _ h "" [] Hs).
  cbn [GetAllPages_loop]. unfold mbind, IO_bind. by rewrite Hfail.
Qed.

(** X6. As long as every page names a next page, [GetAllPages] does not
    return: after as many iterations as there are pages it has sent one
    request per page and is still in its loop. *)
Theorem GetAllPages_runs_while_tokens (c : CircleCIClient) (endpoint : string)
    (params : gmap string string) (pages : list (PaginatedResponse Item))
    (h : list Request) :
  serves_on c endpoint params h "" pages ->
  GetAllPages (length pages) c endpoint params h
  = (None, h ++ page_requests c endpoint params "" pages).
Proof.
  intros Hs. unfold GetAllPages.
  replace (length pages) with (length pages + 0)%nat at 1 by lia.
  by rewrite (GetAllPages_loop_serves_on c endpoint params pages 0 h "" [] Hs).
Qed.

End PaginationMoreFacts.


(** X5: a first page, then a 500: the items of the first page are lost. *)
Lemma GetAllPages_error_discards_items_witness :
  let c := Fixtures.client [Fixtures.ok "axy"; Fixtures.status 500 "oops"] in
  let pages := [ {| Items := ["x"; "y"]; NextPageToken := "a" |} ] in
  let err := errAPI {| Message := "HTTP 500: oops"; Code := 500 |} in
  let log := [ page_request (net := Fixtures.net) c "/items" ∅ "";
               page_request (net := Fixtures.net) c "/items" ∅ "a" ] in
  serves_on (net := Fixtures.net) (decodePage := Fixtures.decodePage)
    c "/items" ∅ [] "" pages
  /\ Get (net := Fixtures.net) (unmarshalAPIError := Fixtures.unmarshalAPIError)
       c (BuildURL (net := Fixtures.net) "/items" (page_params ∅ (last_token "" pages)))
       (dest_ptr (PaginatedResponse string) (H := Fixtures.decodePage))
       ([] ++ page_requests (net := Fixtures.net) c "/items" ∅ "" pages)
     = (inl err, log)
  /\ (length pages < 5)%nat
  /\ GetAllPages (net := Fixtures.net)
       (unmarshalAPIError := Fixtures.unmarshalAPIError)
       (decodePage := Fixtures.decodePage) 5 c "/items" ∅ []
     = (Some (inl err), log).
Proof.
  intros c pages err log.
  assert (Hs : serves_on (net := Fixtures.net) (decodePage := Fixtures.decodePage)
                 c "/items" ∅ [] "" pages).
  { simpl. repeat split; try discriminate. eexists. repeat split; reflexivity. }
  assert (Hfail :
    Get (net := Fixtures.net) (unmarshalAPIError := Fixtures.unmarshalAPIError)
      c (BuildURL (net := Fixtures.net) "/items" (page_params ∅ (last_token "" pages)))
      (dest_ptr (PaginatedResponse string) (H := Fixtures.decodePage))
      ([] ++ page_requests (net := Fixtures.net) c "/items" ∅ "" pages)
    = (inl err, log)) by reflexivity.
  assert (Hfuel : (length pages < 5)%nat) by (simpl; lia).
  split; [exact Hs |]. split; [exact Hfail |]. split; [exact Hfuel |].
  exact (GetAllPages_error_discards_items (net := Fixtures.net)
           (unmarshalAPIError := Fixtures.unmarshalAPIError)
           (decodePage := Fixtures.decodePage)
           c "/items" ∅ pages 5 [] log err Hs Hfail Hfuel).
Defined.

(** X6: two pages, each naming a next one. *)
Lemma GetAllPages_runs_while_tokens_witness :
  let c := Fixtures.client [Fixtures.ok "axy"; Fixtures.ok "byz"] in
  let pages := [ {| Items := ["x"; "y"]; NextPageToken := "a" |};
                 {| Items := ["y"; "z"]; NextPageToken := "b" |} ] in
  serves_on (net := Fixtures.net) (decodePage := Fixtures.decodePage)
    c "/items" ∅ [] "" pages
  /\ GetAllPages (net := Fixtures.net)
       (unmarshalAPIError := Fixtures.unmarshalAPIError)
       (decodePage := Fixtures.decodePage) 2 c "/items" ∅ []
     = (None,
        [ page_request (net := Fixtures.net) c "/items" ∅ "";
          page_request (net := Fixtures.net) c "/items" ∅ "a" ]).
Proof.
  intros c pages.
  assert (Hs : serves_on (net := Fixtures.net) (decodePage := Fixtures.decodePage)
                 c "/items" ∅ [] "" pages).
  { simpl. repeat split; try discriminate; eexists; repeat split; reflexivity. }
  split; [exact Hs |].
  exact (GetAllPages_runs_while_tokens (net := Fixtures.net)
           (unmarshalAPIError := Fixtures.unmarshalAPIError)
           (decodePage := Fixtures.decodePage) c "/items" ∅ pages [] Hs).
Defined.

(** ** Identifiers *)

(** X7. [ParseID] rejects the empty string and nothing else, and it
    returns every other identifier unchanged, whatever its format. *)
Theorem ParseID_rejects_only_empty (id : string) :
  ParseID id = if decide (id = "")
               then inl (errorString "id cannot be empty")
               else inr id.
Proof.
  unfold ParseID. destruct (decide (id = "")); [done |].
  destruct (contains_byte _ id && _); [done |].
  by destruct (bool_decide _ && _).
Qed.

(** ** The verbs of the client *)

Section VerbFacts.
Context {net : NetLib} {unmarshalAPIError : JSONUnmarshal APIError}.

Lemma Get_answered {A} (c : CircleCIClient) (endpoint : string)
    (result : Dest A) (h : list Request) (resp : Response) :
  http_NewRequest_error "GET" (BaseURL c +:+ endpoint) = None ->
  HTTPClient c h (MakeRequest_request c "GET" endpoint None) = inr resp ->
  Get c endpoint result h
  = (if decide (StatusCode resp >= 400) then inl (status_error resp)
     else decode_into result resp,
     h ++ [MakeRequest_request c "GET" endpoint None]).
Proof.
  intros Hn Hd. unfold Get, mbind, IO_bind.
  rewrite (MakeRequest_answered c "GET" endpoint body_nil None h resp eq_refl Hn Hd).
  by destruct (decide (StatusCode resp >= 400)).
Qed.

Lemma Post_answered {A} (c : CircleCIClient) (endpoint : string)
    (body : ReqPayload) (requestBody : option string)
    (result : Dest A) (h : list Request) (resp : Response) :
  marshal_body body = inr requestBody ->
  http_NewRequest_error "POST" (BaseURL c +:+ endpoint) = None ->
  HTTPClient c h (MakeRequest_request c "POST" endpoint requestBody) = inr resp ->
  Post c endpoint body result h
  = (if decide (StatusCode resp >= 400) then inl (status_error resp)
     else decode_into result resp,
     h ++ [MakeRequest_request c "POST" endpoint requestBody]).
Proof.
  intros Hm Hn Hd. unfold Post, mbind, IO_bind.
  rewrite (MakeRequest_answered c "POST" endpoint body requestBody h resp Hm Hn Hd).
  by destruct (decide (StatusCode resp >= 400)).
Qed.

Lemma Put_answered {A} (c : CircleCIClient) (endpoint : string)
    (body : ReqPayload) (requestBody : option string)
    (result : Dest A) (h : list Request) (resp : Response) :
  marshal_body body = inr requestBody ->
  http_NewRequest_error "PUT" (BaseURL c +:+ endpoint) = None ->
  HTTPClient c h (MakeRequest_request c "PUT" endpoint requestBody) = inr resp ->
  Put c endpoint body result h
  = (if decide (StatusCode resp >= 400) then inl (status_error resp)
     else decode_into result resp,
     h ++ [MakeRequest_request c "PUT" endpoint requestBody]).
Proof.
  intros Hm Hn Hd. unfold Put, mbind, IO_bind.
  rewrite (MakeRequest_answered c "PUT" endpoint body requestBody h resp Hm Hn Hd).
  by destruct (decide (StatusCode resp >= 400)).
Qed.

Lemma Delete_answered (c : CircleCIClient) (endpoint : string)
    (h : list Request) (resp : Response) :
  http_NewRequest_error "DELETE" (BaseURL c +:+ endpoint) = None ->
  HTTPClient c h (MakeRequest_request c "DELETE" endpoint None) = inr resp ->
  Delete c endpoint h
  = (if decide (StatusCode resp >= 400) then inl (status_error resp) else inr tt,
     h ++ [MakeRequest_request c "DELETE" endpoint None]).
Proof.
  intros Hn Hd. unfold Delete, mbind, IO_bind.
  rewrite (MakeRequest_answered c "DELETE" endpoint body_nil None h resp eq_refl Hn Hd).
  by destruct (decide (StatusCode resp >= 400)).
Qed.

Lemma Get_log {A} (c : CircleCIClient) (endpoint : string) (result : Dest A)
    (h : list Request) :
  snd (Get c endpoint result h) = h
  \/ snd (Get c endpoint result h) = h ++ [MakeRequest_request c "GET" endpoint None].
Proof.
  unfold Get, mbind, IO_bind.
  pose proof (MakeRequest_log c "GET" endpoint body_nil h) as Hlog.
  destruct (MakeRequest c "GET" endpoint body_nil h) as [[err | resp] h'];
    cbn in *; destruct Hlog as [-> | (rb & [= <-] & ->)]; auto.
Qed.

Lemma Put_log {A} (c : CircleCIClient) (endpoint : string) (body : ReqPayload)
    (result : Dest A) (h : list Request) :
  snd (Put c endpoint body result h) = h
  \/ exists requestBody,
       marshal_body body = inr requestBody
       /\ snd (Put c endpoint body result h)
          = h ++ [MakeRequest_request c "PUT" endpoint requestBody].
Proof.
  unfold Put, mbind, IO_bind.
  pose proof (MakeRequest_log c "PUT" endpoint body h) as Hlog.
  destruct (MakeRequest c "PUT" endpoint body h) as [[err | resp] h']; exact Hlog.
Qed.

(** A response returned by [MakeRequest] is the transport's answer to the
    request it built, and its status is below 400. *)
Lemma MakeRequest_ok_inv (c : CircleCIClient) (method endpoint : string)
    (body : ReqPayload) (h : list Request) (resp : Response) :
  fst (MakeRequest c method endpoint body h) = inr resp ->
  exists requestBody,
    marshal_body body = inr requestBody
    /\ http_NewRequest_error method (BaseURL c +:+ endpoint) = None
    /\ HTTPClient c h (MakeRequest_request c method endpoint requestBody) = inr resp
    /\ StatusCode resp < 400
    /\ snd (MakeRequest c method endpoint body h)
       = h ++ [MakeRequest_request c method endpoint requestBody].
Proof.
  unfold MakeRequest. destruct (marshal_body body) as [e | rb]; [discriminate |].
  destruct (http_NewRequest_error _ _) eqn:Hn; [discriminate |].
  unfold mbind, IO_bind, Do.
  destruct (HTTPClient c h _) as [e | r] eqn:Hd; [discriminate |].
  destruct (decide (StatusCode r >= 400)); [discriminate |].
  cbn. intros [= ->]. exists rb.
  split; [done |]. split; [done |]. split; [done |]. split; [lia | done].
Qed.

(** A value returned by [Get] is decoded from the answer to its GET. *)
Lemma Get_ok_inv {A} (c : CircleCIClient) (endpoint : string)
    (result : Dest A) (h : list Request) (a : A) :
  fst (Get c endpoint result h) = inr a ->
  let req := MakeRequest_request c "GET" endpoint None in
  exists resp,
    HTTPClient c h req = inr resp
    /\ StatusCode resp < 400
    /\ decode_into result resp = inr a
    /\ snd (Get c endpoint result h) = h ++ [req].
Proof.
  intros Hok req. subst req. revert Hok. unfold Get, mbind, IO_bind.
  pose proof (MakeRequest_ok_inv c "GET" endpoint body_nil h) as Hinv.
  destruct (MakeRequest c "GET" endpoint body_nil h) as [[err | resp] h'];
    [discriminate |].
  destruct (Hinv resp eq_refl) as (rb & [= <-] & _ & Hd & Hlt & Hlog).
  cbn [fst snd mret IO_ret] in *. intros Hdec. by exists resp.
Qed.

(** A value returned by [Post] is decoded from the answer to its POST. *)
Lemma Post_ok_inv {A} (c : CircleCIClient) (endpoint : string)
    (body : ReqPayload) (result : Dest A) (h : list Request) (a : A) :
  fst (Post c endpoint body result h) = inr a ->
  exists requestBody resp,
    marshal_body body = inr requestBody
    /\ HTTPClient c h (MakeRequest_request c "POST" endpoint requestBody) = inr resp
    /\ StatusCode resp < 400
    /\ decode_into result resp = inr a
    /\ snd (Post c endpoint body result h)
       = h ++ [MakeRequest_request c "POST" endpoint requestBody].
Proof.
  unfold Post, mbind, IO_bind.
  pose proof (MakeRequest_ok_inv c "POST" endpoint body h) as Hinv.
  destruct (MakeRequest c "POST" endpoint body h) as [[err | resp] h'];
    [discriminate |].
  destruct (Hinv resp eq_refl) as (rb & Hm & _ & Hd & Hlt & Hlog).
  cbn [fst snd mret IO_ret] in *. intros Hdec. by exists rb, resp.
Qed.

End VerbFacts.

(** ** Delete through the client *)

Section DeleteFacts.
Context {net : NetLib} {unmarshalAPIError : JSONUnmarshal APIError}.

(** X8. Delete of a context, of an environment variable and of a checkout
    key go through [client.Delete]: when the DELETE is answered with a
    status of 400 or more, 404 for an object that is already gone
    included, they report a "Client Error" that carries the API error,
    and the state stays as it was. *)
Theorem Delete_of_missing_object_is_error (client : CircleCIClient)
    (h : list Request) (httpResp : Response) :
  StatusCode httpResp >= 400 ->
  (forall (req : DeleteRequest ContextResource.ContextResourceModel) resp,
     let endpoint := "/context/" +:+ ValueString (ContextResource.ID (delete_State req)) in
     let httpReq := MakeRequest_request client "DELETE" endpoint None in
     HasError (resp_Diagnostics resp) = false ->
     http_NewRequest_error "DELETE" (URL httpReq) = None ->
     HTTPClient client h httpReq = inr httpResp ->
     ContextResource.Delete client req resp h
     = (AddError resp "Client Error"
          ("Unable to delete context, got error: " +:+ Error (status_error httpResp)),
        h ++ [httpReq]))
  /\ (forall (req : DeleteRequest
                      EnvironmentVariableResource.EnvironmentVariableResourceModel) resp,
        let endpoint := EnvironmentVariableResource.endpoint_of (delete_State req) in
        let httpReq := MakeRequest_request client "DELETE" endpoint None in
        HasError (resp_Diagnostics resp) = false ->
        http_NewRequest_error "DELETE" (URL httpReq) = None ->
        HTTPClient client h httpReq = inr httpResp ->
        EnvironmentVariableResource.Delete client req resp h
        = (AddError resp "Client Error"
             ("Unable to delete environment variable, got error: "
                +:+ Error (status_error httpResp)),
           h ++ [httpReq]))
  /\ (forall (req : DeleteRequest CheckoutKeyResource.CheckoutKeyResourceModel) resp,
        let endpoint := CheckoutKeyResource.key_endpoint (delete_State req) in
        let httpReq := MakeRequest_request client "DELETE" endpoint None in
        HasError (resp_Diagnostics resp) = false ->
        http_NewRequest_error "DELETE" (URL httpReq) = None ->
        HTTPClient client h httpReq = inr httpResp ->
        CheckoutKeyResource.Delete client req resp h
        = (AddError resp "Client Error"
             ("Unable to delete checkout key, got error: "
                +:+ Error (status_error httpResp)),
           h ++ [httpReq])).
Proof.
  intros Hge. split; [| split]; intros req resp endpoint httpReq Hno Hn Hd.
  - unfold ContextResource.Delete. cbn [tfsdk_Get].
    rewrite Diagnostics_Append_nil, Hno. unfold mbind, IO_bind. fold endpoint.
    rewrite (Delete_answered client endpoint h httpResp Hn Hd).
    by rewrite decide_True.
  - unfold EnvironmentVariableResource.Delete. cbn [tfsdk_Get].
    rewrite Diagnostics_Append_nil, Hno. unfold mbind, IO_bind. fold endpoint.
    rewrite (Delete_answered client endpoint h httpResp Hn Hd).
    by rewrite decide_True.
  - unfold CheckoutKeyResource.Delete. cbn [tfsdk_Get].
    rewrite Diagnostics_Append_nil, Hno. unfold mbind, IO_bind. fold endpoint.
    rewrite (Delete_answered client endpoint h httpResp Hn Hd).
    by rewrite decide_True.
Qed.

End DeleteFacts.

(** X8 for a context that is already gone. *)
Lemma Delete_of_missing_object_is_error_witness :
  let client := Fixtures.client [Fixtures.status 404 "{Not found."] in
  let httpResp := {| StatusCode := 404; Body := "{Not found." |} in
  let context :=
    {| ContextResource.ID := StringValue "ctx-1";
       ContextResource.Name := StringValue "shared-context";
       ContextResource.Owner := ObjectNull |} in
  StatusCode httpResp >= 400
  /\ ContextResource.Delete (net := Fixtures.net)
       (unmarshalAPIError := Fixtures.unmarshalAPIError)
       client {| delete_State := context |} (Fixtures.fresh context) []
     = ({| resp_State := Some context;
           resp_Diagnostics :=
             [ErrorDiagnostic "Client Error"
                "Unable to delete context, got error: CircleCI API error: Not found."] |},
        [MakeRequest_request client "DELETE" "/context/ctx-1" None]).
Proof.
  intros client httpResp context.
  assert (Hge : StatusCode httpResp >= 400) by (simpl; lia).
  split; [exact Hge |].
  exact (proj1 (Delete_of_missing_object_is_error (net := Fixtures.net)
                  (unmarshalAPIError := Fixtures.unmarshalAPIError)
                  client [] httpResp Hge)
           {| delete_State := context |} (Fixtures.fresh context)
           eq_refl eq_refl eq_refl).
Defined.

(** ** Create of a context *)

Lemma HasError_Append (ds new : list Diagnostic) :
  HasError (Append ds new) = HasError ds || HasError new.
Proof.
  revert ds. induction new as [| d rest IH]; intros ds.
  - simpl. by rewrite orb_false_r.
  - cbn [Append]. destruct (decide (d ∈ ds)) as [Hin | Hnin].
    + rewrite IH. cbn [HasError existsb]. fold (HasError rest).
      destruct (is_error d) eqn:Herr; [| done].
      by rewrite (HasError_elem d ds Hin Herr).
    + rewrite IH, HasError_app. cbn [HasError existsb]. fold (HasError rest).
      by rewrite orb_false_r, orb_assoc.
Qed.

Section ContextCreateFacts.
Context {net : NetLib} {unmarshalAPIError : JSONUnmarshal APIError}
        {decodeContext : JSONDecode ContextResource.ContextAPI}
        {marshalCreate : JSONMarshal ContextResource.CreateContextRequest}.
Variable Owner_As :
  tfObject ContextResource.ContextOwner -> list Diagnostic * ContextResource.ContextOwner.

(** X9. Create of a context ends in one of two ways. Either an error is
    reported and the state is left as it was; or the POST to [/context]
    was answered with a status below 400 and a body that decodes, no error
    is reported, and the state holds the id decoded from that answer with
    the name and the owner of the plan (they are not read back from the
    answer). It sends at most one request, that POST, and none at all
    when the owner object cannot be read. *)
Theorem Context_Create_outcome (client : CircleCIClient)
    (req : CreateRequest ContextResource.ContextResourceModel)
    (resp : Resp ContextResource.ContextResourceModel) (h : list Request) :
  HasError (resp_Diagnostics resp) = false ->
  let plan := create_Plan req in
  let read := Owner_As (ContextResource.Owner plan) in
  let createReq :=
    {| ContextResource.req_Name := ValueString (ContextResource.Name plan);
       ContextResource.req_Owner :=
         {| ContextResource.api_owner_ID :=
              ValueString (ContextResource.owner_ID (snd read));
            ContextResource.api_owner_Slug :=
              ValueString (ContextResource.owner_Slug (snd read));
            ContextResource.api_owner_Type :=
              ValueString (ContextResource.owner_Type (snd read)) |} |} in
  let post requestBody := MakeRequest_request client "POST" "/context" requestBody in
  let created context :=
    {| resp_State :=
         Some {| ContextResource.ID := StringValue (ContextResource.api_ID context);
                 ContextResource.Name := ContextResource.Name plan;
                 ContextResource.Owner := ContextResource.Owner plan |};
       resp_Diagnostics := Append (resp_Diagnostics resp) (fst read) |} in
  let out := ContextResource.Create Owner_As client req resp h in
  ((HasError (resp_Diagnostics (fst out)) = true
    /\ resp_State (fst out) = resp_State resp)
   \/ (exists body httpResp context,
         json_Marshal createReq = inr body
         /\ HTTPClient client h (post (Some body)) = inr httpResp
         /\ StatusCode httpResp < 400
         /\ json_Decode (Body httpResp) = inr context
         /\ HasError (resp_Diagnostics (fst out)) = false
         /\ out = (created context, h ++ [post (Some body)])))
  /\ (snd out = h \/ exists requestBody, snd out = h ++ [post requestBody])
  /\ (HasError (fst read) = true -> snd out = h)
  /\ (forall body httpResp context,
        HasError (fst read) = false ->
        json_Marshal createReq = inr body ->
        http_NewRequest_error "POST" (URL (post (Some body))) = None ->
        HTTPClient client h (post (Some body)) = inr httpResp ->
        StatusCode httpResp < 400 ->
        json_Decode (Body httpResp) = inr context ->
        out = (created context, h ++ [post (Some body)])).
Proof.
  intros Hno plan read createReq post created out.
  subst out created post createReq read. unfold ContextResource.Create.
  cbn [tfsdk_Get]. fold plan. rewrite Diagnostics_Append_nil, Hno.
  destruct (Owner_As (ContextResource.Owner plan)) as [diags owner].
  cbn [fst snd resp_Diagnostics Diagnostics_Append].
  rewrite HasError_Append, Hno. cbn [orb].
  destruct (HasError diags) eqn:Hdiags.
  { cbn. rewrite HasError_Append, Hdiags, orb_true_r.
    split; [by left |]. split; [by left |]. split; [done |]. by intros. }
  unfold mbind, IO_bind.
  match goal with |- context [Post client "/context" ?b ?d h] =>
    set (payload := b);
    pose proof (Post_log client "/context" payload d h) as Hlog;
    pose proof (Post_ok_inv client "/context" payload d h) as Hinv;
    pose proof (fun rb => Post_answered client "/context" payload rb d h) as Hfwd
  end.
  split; [| split; [| split]].
  - destruct (Post client "/context" payload _ h) as [[err | context] h'].
    + left. cbn [fst snd mret IO_ret]. split; [apply HasError_AddError | done].
    + right. destruct (Hinv context eq_refl) as (rb & httpResp & Hm & Hd & Hlt & Hdec & Hsnd).
      cbn [snd] in Hsnd. subst h'. cbn [marshal_body payload] in Hm.
      destruct (json_Marshal _) as [e | body] eqn:Hbody; [discriminate |].
      injection Hm as <-. exists body, httpResp, context.
      cbn [decode_into] in Hdec. cbn [fst snd mret IO_ret].
      unfold State_Set. rewrite Diagnostics_Append_nil.
      cbn [resp_Diagnostics resp_State Diagnostics_Append].
      split; [done |]. split; [done |]. split; [done |]. split; [done |].
      split; [by rewrite HasError_Append, Hno, Hdiags | done].
  - destruct (Post client "/context" payload _ h) as [[err | context] h'];
      cbn [fst snd mret IO_ret] in *;
      (destruct Hlog as [-> | (rb & _ & ->)]; [by left | right; by exists rb]).
  - done.
  - intros body httpResp context _ Hm Hn Hd Hlt Hdec.
    rewrite (Hfwd (Some body) httpResp);
      [| by cbn [marshal_body payload]; rewrite Hm | done | done].
    rewrite decide_False by lia. cbn [decode_into]. rewrite Hdec.
    cbn [fst snd mret IO_ret]. unfold State_Set. by rewrite Diagnostics_Append_nil.
Qed.

End ContextCreateFacts.

(** X9 at a plan with a known owner, the POST answered with 200: the id
    is the one of the answer, the name is the one of the plan. *)
Lemma Context_Create_outcome_witness :
  let client := Fixtures.client [Fixtures.ok "ignored-name"] in
  let owner :=
    ObjectValue {| ContextResource.owner_ID := StringNull;
                   ContextResource.owner_Slug := StringValue "github";
                   ContextResource.owner_Type := StringValue "organization" |} in
  let plan :=
    {| ContextResource.ID := StringUnknown;
       ContextResource.Name := StringValue "shared-context";
       ContextResource.Owner := owner |} in
  HasError (resp_Diagnostics
              (Fixtures.fresh_create (M := ContextResource.ContextResourceModel))) = false
  /\ ContextResource.Create (net := Fixtures.net)
       (unmarshalAPIError := Fixtures.unmarshalAPIError)
       (decodeContext := Fixtures.decodeContext)
       (marshalCreate := Fixtures.marshalContext)
       Fixtures.Owner_As client {| create_Plan := plan |} Fixtures.fresh_create []
     = ({| resp_State :=
             Some {| ContextResource.ID := StringValue "ctx-1";
                     ContextResource.Name := StringValue "shared-context";
                     ContextResource.Owner := owner |};
           resp_Diagnostics := [] |},
        [MakeRequest_request client "POST" "/context" (Some "shared-context")]).
Proof.
  intros client owner plan.
  assert (Hno : HasError (resp_Diagnostics
              (Fixtures.fresh_create (M := ContextResource.ContextResourceModel)))
              = false) by reflexivity.
  split; [exact Hno |].
  exact (proj2 (proj2 (proj2 (Context_Create_outcome (net := Fixtures.net)
                  (unmarshalAPIError := Fixtures.unmarshalAPIError)
                  (decodeContext := Fixtures.decodeContext)
                  (marshalCreate := Fixtures.marshalContext)
                  Fixtures.Owner_As client {| create_Plan := plan |}
                  Fixtures.fresh_create [] Hno)))
           "shared-context" {| StatusCode := 200; Body := "ignored-name" |} _
           eq_refl eq_refl eq_refl eq_refl ltac:(simpl; lia) eq_refl).
Defined.

(** ** The project resource *)

Section VerbCases.
Context {net : NetLib} {unmarshalAPIError : JSONUnmarshal APIError}.

(** The two ways [MakeRequest] can end: with an error, having sent
    nothing or the request; or with a response, having sent the
    request. *)
Lemma MakeRequest_cases (c : CircleCIClient) (method endpoint : string)
    (body : ReqPayload) (h : list Request) :
  (exists err,
     fst (MakeRequest c method endpoint body h) = inl err
     /\ (snd (MakeRequest c method endpoint body h) = h
         \/ exists rb, marshal_body body = inr rb
                       /\ snd (MakeRequest c method endpoint body h)
                          = h ++ [MakeRequest_request c method endpoint rb]))
  \/ (exists resp rb,
        fst (MakeRequest c method endpoint body h) = inr resp
        /\ marshal_body body = inr rb
        /\ snd (MakeRequest c method endpoint body h)
           = h ++ [MakeRequest_request c method endpoint rb]
        /\ StatusCode resp < 400).
Proof.
  unfold MakeRequest. destruct (marshal_body body) as [e | rb].
  { left. eexists. split; [done | by left]. }
  destruct (http_NewRequest_error _ _).
  { left. eexists. split; [done | by left]. }
  unfold mbind, IO_bind, Do.
  destruct (HTTPClient c h _) as [e | resp].
  { left. eexists. split; [done | right; by exists rb]. }
  destruct (decide (StatusCode resp >= 400)).
  - left. eexists. split; [done | right; by exists rb].
  - right. exists resp, rb. cbn. split; [done |]. split; [done |]. split; [done | lia].
Qed.

(** The same for the verbs called with no body. *)
Lemma Post_nil_cases {A} (c : CircleCIClient) (endpoint : string)
    (result : Dest A) (h : list Request) :
  let req := MakeRequest_request c "POST" endpoint None in
  (exists err, fst (Post c endpoint body_nil result h) = inl err
               /\ (snd (Post c endpoint body_nil result h) = h
                   \/ snd (Post c endpoint body_nil result h) = h ++ [req]))
  \/ (exists a, fst (Post c endpoint body_nil result h) = inr a
                /\ snd (Post c endpoint body_nil result h) = h ++ [req]).
Proof.
  intros req. unfold Post, mbind, IO_bind.
  destruct (MakeRequest_cases c "POST" endpoint body_nil h)
    as [(err & Hf & Hs) | (resp & rb & Hf & [= <-] & Hs & _)];
    destruct (MakeRequest c "POST" endpoint body_nil h) as [r h']; cbn in *; subst r.
  - left. exists err. split; [done |].
    destruct Hs as [-> | (rb & [= <-] & ->)]; auto.
  - subst h'. destruct (decode_into result resp) as [e | a] eqn:Hdec.
    + left. exists e. cbn. auto.
    + right. exists a. by cbn.
Qed.

Lemma Get_cases {A} (c : CircleCIClient) (endpoint : string)
    (result : Dest A) (h : list Request) :
  let req := MakeRequest_request c "GET" endpoint None in
  (exists err, fst (Get c endpoint result h) = inl err
               /\ (snd (Get c endpoint result h) = h
                   \/ snd (Get c endpoint result h) = h ++ [req]))
  \/ (exists a, fst (Get c endpoint result h) = inr a
                /\ snd (Get c endpoint result h) = h ++ [req]).
Proof.
  intros req. unfold Get, mbind, IO_bind.
  destruct (MakeRequest_cases c "GET" endpoint body_nil h)
    as [(err & Hf & Hs) | (resp & rb & Hf & [= <-] & Hs & _)];
    destruct (MakeRequest c "GET" endpoint body_nil h) as [r h']; cbn in *; subst r.
  - left. exists err. split; [done |].
    destruct Hs as [-> | (rb & [= <-] & ->)]; auto.
  - subst h'. destruct (decode_into result resp) as [e | a] eqn:Hdec.
    + left. exists e. cbn. auto.
    + right. exists a. by cbn.
Qed.

End VerbCases.

Section ProjectFacts.
Context {net : NetLib} {unmarshalAPIError : JSONUnmarshal APIError}
        {decodeProject : JSONDecode ProjectResource.Project}.

(** [readProject] either adds an error and leaves the model as it was, or
    its GET was answered with a status below 400 and a body that decodes:
    then it adds nothing and fills the model from that answer, the slug
    excepted. *)
Lemma readProject_outcome (client : CircleCIClient)
    (data : ProjectResource.ProjectResourceModel) (diagnostics : list Diagnostic)
    (h : list Request) :
  let endpoint :=
    "/project/" +:+ EscapeProjectSlug (ValueString (ProjectResource.Slug data)) in
  let get := MakeRequest_request client "GET" endpoint None in
  let out := ProjectResource.readProject client data diagnostics h in
  (HasError (snd (fst out)) = true /\ fst (fst out) = data
   /\ (snd out = h \/ snd out = h ++ [get]))
  \/ (exists answer project,
        HTTPClient client h get = inr answer
        /\ StatusCode answer < 400
        /\ json_Decode (Body answer) = inr project
        /\ out
           = (({| ProjectResource.ID := StringValue (ProjectResource.api_ID project);
                  ProjectResource.Slug := ProjectResource.Slug data;
                  ProjectResource.Name :=
                    StringValue (ProjectResource.api_Name project);
                  ProjectResource.Organization :=
                    StringValue (ProjectResource.api_Organization project);
                  ProjectResource.VcsURL :=
                    StringValue (ProjectResource.api_VcsURL
                                   (ProjectResource.api_VcsInfo project));
                  ProjectResource.VcsType :=
                    StringValue (ProjectResource.api_Provider
                                   (ProjectResource.api_VcsInfo project)) |},
               diagnostics),
              h ++ [get])).
Proof.
  intros endpoint get out. subst out. unfold ProjectResource.readProject.
  fold endpoint. unfold mbind, IO_bind.
  pose proof (Get_ok_inv client endpoint (dest_ptr ProjectResource.Project) h) as Hinv.
  destruct (Get_cases client endpoint (dest_ptr ProjectResource.Project) h)
    as [(err & Hf & Hs) | (project & Hf & Hs)];
    destruct (Get client endpoint (dest_ptr ProjectResource.Project) h) as [r h'];
    cbn [fst snd] in *; subst r; cbn [fst snd mret IO_ret].
  - left. split; [by apply HasError_Append_error | by split].
  - right. destruct (Hinv project eq_refl) as (answer & Hd & Hlt & Hdec & _).
    subst h'. by exists answer, project.
Qed.

(** X10. Create of a project follows the project and then reads it. It
    sends the follow POST first and the GET only after the POST was
    answered with a status below 400: a follow that is refused ends Create
    with an error, the POST being the only request sent. Create ends
    either with an error and the state as it was, or with both requests
    answered with a status below 400, no error, and a state filled from
    the answer to the GET that keeps the planned slug. When the follow
    goes through and the GET is then answered with a status of 400 or
    more, Create fails although the project has been followed, and the
    state is not set. *)
Theorem Project_Create_follows_then_reads (client : CircleCIClient)
    (req : CreateRequest ProjectResource.ProjectResourceModel)
    (resp : Resp ProjectResource.ProjectResourceModel) (h : list Request) :
  HasError (resp_Diagnostics resp) = false ->
  let plan := create_Plan req in
  let slug := EscapeProjectSlug (ValueString (ProjectResource.Slug plan)) in
  let follow :=
    MakeRequest_request client "POST" ("/project/" +:+ slug +:+ "/follow") None in
  let get := MakeRequest_request client "GET" ("/project/" +:+ slug) None in
  let created project :=
    {| resp_State :=
         Some {| ProjectResource.ID := StringValue (ProjectResource.api_ID project);
                 ProjectResource.Slug := ProjectResource.Slug plan;
                 ProjectResource.Name :=
                   StringValue (ProjectResource.api_Name project);
                 ProjectResource.Organization :=
                   StringValue (ProjectResource.api_Organization project);
                 ProjectResource.VcsURL :=
                   StringValue (ProjectResource.api_VcsURL
                                  (ProjectResource.api_VcsInfo project));
                 ProjectResource.VcsType :=
                   StringValue (ProjectResource.api_Provider
                                  (ProjectResource.api_VcsInfo project)) |};
       resp_Diagnostics := resp_Diagnostics resp |} in
  let out := ProjectResource.Create client req resp h in
  ((HasError (resp_Diagnostics (fst out)) = true
    /\ resp_State (fst out) = resp_State resp
    /\ (snd out = h \/ snd out = h ++ [follow] \/ snd out = h ++ [follow; get]))
   \/ (exists followed answer project,
         HTTPClient client h follow = inr followed
         /\ StatusCode followed < 400
         /\ HTTPClient client (h ++ [follow]) get = inr answer
         /\ StatusCode answer < 400
         /\ json_Decode (Body answer) = inr project
         /\ out = (created project, h ++ [follow; get])))
  /\ (snd out = h ++ [follow; get] ->
      exists followed,
        HTTPClient client h follow = inr followed /\ StatusCode followed < 400)
  /\ (forall followed,
        http_NewRequest_error "POST" (URL follow) = None ->
        HTTPClient client h follow = inr followed ->
        StatusCode followed >= 400 ->
        out = (AddError resp "Client Error"
                 ("Unable to follow project, got error: "
                    +:+ Error (status_error followed)),
               h ++ [follow]))
  /\ (forall followed answer,
        http_NewRequest_error "POST" (URL follow) = None ->
        http_NewRequest_error "GET" (URL get) = None ->
        HTTPClient client h follow = inr followed ->
        StatusCode followed < 400 ->
        HTTPClient client (h ++ [follow]) get = inr answer ->
        StatusCode answer >= 400 ->
        out = (AddError resp "Client Error"
                 ("Unable to read project, got error: "
                    +:+ Error (status_error answer)),
               h ++ [follow; get])).
Proof.
  intros Hno plan slug follow get created out. subst out created.
  unfold ProjectResource.Create. cbn [tfsdk_Get]. fold plan.
  rewrite Diagnostics_Append_nil, Hno. fold slug. unfold mbind, IO_bind.
  pose proof (Post_ok_inv client ("/project/" +:+ slug +:+ "/follow")
                body_nil dest_nil h) as Hinv.
  split; [| split; [| split]].
  - destruct (Post_nil_cases client ("/project/" +:+ slug +:+ "/follow")
                (dest_nil) h) as [(err & Hf & Hs) | (u & Hf & Hs)];
      destruct (Post client _ body_nil dest_nil h) as [r h1];
      cbn [fst snd] in *; subst r.
    + left. cbn [fst snd mret IO_ret].
      split; [apply HasError_AddError |]. split; [done |].
      destruct Hs as [-> | ->]; auto.
    + subst h1. fold follow.
      destruct (Hinv u eq_refl) as (rb & followed & [= <-] & Hd & Hlt & _).
      fold follow in Hd.
      pose proof (readProject_outcome client plan (resp_Diagnostics resp)
                    (h ++ [follow])) as Hread.
      cbn zeta in Hread. fold slug in Hread. fold get in Hread.
      destruct (ProjectResource.readProject client plan (resp_Diagnostics resp)
                  (h ++ [follow])) as [[data diagnostics] h2].
      cbn [fst snd] in Hread. cbn [resp_Diagnostics].
      destruct Hread as [(Herr & -> & Hlog)
                        | (answer & project & Hd2 & Hlt2 & Hdec & [= -> -> ->])].
      * rewrite Herr. left. cbn [fst snd mret IO_ret resp_Diagnostics resp_State].
        split; [done |]. split; [done |].
        destruct Hlog as [-> | ->]; [auto |]. right. right. by rewrite <- app_assoc.
      * rewrite Hno. right. exists followed, answer, project.
        cbn [fst snd mret IO_ret]. unfold State_Set. rewrite Diagnostics_Append_nil.
        cbn [resp_Diagnostics resp_State].
        split; [done |]. split; [done |]. split; [done |]. split; [done |].
        split; [done |]. by rewrite <- app_assoc.
  - destruct (Post_nil_cases client ("/project/" +:+ slug +:+ "/follow")
                (dest_nil) h) as [(err & Hf & Hs) | (u & Hf & Hs)];
      destruct (Post client _ body_nil dest_nil h) as [r h1];
      cbn [fst snd] in *; subst r.
    + cbn [fst snd mret IO_ret]. fold follow in Hs. intros Hlog. exfalso.
      destruct Hs as [-> | ->]; apply (f_equal length) in Hlog;
        rewrite !length_app in Hlog; simpl in Hlog; lia.
    + intros _. destruct (Hinv u eq_refl) as (rb & followed & [= <-] & Hd & Hlt & _).
      by exists followed.
  - intros followed Hn Hd Hge.
    rewrite (Post_answered client _ body_nil None dest_nil h followed eq_refl Hn Hd).
    by rewrite decide_True by done.
  - intros followed answer Hn1 Hn2 Hd1 Hlt Hd2 Hge.
    rewrite (Post_answered client _ body_nil None dest_nil h followed eq_refl Hn1 Hd1).
    rewrite decide_False by lia. cbn [decode_into].
    unfold ProjectResource.readProject, mbind, IO_bind. fold plan slug follow.
    rewrite (Get_answered client _ (dest_ptr ProjectResource.Project)
               (h ++ [follow]) answer Hn2 Hd2).
    rewrite decide_True by done. cbn [mret IO_ret resp_Diagnostics].
    rewrite HasError_Append_error by done.
    fold get. by rewrite <- app_assoc.
Qed.

(** X11. Update of a project never reaches the API: it stores the plan as
    the new state and adds one warning and no error. *)
Theorem Project_Update_stores_plan (client : CircleCIClient)
    (req : UpdateRequest ProjectResource.ProjectResourceModel)
    (resp : Resp ProjectResource.ProjectResourceModel) (h : list Request) :
  HasError (resp_Diagnostics resp) = false ->
  let out := ProjectResource.Update client req resp h in
  snd out = h
  /\ resp_State (fst out) = Some (update_Plan req)
  /\ HasError (resp_Diagnostics (fst out)) = false
  /\ WarningDiagnostic "Project Update"
       "CircleCI projects are primarily read-only. Most project settings are managed through separate resources."
     ∈ resp_Diagnostics (fst out).
Proof.
  intros Hno out. subst out. unfold ProjectResource.Update. cbn [tfsdk_Get].
  rewrite Diagnostics_Append_nil, Hno. cbn [fst snd mret IO_ret].
  unfold State_Set. rewrite Diagnostics_Append_nil.
  cbn [resp_State resp_Diagnostics AddWarning Diagnostics_Append].
  split; [done |]. split; [done |]. split.
  - by rewrite HasError_Append_warning.
  - apply Append_one_elem.
Qed.

End ProjectFacts.

(** X10: a follow that is refused is the only request sent; and a follow
    that goes through, with the GET then answered with 404. *)
Lemma Project_Create_follows_then_reads_witness :
  let refusing := Fixtures.client [Fixtures.status 500 "oops"; Fixtures.ok "p-1"] in
  let client := Fixtures.client [Fixtures.ok ""; Fixtures.status 404 "{Not found."] in
  let plan :=
    {| ProjectResource.ID := StringUnknown;
       ProjectResource.Slug := StringValue "gh/org/repo";
       ProjectResource.Name := StringUnknown;
       ProjectResource.Organization := StringUnknown;
       ProjectResource.VcsURL := StringUnknown;
       ProjectResource.VcsType := StringUnknown |} in
  HasError (resp_Diagnostics
              (Fixtures.fresh_create (M := ProjectResource.ProjectResourceModel))) = false
  /\ ProjectResource.Create (net := Fixtures.net)
       (unmarshalAPIError := Fixtures.unmarshalAPIError)
       (decodeProject := Fixtures.decodeProject)
       refusing {| create_Plan := plan |} Fixtures.fresh_create []
     = ({| resp_State := None;
           resp_Diagnostics :=
             [ErrorDiagnostic "Client Error"
                "Unable to follow project, got error: CircleCI API error (code 500): HTTP 500: oops"] |},
        [MakeRequest_request refusing "POST" "/project/gh/org/repo/follow" None])
  /\ ProjectResource.Create (net := Fixtures.net)
       (unmarshalAPIError := Fixtures.unmarshalAPIError)
       (decodeProject := Fixtures.decodeProject)
       client {| create_Plan := plan |} Fixtures.fresh_create []
     = ({| resp_State := None;
           resp_Diagnostics :=
             [ErrorDiagnostic "Client Error"
                "Unable to read project, got error: CircleCI API error: Not found."] |},
        [MakeRequest_request client "POST" "/project/gh/org/repo/follow" None;
         MakeRequest_request client "GET" "/project/gh/org/repo" None]).
Proof.
  intros refusing client plan.
  assert (Hno : HasError (resp_Diagnostics
              (Fixtures.fresh_create (M := ProjectResource.ProjectResourceModel)))
              = false) by reflexivity.
  split; [exact Hno |]. split.
  - exact (proj1 (proj2 (proj2 (Project_Create_follows_then_reads (net := Fixtures.net)
                    (unmarshalAPIError := Fixtures.unmarshalAPIError)
                    (decodeProject := Fixtures.decodeProject)
                    refusing {| create_Plan := plan |} Fixtures.fresh_create [] Hno)))
             {| StatusCode := 500; Body := "oops" |}
             eq_refl eq_refl ltac:(simpl; lia)).
  - exact (proj2 (proj2 (proj2 (Project_Create_follows_then_reads (net := Fixtures.net)
                    (unmarshalAPIError := Fixtures.unmarshalAPIError)
                    (decodeProject := Fixtures.decodeProject)
                    client {| create_Plan := plan |} Fixtures.fresh_create [] Hno)))
             {| StatusCode := 200; Body := "" |}
             {| StatusCode := 404; Body := "{Not found." |}
             eq_refl eq_refl eq_refl ltac:(simpl; lia) eq_refl ltac:(simpl; lia)).
Defined.

(** X11 at the response the host hands over. *)
Lemma Project_Update_stores_plan_witness :
  let prior :=
    {| ProjectResource.ID := StringValue "p-1";
       ProjectResource.Slug := StringValue "gh/org/repo";
       ProjectResource.Name := StringValue "repo";
       ProjectResource.Organization := StringValue "org";
       ProjectResource.VcsURL := StringNull;
       ProjectResource.VcsType := StringNull |} in
  let plan :=
    {| ProjectResource.ID := StringValue "p-1";
       ProjectResource.Slug := StringValue "gh/org/repo";
       ProjectResource.Name := StringValue "renamed";
       ProjectResource.Organization := StringValue "org";
       ProjectResource.VcsURL := StringNull;
       ProjectResource.VcsType := StringNull |} in
  HasError (resp_Diagnostics (Fixtures.fresh prior)) = false
  /\ resp_State (fst (ProjectResource.Update (Fixtures.client [])
                        {| update_Plan := plan; update_State := prior |}
                        (Fixtures.fresh prior) []))
     = Some plan.
Proof.
  intros prior plan.
  assert (Hno : HasError (resp_Diagnostics (Fixtures.fresh prior)) = false)
    by reflexivity.
  split; [exact Hno |].
  exact (proj1 (proj2 (Project_Update_stores_plan (Fixtures.client [])
                         {| update_Plan := plan; update_State := prior |}
                         (Fixtures.fresh prior) [] Hno))).
Defined.

(** ** Runner tokens *)

Section RunnerTokenFacts.
Context {net : NetLib}
        {decodeToken : JSONDecode RunnerTokenResource.ReadAPIResponse}
        {decodeCreated : JSONDecode RunnerTokenResource.CreateAPIResponse}
        {marshalCreate : JSONMarshal RunnerTokenResource.CreateTokenRequest}.

(** X12. Create of a runner token sends one POST to [/runner/token] and
    accepts the status 201 only: any other status, 200 included, is
    reported as an error and sets no state. On 201 with a body that
    decodes, the state is filled from the answer, the token value
    included, and nothing is reported. *)
Theorem RunnerToken_Create_accepts_201_only (client : CircleCIClient)
    (req : CreateRequest RunnerTokenResource.RunnerTokenResourceModel)
    (resp : Resp RunnerTokenResource.RunnerTokenResourceModel)
    (h : list Request) (body : string) (httpResp : Response) :
  let plan := create_Plan req in
  let createReq :=
    {| RunnerTokenResource.req_resource_class :=
         ValueString (RunnerTokenResource.ResourceClass plan);
       RunnerTokenResource.req_nickname :=
         ValueString (RunnerTokenResource.Nickname plan) |} in
  let httpReq := RunnerTokenResource.Create_request client body in
  HasError (resp_Diagnostics resp) = false ->
  json_Marshal createReq = inr body ->
  http_NewRequest_error "POST" (URL httpReq) = None ->
  HTTPClient client h httpReq = inr httpResp ->
  let out := RunnerTokenResource.Create client req resp h in
  snd out = h ++ [httpReq]
  /\ (StatusCode httpResp <> 201 ->
      fst out = AddError resp "Error creating runner token"
                  ("API returned status " +:+ pretty (StatusCode httpResp)
                     +:+ " when creating runner token")
      /\ HasError (resp_Diagnostics (fst out)) = true
      /\ resp_State (fst out) = resp_State resp)
  /\ (StatusCode httpResp = 201 ->
      forall apiResponse,
        json_Decode (Body httpResp) = inr apiResponse ->
        fst out
        = {| resp_State :=
               Some {| RunnerTokenResource.ID :=
                         StringValue (RunnerTokenResource.created_ID apiResponse);
                       RunnerTokenResource.ResourceClass :=
                         StringValue (RunnerTokenResource.created_ResourceClass apiResponse);
                       RunnerTokenResource.Nickname :=
                         StringValue (RunnerTokenResource.created_Nickname apiResponse);
                       RunnerTokenResource.Token :=
                         StringValue (RunnerTokenResource.created_Token apiResponse);
                       RunnerTokenResource.CreatedAt :=
                         StringValue (RunnerTokenResource.created_CreatedAt apiResponse) |};
             resp_Diagnostics := resp_Diagnostics resp |}).
Proof.
  intros plan createReq httpReq Hno Hm Hn Hd out. subst out.
  unfold RunnerTokenResource.Create. cbn [tfsdk_Get]. fold plan. fold createReq.
  rewrite Diagnostics_Append_nil, Hno, Hm.
  change (BaseURL client +:+ "/runner/token") with (URL httpReq). rewrite Hn.
  unfold mbind, IO_bind, Do. fold httpReq. rewrite Hd. unfold StatusCreated.
  destruct (decide (StatusCode httpResp <> 201)) as [Hne | Heq];
    cbn [fst snd mret IO_ret].
  - split; [done |]. split; [| done].
    intros _. split; [done |]. split; [apply HasError_AddError | apply State_AddError].
  - split; [| split; [done |]].
    + by destruct (json_Decode (Body httpResp)).
    + intros _ apiResponse ->. cbn [fst mret IO_ret].
      unfold State_Set. by rewrite Diagnostics_Append_nil.
Qed.

(** X13. Read of a runner token drops the resource only when the GET was
    answered with 404; in every other outcome the state it leaves still
    holds the token value of the prior state, which the API never
    returns. *)
Theorem RunnerToken_Read_keeps_token (client : CircleCIClient)
    (prior : RunnerTokenResource.RunnerTokenResourceModel)
    (resp : Resp RunnerTokenResource.RunnerTokenResourceModel)
    (h : list Request) :
  resp_State resp = Some prior ->
  let url := BaseURL client +:+ "/runner/token/"
               +:+ ValueString (RunnerTokenResource.ID prior) in
  let httpReq := {| Method := "GET"; URL := url; ReqBody := None;
                    Header := <["Accept" := "application/json"]>
                                (<["Circle-Token" := ApiToken client]> ∅) |} in
  let out := RunnerTokenResource.Read client {| read_State := prior |} resp h in
  (resp_State (fst out) = None
   /\ exists httpResp,
        HTTPClient client h httpReq = inr httpResp
        /\ StatusCode httpResp = 404)
  \/ (exists s,
        resp_State (fst out) = Some s
        /\ RunnerTokenResource.Token s = RunnerTokenResource.Token prior).
Proof.
  intros Hprior url httpReq out. subst out.
  unfold RunnerTokenResource.Read. cbn [tfsdk_Get read_State].
  rewrite Diagnostics_Append_nil. fold url.
  destruct (HasError (resp_Diagnostics resp)).
  { right. exists prior. by cbn. }
  destruct (http_NewRequest_error "GET" url).
  { right. exists prior. by cbn. }
  unfold mbind, IO_bind, Do. fold httpReq.
  destruct (HTTPClient client h httpReq) as [err | httpResp] eqn:Hd.
  { right. exists prior. by cbn. }
  unfold StatusNotFound, StatusOK.
  destruct (decide (StatusCode httpResp = 404)) as [H404 | H404].
  { left. split; [done |]. by exists httpResp. }
  destruct (decide (StatusCode httpResp <> 200)).
  { right. exists prior. by cbn. }
  destruct (json_Decode (Body httpResp)) as [err | apiResponse].
  { right. exists prior. by cbn. }
  right. eexists. cbn. split; [reflexivity | done].
Qed.

End RunnerTokenFacts.

(** X12: the API answers the creation with 200 instead of 201. *)
Lemma RunnerToken_Create_accepts_201_only_witness :
  let client := Fixtures.client [Fixtures.status 200 "secret"] in
  let plan :=
    {| RunnerTokenResource.ID := StringUnknown;
       RunnerTokenResource.ResourceClass := StringValue "org/class";
       RunnerTokenResource.Nickname := StringValue "nick";
       RunnerTokenResource.Token := StringUnknown;
       RunnerTokenResource.CreatedAt := StringUnknown |} in
  let createReq :=
    {| RunnerTokenResource.req_resource_class := "org/class";
       RunnerTokenResource.req_nickname := "nick" |} in
  let httpReq := RunnerTokenResource.Create_request client "org/class/nick" in
  let httpResp := {| StatusCode := 200; Body := "secret" |} in
  HasError (resp_Diagnostics
              (Fixtures.fresh_create (M := RunnerTokenResource.RunnerTokenResourceModel)))
  = false
  /\ json_Marshal (JSONMarshal := Fixtures.marshalToken) createReq = inr "org/class/nick"
  /\ http_NewRequest_error (NetLib := Fixtures.net) "POST" (URL httpReq) = None
  /\ HTTPClient client [] httpReq = inr httpResp
  /\ fst (RunnerTokenResource.Create (net := Fixtures.net)
            (decodeCreated := Fixtures.decodeCreated)
            (marshalCreate := Fixtures.marshalToken)
            client {| create_Plan := plan |} Fixtures.fresh_create [])
     = {| resp_State := None;
          resp_Diagnostics :=
            [ErrorDiagnostic "Error creating runner token"
               "API returned status 200 when creating runner token"] |}.
Proof.
  intros client plan createReq httpReq httpResp.
  assert (Hno : HasError (resp_Diagnostics
              (Fixtures.fresh_create (M := RunnerTokenResource.RunnerTokenResourceModel)))
              = false) by reflexivity.
  assert (Hm : json_Marshal (JSONMarshal := Fixtures.marshalToken) createReq
               = inr "org/class/nick") by reflexivity.
  assert (Hn : http_NewRequest_error (NetLib := Fixtures.net) "POST" (URL httpReq) = None)
    by reflexivity.
  assert (Hd : HTTPClient client [] httpReq = inr httpResp) by reflexivity.
  split; [exact Hno |]. split; [exact Hm |]. split; [exact Hn |]. split; [exact Hd |].
  destruct (RunnerToken_Create_accepts_201_only (net := Fixtures.net)
              (decodeCreated := Fixtures.decodeCreated)
              (marshalCreate := Fixtures.marshalToken)
              client {| create_Plan := plan |} Fixtures.fresh_create []
              "org/class/nick" httpResp Hno Hm Hn Hd) as (_ & Hother & _).
  exact (proj1 (Hother ltac:(simpl; lia))).
Defined.

(** X13 at a token that still exists. *)
Lemma RunnerToken_Read_keeps_token_witness :
  let client := Fixtures.client [Fixtures.ok "t-1"] in
  let prior :=
    {| RunnerTokenResource.ID := StringValue "t-1";
       RunnerTokenResource.ResourceClass := StringValue "org/class";
       RunnerTokenResource.Nickname := StringValue "nick";
       RunnerTokenResource.Token := StringValue "secret";
       RunnerTokenResource.CreatedAt := StringNull |} in
  let out :=
    RunnerTokenResource.Read (net := Fixtures.net) (decodeToken := Fixtures.decodeToken)
      client {| read_State := prior |} (Fixtures.fresh prior) [] in
  resp_State (Fixtures.fresh prior) = Some prior
  /\ ((resp_State (fst out) = None
       /\ exists httpResp,
            HTTPClient client []
              {| Method := "GET";
                 URL := BaseURL client +:+ "/runner/token/" +:+ "t-1";
                 ReqBody := None;
                 Header := <["Accept" := "application/json"]>
                             (<["Circle-Token" := ApiToken client]> ∅) |}
            = inr httpResp
            /\ StatusCode httpResp = 404)
      \/ (exists s,
            resp_State (fst out) = Some s
            /\ RunnerTokenResource.Token s = StringValue "secret")).
Proof.
  intros client prior out.
  assert (Hprior : resp_State (Fixtures.fresh prior) = Some prior) by reflexivity.
  split; [exact Hprior |].
  exact (RunnerToken_Read_keeps_token (net := Fixtures.net)
           (decodeToken := Fixtures.decodeToken)
           client prior (Fixtures.fresh prior) [] Hprior).
Defined.

(** X14: the GET of a runner token is answered with 404. *)
Lemma RunnerTokenResource_Read_not_found_witness :
  let client := Fixtures.client [Fixtures.status 404 "{Not found."] in
  let prior :=
    {| RunnerTokenResource.ID := StringValue "t-1";
       RunnerTokenResource.ResourceClass := StringValue "org/class";
       RunnerTokenResource.Nickname := StringValue "nick";
       RunnerTokenResource.Token := StringValue "secret";
       RunnerTokenResource.CreatedAt := StringNull |} in
  let httpReq :=
    {| Method := "GET"; URL := "https://circleci.com/api/v2/runner/token/t-1";
       ReqBody := None;
       Header := <["Accept" := "application/json"]> (<["Circle-Token" := "token"]> ∅) |} in
  let httpResp := {| StatusCode := 404; Body := "{Not found." |} in
  HasError (resp_Diagnostics (Fixtures.fresh prior)) = false
  /\ http_NewRequest_error (NetLib := Fixtures.net) "GET"
       "https://circleci.com/api/v2/runner/token/t-1" = None
  /\ HTTPClient client [] httpReq = inr httpResp
  /\ StatusCode httpResp = StatusNotFound
  /\ RunnerTokenResource.Read (net := Fixtures.net) (decodeToken := Fixtures.decodeToken)
       client {| read_State := prior |} (Fixtures.fresh prior) []
     = ({| resp_State := None; resp_Diagnostics := [] |}, [httpReq]).
Proof.
  intros client prior httpReq httpResp.
  repeat (split; [reflexivity |]).
  exact (RunnerTokenResource_Read_not_found (net := Fixtures.net)
           (decodeToken := Fixtures.decodeToken)
           client {| read_State := prior |} (Fixtures.fresh prior) []
           httpReq httpResp eq_refl eq_refl eq_refl eq_refl eq_refl).
Defined.

(** ** Identifiers made by Create and read by Import *)

Section RoundTripFacts.
Context {net : NetLib} {unmarshalAPIError : JSONUnmarshal APIError}
        {decodeEnvVar : JSONDecode EnvironmentVariableResource.EnvironmentVariable}
        {marshalEnvVar :
           JSONMarshal EnvironmentVariableResource.CreateEnvironmentVariableRequest}
        {decodeKey : JSONDecode CheckoutKeyResource.CheckoutKey}
        {marshalKey : JSONMarshal CheckoutKeyResource.CreateCheckoutKeyRequest}.

(** X15. The id that Create gives an environment variable is
    [context_id:name], and Import of that id gives back the context id
    and the name of the plan, provided the context id holds no colon (a
    colon in the name does no harm). *)
Theorem EnvironmentVariable_id_round_trip (client : CircleCIClient)
    (plan s : EnvironmentVariableResource.EnvironmentVariableResourceModel)
    (resp : Resp EnvironmentVariableResource.EnvironmentVariableResourceModel)
    (h : list Request) (resp0 : ImportStateResponse) :
  let context_id := ValueString (EnvironmentVariableResource.ContextID plan) in
  let name := ValueString (EnvironmentVariableResource.Name plan) in
  resp_State resp = None ->
  resp_State (fst (EnvironmentVariableResource.Create client
                     {| create_Plan := plan |} resp h)) = Some s ->
  index_byte ":"%char context_id = None ->
  EnvironmentVariableResource.ID s = StringValue (context_id +:+ ":" +:+ name)
  /\ imported resp0
       (EnvironmentVariableResource.ImportState
          {| import_ID := ValueString (EnvironmentVariableResource.ID s) |} resp0)
       (context_id +:+ ":" +:+ name)
       "context_id" (AttrString context_id) "name" (AttrString name).
Proof.
  intros context_id name Hnone Hcreated Hcolon.
  assert (Hid : EnvironmentVariableResource.ID s
                = StringValue (context_id +:+ ":" +:+ name)).
  { revert Hcreated. unfold EnvironmentVariableResource.Create.
    cbn [tfsdk_Get create_Plan]. rewrite Diagnostics_Append_nil.
    destruct (HasError (resp_Diagnostics resp)).
    { cbn. rewrite Hnone. discriminate. }
    unfold mbind, IO_bind.
    match goal with |- context [Put client ?e ?b ?d h] =>
      destruct (Put client e b d h) as [[err | envVar] h'] end.
    - cbn. rewrite Hnone. discriminate.
    - cbn. by intros [= <-]. }
  split; [exact Hid |].
  rewrite Hid. cbn [ValueString].
  assert (Hsplit : SplitN (context_id +:+ ":" +:+ name) ":"%char 2 = [context_id; name])
    by apply (SplitN_2_first _ _ _ Hcolon).
  unfold EnvironmentVariableResource.ImportState. cbn [import_ID].
  rewrite Hsplit. by split.
Qed.


End RoundTripFacts.

(** X15 for the variable [KEY] of the context [ctx-1]. *)
Lemma EnvironmentVariable_id_round_trip_witness :
  let client := Fixtures.client [Fixtures.ok "KEY"] in
  let plan :=
    {| EnvironmentVariableResource.ID := StringUnknown;
       EnvironmentVariableResource.ContextID := StringValue "ctx-1";
       EnvironmentVariableResource.Name := StringValue "KEY";
       EnvironmentVariableResource.Value := StringValue "secret" |} in
  let s :=
    {| EnvironmentVariableResource.ID := StringValue "ctx-1:KEY";
       EnvironmentVariableResource.ContextID := StringValue "ctx-1";
       EnvironmentVariableResource.Name := StringValue "KEY";
       EnvironmentVariableResource.Value := StringValue "secret" |} in
  resp_State (Fixtures.fresh_create
                (M := EnvironmentVariableResource.EnvironmentVariableResourceModel)) = None
  /\ resp_State (fst (EnvironmentVariableResource.Create (net := Fixtures.net)
                        (unmarshalAPIError := Fixtures.unmarshalAPIError)
                        (decodeEnvVar := Fixtures.decodeEnvVar)
                        (marshalEnvVar := Fixtures.marshalEnvVar)
                        client {| create_Plan := plan |} Fixtures.fresh_create []))
     = Some s
  /\ index_byte ":"%char "ctx-1" = None
  /\ imported Fixtures.fresh_import
       (EnvironmentVariableResource.ImportState (net := Fixtures.net)
          {| import_ID := "ctx-1:KEY" |} Fixtures.fresh_import)
       "ctx-1:KEY" "context_id" (AttrString "ctx-1") "name" (AttrString "KEY").
Proof.
  intros client plan s.
  assert (Hnone : resp_State (Fixtures.fresh_create
                    (M := EnvironmentVariableResource.EnvironmentVariableResourceModel))
                  = None) by reflexivity.
  assert (Hcreated :
    resp_State (fst (EnvironmentVariableResource.Create (net := Fixtures.net)
                       (unmarshalAPIError := Fixtures.unmarshalAPIError)
                       (decodeEnvVar := Fixtures.decodeEnvVar)
                       (marshalEnvVar := Fixtures.marshalEnvVar)
                       client {| create_Plan := plan |} Fixtures.fresh_create []))
    = Some s) by reflexivity.
  assert (Hcolon : index_byte ":"%char "ctx-1" = None) by reflexivity.
  split; [exact Hnone |]. split; [exact Hcreated |]. split; [exact Hcolon |].
  exact (proj2 (EnvironmentVariable_id_round_trip (net := Fixtures.net)
                  (unmarshalAPIError := Fixtures.unmarshalAPIError)
                  (decodeEnvVar := Fixtures.decodeEnvVar)
                  (marshalEnvVar := Fixtures.marshalEnvVar)
                  client plan s Fixtures.fresh_create [] Fixtures.fresh_import
                  Hnone Hcreated Hcolon)).
Defined.


(** ** What Read and Update keep *)

Section RefreshFacts.
Context {net : NetLib} {unmarshalAPIError : JSONUnmarshal APIError}
        {decodeEnvVar : JSONDecode EnvironmentVariableResource.EnvironmentVariable}
        {marshalEnvVar :
           JSONMarshal EnvironmentVariableResource.CreateEnvironmentVariableRequest}
        {decodePipeline : JSONDecode PipelineResource.Pipeline}
        {decodeKey : JSONDecode CheckoutKeyResource.CheckoutKey}
        {decodeContext : JSONDecode ContextResource.ContextAPI}.

(** X17. Update of an environment variable ends either with an error and
    the state as it was, or with no error and the plan as the new state,
    attribute for attribute: nothing is taken from the API's answer. It
    sends at most one request, a PUT. *)
Theorem EnvironmentVariable_Update_stores_plan (client : CircleCIClient)
    (req : UpdateRequest EnvironmentVariableResource.EnvironmentVariableResourceModel)
    (resp : Resp EnvironmentVariableResource.EnvironmentVariableResourceModel)
    (h : list Request) :
  HasError (resp_Diagnostics resp) = false ->
  let plan := update_Plan req in
  let out := EnvironmentVariableResource.Update client req resp h in
  ((HasError (resp_Diagnostics (fst out)) = true
    /\ resp_State (fst out) = resp_State resp)
   \/ fst out = {| resp_State := Some plan;
                   resp_Diagnostics := resp_Diagnostics resp |})
  /\ (snd out = h
      \/ exists requestBody,
           snd out = h ++ [MakeRequest_request client "PUT"
                             (EnvironmentVariableResource.endpoint_of plan)
                             requestBody]).
Proof.
  intros Hno plan out. subst out. unfold EnvironmentVariableResource.Update.
  cbn [tfsdk_Get]. fold plan. rewrite Diagnostics_Append_nil, Hno.
  unfold mbind, IO_bind.
  match goal with |- context [Put client ?e ?b ?d h] =>
    pose proof (Put_log client e b d h) as Hlog;
    destruct (Put client e b d h) as [[err | envVar] h'] end;
    cbn [fst snd mret IO_ret] in *.
  - split; [left; split; [apply HasError_AddError | done] |].
    destruct Hlog as [-> | (rb & _ & ->)]; [by left | right; by exists rb].
  - split.
    + right. unfold State_Set. by rewrite Diagnostics_Append_nil.
    + destruct Hlog as [-> | (rb & _ & ->)]; [by left | right; by exists rb].
Qed.

(** X18. Read of a pipeline either reports an error and leaves the state
    as it was, or its GET was answered with a status below 400 and a body
    that decodes: then it refreshes the number, the state and the two time
    stamps from that answer and keeps every other attribute of the prior
    state: id, project slug, branch, tag, parameters and VCS data. *)
Theorem Pipeline_Read_refreshes_status_only (client : CircleCIClient)
    (prior : PipelineResource.PipelineResourceModel)
    (resp : Resp PipelineResource.PipelineResourceModel) (h : list Request) :
  HasError (resp_Diagnostics resp) = false ->
  let get :=
    MakeRequest_request client "GET"
      ("/pipeline/" +:+ ValueString (PipelineResource.ID prior)) None in
  let refreshed pipeline :=
    {| resp_State :=
         Some {| PipelineResource.ID := PipelineResource.ID prior;
                 PipelineResource.ProjectSlug := PipelineResource.ProjectSlug prior;
                 PipelineResource.Branch := PipelineResource.Branch prior;
                 PipelineResource.Tag := PipelineResource.Tag prior;
                 PipelineResource.Parameters := PipelineResource.Parameters prior;
                 PipelineResource.Number :=
                   Int64Value (PipelineResource.api_Number pipeline);
                 PipelineResource.State :=
                   StringValue (PipelineResource.api_State pipeline);
                 PipelineResource.CreatedAt :=
                   StringValue (PipelineResource.api_CreatedAt pipeline);
                 PipelineResource.UpdatedAt :=
                   StringValue (PipelineResource.api_UpdatedAt pipeline);
                 PipelineResource.VCS := PipelineResource.VCS prior |};
       resp_Diagnostics := resp_Diagnostics resp |} in
  let out := PipelineResource.Read client {| read_State := prior |} resp h in
  ((HasError (resp_Diagnostics (fst out)) = true
    /\ resp_State (fst out) = resp_State resp)
   \/ (exists answer pipeline,
         HTTPClient client h get = inr answer
         /\ StatusCode answer < 400
         /\ json_Decode (Body answer) = inr pipeline
         /\ out = (refreshed pipeline, h ++ [get])))
  /\ (forall answer pipeline,
        http_NewRequest_error "GET" (URL get) = None ->
        HTTPClient client h get = inr answer ->
        StatusCode answer < 400 ->
        json_Decode (Body answer) = inr pipeline ->
        out = (refreshed pipeline, h ++ [get])).
Proof.
  intros Hno get refreshed out. subst out refreshed. unfold PipelineResource.Read.
  cbn [tfsdk_Get read_State]. rewrite Diagnostics_Append_nil, Hno.
  unfold mbind, IO_bind. split.
  - match goal with |- context [Get client ?e ?d h] =>
      pose proof (Get_ok_inv client e d h) as Hinv;
      destruct (Get client e d h) as [[err | pipeline] h'] end;
      cbn [fst snd mret IO_ret] in *.
    + left. split; [apply HasError_AddError | done].
    + right. destruct (Hinv pipeline eq_refl) as (answer & Hd & Hlt & Hdec & ->).
      exists answer, pipeline. unfold State_Set. by rewrite Diagnostics_Append_nil.
  - intros answer pipeline Hn Hd Hlt Hdec.
    rewrite (Get_answered client _ (dest_ptr PipelineResource.Pipeline) h answer Hn Hd).
    rewrite decide_False by lia. cbn [decode_into]. rewrite Hdec.
    cbn [fst snd mret IO_ret]. unfold State_Set. by rewrite Diagnostics_Append_nil.
Qed.

(** X19. Read of a checkout key either reports an error and leaves the
    state as it was, or its GET was answered with a status below 400 and a
    body that decodes: then it takes the type, the public key and the
    creation time from that answer and keeps the id, the project slug and
    the fingerprint of the prior state: the fingerprint of the answer is
    not looked at. *)
Theorem CheckoutKey_Read_keeps_identity (client : CircleCIClient)
    (prior : CheckoutKeyResource.CheckoutKeyResourceModel)
    (resp : Resp CheckoutKeyResource.CheckoutKeyResourceModel) (h : list Request) :
  HasError (resp_Diagnostics resp) = false ->
  let get :=
    MakeRequest_request client "GET" (CheckoutKeyResource.key_endpoint prior) None in
  let refreshed key :=
    {| resp_State :=
         Some {| CheckoutKeyResource.ID := CheckoutKeyResource.ID prior;
                 CheckoutKeyResource.ProjectSlug :=
                   CheckoutKeyResource.ProjectSlug prior;
                 CheckoutKeyResource.Type_ :=
                   StringValue (CheckoutKeyResource.api_Type key);
                 CheckoutKeyResource.Fingerprint :=
                   CheckoutKeyResource.Fingerprint prior;
                 CheckoutKeyResource.PublicKey :=
                   StringValue (CheckoutKeyResource.api_PublicKey key);
                 CheckoutKeyResource.CreatedAt :=
                   StringValue (CheckoutKeyResource.api_CreatedAt key) |};
       resp_Diagnostics := resp_Diagnostics resp |} in
  let out := CheckoutKeyResource.Read client {| read_State := prior |} resp h in
  ((HasError (resp_Diagnostics (fst out)) = true
    /\ resp_State (fst out) = resp_State resp)
   \/ (exists answer key,
         HTTPClient client h get = inr answer
         /\ StatusCode answer < 400
         /\ json_Decode (Body answer) = inr key
         /\ out = (refreshed key, h ++ [get])))
  /\ (forall answer key,
        http_NewRequest_error "GET" (URL get) = None ->
        HTTPClient client h get = inr answer ->
        StatusCode answer < 400 ->
        json_Decode (Body answer) = inr key ->
        out = (refreshed key, h ++ [get])).
Proof.
  intros Hno get refreshed out. subst out refreshed. unfold CheckoutKeyResource.Read.
  cbn [tfsdk_Get read_State]. rewrite Diagnostics_Append_nil, Hno.
  unfold mbind, IO_bind. split.
  - match goal with |- context [Get client ?e ?d h] =>
      pose proof (Get_ok_inv client e d h) as Hinv;
      destruct (Get client e d h) as [[err | key] h'] end;
      cbn [fst snd mret IO_ret] in *.
    + left. split; [apply HasError_AddError | done].
    + right. destruct (Hinv key eq_refl) as (answer & Hd & Hlt & Hdec & ->).
      exists answer, key. unfold State_Set. by rewrite Diagnostics_Append_nil.
  - intros answer key Hn Hd Hlt Hdec.
    rewrite (Get_answered client _ (dest_ptr CheckoutKeyResource.CheckoutKey)
               h answer Hn Hd).
    rewrite decide_False by lia. cbn [decode_into]. rewrite Hdec.
    cbn [fst snd mret IO_ret]. unfold State_Set. by rewrite Diagnostics_Append_nil.
Qed.

(** X20. Read of a context either reports an error and leaves the state
    as it was, or its GET was answered with a status below 400 and a body
    that decodes: then it keeps the id of the prior state and replaces the
    name and the whole owner object by those of that answer, so a change
    made outside shows as drift. *)
Theorem Context_Read_refreshes_name_and_owner (client : CircleCIClient)
    (prior : ContextResource.ContextResourceModel)
    (resp : Resp ContextResource.ContextResourceModel) (h : list Request) :
  HasError (resp_Diagnostics resp) = false ->
  let get :=
    MakeRequest_request client "GET"
      ("/context/" +:+ ValueString (ContextResource.ID prior)) None in
  let refreshed context :=
    let owner := ContextResource.api_Owner context in
    {| resp_State :=
         Some {| ContextResource.ID := ContextResource.ID prior;
                 ContextResource.Name :=
                   StringValue (ContextResource.api_Name context);
                 ContextResource.Owner :=
                   ObjectValue
                     {| ContextResource.owner_ID :=
                          StringValue (ContextResource.api_owner_ID owner);
                        ContextResource.owner_Slug :=
                          StringValue (ContextResource.api_owner_Slug owner);
                        ContextResource.owner_Type :=
                          StringValue (ContextResource.api_owner_Type owner) |} |};
       resp_Diagnostics := resp_Diagnostics resp |} in
  let out := ContextResource.Read client {| read_State := prior |} resp h in
  ((HasError (resp_Diagnostics (fst out)) = true
    /\ resp_State (fst out) = resp_State resp)
   \/ (exists answer context,
         HTTPClient client h get = inr answer
         /\ StatusCode answer < 400
         /\ json_Decode (Body answer) = inr context
         /\ out = (refreshed context, h ++ [get])))
  /\ (forall answer context,
        http_NewRequest_error "GET" (URL get) = None ->
        HTTPClient client h get = inr answer ->
        StatusCode answer < 400 ->
        json_Decode (Body answer) = inr context ->
        out = (refreshed context, h ++ [get])).
Proof.
  intros Hno get refreshed out. subst out refreshed. unfold ContextResource.Read.
  cbn [tfsdk_Get read_State]. rewrite Diagnostics_Append_nil, Hno.
  unfold mbind, IO_bind. split.
  - match goal with |- context [Get client ?e ?d h] =>
      pose proof (Get_ok_inv client e d h) as Hinv;
      destruct (Get client e d h) as [[err | context] h'] end;
      cbn [fst snd mret IO_ret] in *.
    + left. split; [apply HasError_AddError | done].
    + right. destruct (Hinv context eq_refl) as (answer & Hd & Hlt & Hdec & ->).
      exists answer, context. rewrite Diagnostics_Append_nil, Hno.
      cbn [fst mret IO_ret]. unfold State_Set. by rewrite Diagnostics_Append_nil.
  - intros answer context Hn Hd Hlt Hdec.
    rewrite (Get_answered client _ (dest_ptr ContextResource.ContextAPI) h answer Hn Hd).
    rewrite decide_False by lia. cbn [decode_into]. rewrite Hdec.
    rewrite Diagnostics_Append_nil, Hno.
    cbn [fst snd mret IO_ret]. unfold State_Set. by rewrite Diagnostics_Append_nil.
Qed.

End RefreshFacts.

(** X17 at a changed value, the PUT answered with 200. *)
Lemma EnvironmentVariable_Update_stores_plan_witness :
  let client := Fixtures.client [Fixtures.ok "KEY"] in
  let prior :=
    {| EnvironmentVariableResource.ID := StringValue "ctx-1:KEY";
       EnvironmentVariableResource.ContextID := StringValue "ctx-1";
       EnvironmentVariableResource.Name := StringValue "KEY";
       EnvironmentVariableResource.Value := StringValue "old" |} in
  let plan :=
    {| EnvironmentVariableResource.ID := StringValue "ctx-1:KEY";
       EnvironmentVariableResource.ContextID := StringValue "ctx-1";
       EnvironmentVariableResource.Name := StringValue "KEY";
       EnvironmentVariableResource.Value := StringValue "new" |} in
  let out :=
    EnvironmentVariableResource.Update (net := Fixtures.net)
      (unmarshalAPIError := Fixtures.unmarshalAPIError)
      (decodeEnvVar := Fixtures.decodeEnvVar)
      (marshalEnvVar := Fixtures.marshalEnvVar)
      client {| update_Plan := plan; update_State := prior |} (Fixtures.fresh prior) [] in
  HasError (resp_Diagnostics (Fixtures.fresh prior)) = false
  /\ resp_State (fst out) <> None.
Proof.
  intros client prior plan out.
  assert (Hno : HasError (resp_Diagnostics (Fixtures.fresh prior)) = false)
    by reflexivity.
  split; [exact Hno |].
  destruct (proj1 (EnvironmentVariable_Update_stores_plan (net := Fixtures.net)
                     (unmarshalAPIError := Fixtures.unmarshalAPIError)
                     (decodeEnvVar := Fixtures.decodeEnvVar)
                     (marshalEnvVar := Fixtures.marshalEnvVar)
                     client {| update_Plan := plan; update_State := prior |}
                     (Fixtures.fresh prior) [] Hno))
    as [[_ Hstate] | Hout].
  - fold out in Hstate. rewrite Hstate. discriminate.
  - fold out in Hout. rewrite Hout. discriminate.
Defined.

(** X18 at a pipeline that has left the state [running]: the number and
    the state are those of the answer, the branch is the one of the prior
    state. *)
Lemma Pipeline_Read_refreshes_status_only_witness :
  let client := Fixtures.client [Fixtures.ok "p-1"] in
  let prior :=
    {| PipelineResource.ID := StringValue "p-1";
       PipelineResource.ProjectSlug := StringValue "gh/org/repo";
       PipelineResource.Branch := StringValue "release";
       PipelineResource.Tag := StringNull;
       PipelineResource.Parameters := MapNull;
       PipelineResource.Number := Int64Value 7;
       PipelineResource.State := StringValue "running";
       PipelineResource.CreatedAt := StringNull;
       PipelineResource.UpdatedAt := StringNull;
       PipelineResource.VCS := ObjectNull |} in
  HasError (resp_Diagnostics (Fixtures.fresh prior)) = false
  /\ PipelineResource.Read (net := Fixtures.net)
       (unmarshalAPIError := Fixtures.unmarshalAPIError)
       (decodePipeline := Fixtures.decodePipeline)
       client {| read_State := prior |} (Fixtures.fresh prior) []
     = ({| resp_State :=
             Some {| PipelineResource.ID := StringValue "p-1";
                     PipelineResource.ProjectSlug := StringValue "gh/org/repo";
                     PipelineResource.Branch := StringValue "release";
                     PipelineResource.Tag := StringNull;
                     PipelineResource.Parameters := MapNull;
                     PipelineResource.Number := Int64Value 1;
                     PipelineResource.State := StringValue "created";
                     PipelineResource.CreatedAt := StringValue "";
                     PipelineResource.UpdatedAt := StringValue "";
                     PipelineResource.VCS := ObjectNull |};
           resp_Diagnostics := [] |},
        [MakeRequest_request client "GET" "/pipeline/p-1" None]).
Proof.
  intros client prior.
  assert (Hno : HasError (resp_Diagnostics (Fixtures.fresh prior)) = false)
    by reflexivity.
  split; [exact Hno |].
  exact (proj2 (Pipeline_Read_refreshes_status_only (net := Fixtures.net)
                  (unmarshalAPIError := Fixtures.unmarshalAPIError)
                  (decodePipeline := Fixtures.decodePipeline)
                  client prior (Fixtures.fresh prior) [] Hno)
           {| StatusCode := 200; Body := "p-1" |} _
           eq_refl eq_refl ltac:(simpl; lia) eq_refl).
Defined.

(** X19 at a key whose answer names another fingerprint: the type and the
    public key are those of the answer, the fingerprint stays. *)
Lemma CheckoutKey_Read_keeps_identity_witness :
  let client := Fixtures.client [Fixtures.ok "cc:dd"] in
  let prior :=
    {| CheckoutKeyResource.ID := StringValue "gh/org/repo:aa:bb";
       CheckoutKeyResource.ProjectSlug := StringValue "gh/org/repo";
       CheckoutKeyResource.Type_ := StringValue "user-key";
       CheckoutKeyResource.Fingerprint := StringValue "aa:bb";
       CheckoutKeyResource.PublicKey := StringNull;
       CheckoutKeyResource.CreatedAt := StringNull |} in
  HasError (resp_Diagnostics (Fixtures.fresh prior)) = false
  /\ CheckoutKeyResource.Read (net := Fixtures.net)
       (unmarshalAPIError := Fixtures.unmarshalAPIError)
       (decodeKey := Fixtures.decodeKey)
       client {| read_State := prior |} (Fixtures.fresh prior) []
     = ({| resp_State :=
             Some {| CheckoutKeyResource.ID := StringValue "gh/org/repo:aa:bb";
                     CheckoutKeyResource.ProjectSlug := StringValue "gh/org/repo";
                     CheckoutKeyResource.Type_ := StringValue "deploy-key";
                     CheckoutKeyResource.Fingerprint := StringValue "aa:bb";
                     CheckoutKeyResource.PublicKey := StringValue "ssh-rsa AAAA";
                     CheckoutKeyResource.CreatedAt := StringValue "" |};
           resp_Diagnostics := [] |},
        [MakeRequest_request client "GET"
           "/project/gh/org/repo/checkout-key/aa:bb" None]).
Proof.
  intros client prior.
  assert (Hno : HasError (resp_Diagnostics (Fixtures.fresh prior)) = false)
    by reflexivity.
  split; [exact Hno |].
  exact (proj2 (CheckoutKey_Read_keeps_identity (net := Fixtures.net)
                  (unmarshalAPIError := Fixtures.unmarshalAPIError)
                  (decodeKey := Fixtures.decodeKey)
                  client prior (Fixtures.fresh prior) [] Hno)
           {| StatusCode := 200; Body := "cc:dd" |} _
           eq_refl eq_refl ltac:(simpl; lia) eq_refl).
Defined.

(** X20 at a context renamed outside: the name and the owner are those of
    the answer, the id stays. *)
Lemma Context_Read_refreshes_name_and_owner_witness :
  let client := Fixtures.client [Fixtures.ok "renamed"] in
  let prior :=
    {| ContextResource.ID := StringValue "ctx-9";
       ContextResource.Name := StringValue "shared-context";
       ContextResource.Owner := ObjectNull |} in
  HasError (resp_Diagnostics (Fixtures.fresh prior)) = false
  /\ ContextResource.Read (net := Fixtures.net)
       (unmarshalAPIError := Fixtures.unmarshalAPIError)
       (decodeContext := Fixtures.decodeContext)
       client {| read_State := prior |} (Fixtures.fresh prior) []
     = ({| resp_State :=
             Some {| ContextResource.ID := StringValue "ctx-9";
                     ContextResource.Name := StringValue "renamed";
                     ContextResource.Owner :=
                       ObjectValue
                         {| ContextResource.owner_ID := StringValue "org-1";
                            ContextResource.owner_Slug := StringValue "github";
                            ContextResource.owner_Type :=
                              StringValue "organization" |} |};
           resp_Diagnostics := [] |},
        [MakeRequest_request client "GET" "/context/ctx-9" None]).
Proof.
  intros client prior.
  assert (Hno : HasError (resp_Diagnostics (Fixtures.fresh prior)) = false)
    by reflexivity.
  split; [exact Hno |].
  exact (proj2 (Context_Read_refreshes_name_and_owner (net := Fixtures.net)
                  (unmarshalAPIError := Fixtures.unmarshalAPIError)
                  (decodeContext := Fixtures.decodeContext)
                  client prior (Fixtures.fresh prior) [] Hno)
           {| StatusCode := 200; Body := "renamed" |} _
           eq_refl eq_refl ltac:(simpl; lia) eq_refl).
Defined.

(** ** Jobs *)

Section JobMoreFacts.
Context {net : NetLib} {unmarshalAPIError : JSONUnmarshal APIError}
        {decodeJob : JSONDecode JobResource.JobAPI}.

(** A response returned by [MakeRequest] for a request without body is
    the transport's answer to the request it sent. *)
Lemma MakeRequest_nil_ok_inv (c : CircleCIClient) (method endpoint : string)
    (h : list Request) (resp : Response) :
  fst (MakeRequest c method endpoint body_nil h) = inr resp ->
  snd (MakeRequest c method endpoint body_nil h)
  = h ++ [MakeRequest_request c method endpoint None]
  /\ HTTPClient c h (MakeRequest_request c method endpoint None) = inr resp
  /\ StatusCode resp < 400.
Proof.
  unfold MakeRequest. cbn [marshal_body].
  destruct (http_NewRequest_error _ _); [discriminate |].
  unfold mbind, IO_bind, Do.
  destruct (HTTPClient c h _) as [e | r] eqn:Hd; [discriminate |].
  destruct (decide (StatusCode r >= 400)); [discriminate |].
  cbn. intros [= ->]. split; [done |]. split; [done | lia].
Qed.

(** One POST of [performJobAction] succeeds only on an answer of 200. *)
Lemma post_action_success (client : CircleCIClient) (endpoint verb : string)
    (h : list Request) :
  fst (JobResource.post_action client endpoint verb h) = None ->
  let req := MakeRequest_request client "POST" endpoint None in
  snd (JobResource.post_action client endpoint verb h) = h ++ [req]
  /\ exists httpResp, HTTPClient client h req = inr httpResp
                      /\ StatusCode httpResp = 200.
Proof.
  intros Hok req. subst req. revert Hok.
  unfold JobResource.post_action, mbind, IO_bind.
  pose proof (MakeRequest_nil_ok_inv client "POST" endpoint h) as Hinv.
  destruct (MakeRequest client "POST" endpoint body_nil h) as [[err | httpResp] h'];
    [discriminate |].
  destruct (Hinv httpResp eq_refl) as (Hlog & Hd & _). cbn [snd] in Hlog.
  unfold StatusOK.
  destruct (decide (StatusCode httpResp <> 200)) as [Hne | Heq]; [discriminate |].
  intros _. cbn [fst snd mret IO_ret]. split; [done |].
  exists httpResp. split; [done |].
  destruct (decide (StatusCode httpResp = 200)); [done | by destruct Heq].
Qed.

(** X21. [performJobAction] returns no error only if the action is
    [cancel], [rerun] or [approve] with an approval id, and the one POST
    it sent was answered with the status 200 exactly: 201, 202 or 204 are
    failures. *)
Theorem performJobAction_success_means_200 (client : CircleCIClient)
    (projectSlug : string) (jobNumber : Z) (action approvalID : string)
    (h : list Request) :
  fst (JobResource.performJobAction client projectSlug jobNumber action approvalID h)
  = None ->
  (action = "cancel" \/ (action = "approve" /\ approvalID <> "") \/ action = "rerun")
  /\ exists endpoint httpResp,
       snd (JobResource.performJobAction client projectSlug jobNumber action
              approvalID h)
       = h ++ [MakeRequest_request client "POST" endpoint None]
       /\ HTTPClient client h (MakeRequest_request client "POST" endpoint None)
          = inr httpResp
       /\ StatusCode httpResp = 200.
Proof.
  unfold JobResource.performJobAction.
  destruct (decide (action = "cancel")) as [-> | Hc].
  { intros Hok. split; [by left |].
    destruct (post_action_success _ _ _ _ Hok) as (Hlog & r & Hd & H200).
    eexists _, r. by rewrite Hlog. }
  destruct (decide (action = "approve")) as [-> | Ha].
  { destruct (decide (approvalID = "")) as [-> | Hid]; [discriminate |].
    intros Hok. split; [right; by left |].
    destruct (post_action_success _ _ _ _ Hok) as (Hlog & r & Hd & H200).
    eexists _, r. by rewrite Hlog. }
  destruct (decide (action = "rerun")) as [-> | Hr].
  { intros Hok. split; [right; by right |].
    destruct (post_action_success _ _ _ _ Hok) as (Hlog & r & Hd & H200).
    eexists _, r. by rewrite Hlog. }
  discriminate.
Qed.

(** X22. An action other than [cancel], [approve] and [rerun] is refused
    by [performJobAction] before anything is sent; so is [approve]
    without an approval id. *)
Theorem performJobAction_refuses_before_sending (client : CircleCIClient)
    (projectSlug : string) (jobNumber : Z) (action approvalID : string)
    (h : list Request) :
  action <> "cancel" -> action <> "rerun" ->
  (action = "approve" -> approvalID = "") ->
  exists err,
    JobResource.performJobAction client projectSlug jobNumber action approvalID h
    = (Some err, h).
Proof.
  intros Hc Hr Ha. unfold JobResource.performJobAction.
  rewrite decide_False by done.
  destruct (decide (action = "approve")) as [Heq | Hne].
  - rewrite (Ha Heq). rewrite decide_True by done. by eexists.
  - rewrite decide_False by done. by eexists.
Qed.

(** X23. Update of a job never changes the state and never reports what
    its final refresh finds: the response it returns is the one it was
    given, or that one with the error of the action added. The outcome of
    the Read it runs at the end is dropped. *)
Theorem Job_Update_drops_refresh (client : CircleCIClient)
    (req : UpdateRequest JobResource.JobResourceModel)
    (resp : Resp JobResource.JobResourceModel) (h : list Request) :
  let out := JobResource.Update client req resp h in
  resp_State (fst out) = resp_State resp
  /\ (fst out = resp
      \/ exists err,
           fst out = AddError resp "Failed to perform job action" (Error err)).
Proof.
  intros out. subst out. unfold JobResource.Update. cbn [tfsdk_Get].
  rewrite Diagnostics_Append_nil.
  destruct (HasError (resp_Diagnostics resp)); [by split; [| left] |].
  unfold mbind, IO_bind.
  match goal with |- context [(if ?c then ?a else ?b) h] =>
    destruct ((if c then a else b) h) as [[err |] h1] end.
  - cbn [fst mret IO_ret]. split; [done |]. right. by exists err.
  - match goal with |- context [JobResource.Read ?c ?rq ?rs h1] =>
      destruct (JobResource.Read c rq rs h1) as [r h2] end.
    cbn [fst mret IO_ret]. by split; [| left].
Qed.

(** X24. [mapJobToModel] keeps the planned action and stores the three
    optional texts of the API without loss: an empty one becomes null,
    never an empty known string, and a non-empty one is stored as it
    is. *)
Theorem mapJobToModel_optional_fields (job : JobResource.JobAPI)
    (data : JobResource.JobResourceModel) :
  let m := JobResource.mapJobToModel job data in
  JobResource.Action m = JobResource.Action data
  /\ ValueString (JobResource.StoppedAt m) = JobResource.api_StoppedAt job
  /\ ValueString (JobResource.ApprovalID m) = JobResource.api_ApprovalID job
  /\ ValueString (JobResource.ApprovalType m) = JobResource.api_ApprovalType job
  /\ (IsNull (JobResource.StoppedAt m) = true <-> JobResource.api_StoppedAt job = "")
  /\ (IsNull (JobResource.ApprovalID m) = true <-> JobResource.api_ApprovalID job = "")
  /\ (IsNull (JobResource.ApprovalType m) = true
      <-> JobResource.api_ApprovalType job = "").
Proof.
  intros m. subst m. unfold JobResource.mapJobToModel. cbn.
  destruct (decide (JobResource.api_StoppedAt job <> "")) as [H1 | H1];
    destruct (decide (JobResource.api_ApprovalID job <> "")) as [H2 | H2];
    destruct (decide (JobResource.api_ApprovalType job <> "")) as [H3 | H3];
    cbn; repeat split; try done;
    try (intros; by apply dec_stable);
    try (symmetry; by apply dec_stable).
Qed.

End JobMoreFacts.

(** X21: a cancel answered with 200. *)
Lemma performJobAction_success_means_200_witness :
  let client := Fixtures.client [Fixtures.ok ""] in
  let run :=
    JobResource.performJobAction (net := Fixtures.net)
      (unmarshalAPIError := Fixtures.unmarshalAPIError)
      client "gh/org/repo" 7 "cancel" "" [] in
  fst run = None
  /\ exists endpoint httpResp,
       snd run = [] ++ [MakeRequest_request client "POST" endpoint None]
       /\ HTTPClient client [] (MakeRequest_request client "POST" endpoint None)
          = inr httpResp
       /\ StatusCode httpResp = 200.
Proof.
  intros client run.
  assert (Hok : fst run = None) by reflexivity.
  split; [exact Hok |].
  exact (proj2 (performJobAction_success_means_200 (net := Fixtures.net)
                  (unmarshalAPIError := Fixtures.unmarshalAPIError)
                  client "gh/org/repo" 7 "cancel" "" [] Hok)).
Defined.

(** X22: the action [pause] does not exist. *)
Lemma performJobAction_refuses_before_sending_witness :
  let client := Fixtures.client [Fixtures.ok ""] in
  "pause" <> "cancel"
  /\ "pause" <> "rerun"
  /\ ("pause" = "approve" -> "id-1" = "")
  /\ exists err,
       JobResource.performJobAction (net := Fixtures.net)
         (unmarshalAPIError := Fixtures.unmarshalAPIError)
         client "gh/org/repo" 7 "pause" "id-1" []
       = (Some err, []).
Proof.
  intros client.
  assert (Hc : "pause" <> "cancel") by discriminate.
  assert (Hr : "pause" <> "rerun") by discriminate.
  assert (Ha : "pause" = "approve" -> "id-1" = "") by discriminate.
  split; [exact Hc |]. split; [exact Hr |]. split; [exact Ha |].
  exact (performJobAction_refuses_before_sending (net := Fixtures.net)
           (unmarshalAPIError := Fixtures.unmarshalAPIError)
           client "gh/org/repo" 7 "pause" "id-1" [] Hc Hr Ha).
Defined.

(** X25: a job whose GET is answered with 404 stays in the state. *)
Lemma JobResource_Read_never_removes_witness :
  let client := Fixtures.client [Fixtures.status 404 "{Not found."] in
  let job :=
    {| JobResource.ID := StringValue "j-1";
       JobResource.JobNumber := Int64Value 7;
       JobResource.Name := StringValue "build";
       JobResource.ProjectSlug := StringValue "gh/org/repo";
       JobResource.Status := StringValue "success";
       JobResource.StartedAt := StringNull;
       JobResource.StoppedAt := StringNull;
       JobResource.ApprovalID := StringNull;
       JobResource.ApprovalType := StringNull;
       JobResource.Action := StringNull |} in
  resp_State (Fixtures.fresh job) <> None
  /\ resp_State (fst (JobResource.Read (net := Fixtures.net)
                        (unmarshalAPIError := Fixtures.unmarshalAPIError)
                        (decodeJob := Fixtures.decodeJob)
                        client {| read_State := job |} (Fixtures.fresh job) []))
     <> None.
Proof.
  intros client job.
  assert (Hsome : resp_State (Fixtures.fresh job) <> None) by discriminate.
  split; [exact Hsome |].
  exact (JobResource_Read_never_removes (net := Fixtures.net)
           (unmarshalAPIError := Fixtures.unmarshalAPIError)
           (decodeJob := Fixtures.decodeJob)
           client {| read_State := job |} (Fixtures.fresh job) [] Hsome).
Defined.

(** ** Policies *)

Section PolicyFacts.
Context {net : NetLib} {unmarshalAPIError : JSONUnmarshal APIError}
        {decodePolicy : JSONDecode PolicyResource.PolicyAPI}.

(** X26. Read of a policy never drops the resource from the state: its
    test for 404 comes after [MakeRequest], which has already turned
    every status of 400 or more into an error. *)
Theorem Policy_Read_never_removes (client : CircleCIClient)
    (req : ReadRequest PolicyResource.PolicyResourceModel)
    (resp : Resp PolicyResource.PolicyResourceModel) (h : list Request) :
  resp_State resp <> None ->
  resp_State (fst (PolicyResource.Read client req resp h)) <> None.
Proof.
  intros Hsome. unfold PolicyResource.Read. cbn [tfsdk_Get].
  rewrite Diagnostics_Append_nil.
  destruct (HasError (resp_Diagnostics resp)); [done |].
  unfold mbind, IO_bind.
  match goal with |- context [MakeRequest ?c ?m ?e ?b h] =>
    pose proof (MakeRequest_ok_status c m e b h) as Hok;
    destruct (MakeRequest c m e b h) as [[err | httpResp] h'] end.
  - done.
  - specialize (Hok httpResp eq_refl).
    rewrite decide_False by (unfold StatusNotFound; lia).
    destruct (decide (StatusCode httpResp <> StatusOK)); [done |].
    destruct (json_Decode (Body httpResp)); done.
Qed.

(** X27. Import of a policy cuts the identifier at its first colon and
    stores the part before it as [org_id] and the part after it as [id]:
    unlike the other imports, the id attribute is the policy id alone,
    not the whole identifier. An identifier without colon is rejected and
    sets nothing. *)
Theorem Policy_ImportState_splits_id (resp : ImportStateResponse) (a b : string) :
  index_byte ":"%char a = None ->
  PolicyResource.ImportState {| import_ID := a +:+ ":" +:+ b |} resp
  = {| import_State :=
         <["id" := AttrString b]> (<["org_id" := AttrString a]> (import_State resp));
       import_Diagnostics := import_Diagnostics resp |}
  /\ rejected resp (PolicyResource.ImportState {| import_ID := a |} resp).
Proof.
  intros Hn.
  assert (Hid : SplitN (a +:+ ":" +:+ b) ":"%char 2 = [a; b])
    by apply (SplitN_2_first _ _ _ Hn).
  assert (Ha : SplitN a ":"%char 2 = [a]) by apply (SplitN_2_none _ _ Hn).
  unfold PolicyResource.ImportState. cbn [import_ID]. rewrite Hid, Ha.
  split; [done | apply rejected_AddError].
Qed.

(** X28. Delete of a policy, once its DELETE is answered, reports nothing
    exactly when the status is 200 or 204; every other status, 404 for a
    policy that is already gone included, adds an error. The state is
    never touched and the DELETE is the only request. *)
Theorem Policy_Delete_accepts_200_and_204 (client : CircleCIClient)
    (req : DeleteRequest PolicyResource.PolicyResourceModel)
    (resp : Resp PolicyResource.PolicyResourceModel)
    (h : list Request) (httpResp : Response) :
  let endpoint := PolicyResource.policy_endpoint (delete_State req) in
  let httpReq := MakeRequest_request client "DELETE" endpoint None in
  HasError (resp_Diagnostics resp) = false ->
  http_NewRequest_error "DELETE" (URL httpReq) = None ->
  HTTPClient client h httpReq = inr httpResp ->
  let out := PolicyResource.Delete client req resp h in
  snd out = h ++ [httpReq]
  /\ resp_State (fst out) = resp_State resp
  /\ (HasError (resp_Diagnostics (fst out)) = false
      <-> StatusCode httpResp = 200 \/ StatusCode httpResp = 204)
  /\ (StatusCode httpResp = 200 \/ StatusCode httpResp = 204 -> fst out = resp).
Proof.
  intros endpoint httpReq Hno Hn Hd out. subst out.
  unfold PolicyResource.Delete. cbn [tfsdk_Get].
  rewrite Diagnostics_Append_nil, Hno. fold endpoint. unfold mbind, IO_bind.
  rewrite (MakeRequest_answered client "DELETE" endpoint body_nil None h httpResp
             eq_refl Hn Hd).
  fold httpReq. unfold StatusOK, PolicyResource.StatusNoContent.
  destruct (decide (StatusCode httpResp >= 400)) as [Hge | Hlt].
  { cbn [fst snd mret IO_ret]. split; [done |]. split; [apply State_AddError |].
    split; [| intros [? | ?]; lia].
    rewrite HasError_AddError. split; [discriminate | intros [? | ?]; lia]. }
  destruct (decide (StatusCode httpResp <> 200 /\ StatusCode httpResp <> 204))
    as [[H200 H204] | Hok]; cbn [fst snd mret IO_ret].
  - split; [done |]. split; [apply State_AddError |].
    split; [| intros [? | ?]; done].
    rewrite HasError_AddError. split; [discriminate | intros [? | ?]; done].
  - split; [done |]. split; [done |]. split; [| done].
    split; [| done]. intros _.
    destruct (decide (StatusCode httpResp = 200)) as [? | H200]; [by left |].
    destruct (decide (StatusCode httpResp = 204)) as [? | H204]; [by right |].
    destruct Hok. by split.
Qed.

End PolicyFacts.

(** X26: a policy whose GET is answered with 404 stays in the state. *)
Lemma Policy_Read_never_removes_witness :
  let client := Fixtures.client [Fixtures.status 404 "{Not found."] in
  let policy :=
    {| PolicyResource.ID := StringValue "pol-1";
       PolicyResource.Name := StringValue "policy";
       PolicyResource.Description := StringNull;
       PolicyResource.Content := StringValue "package org";
       PolicyResource.OrgID := StringValue "org-1";
       PolicyResource.Enabled := BoolValue true;
       PolicyResource.CreatedAt := StringNull;
       PolicyResource.UpdatedAt := StringNull |} in
  resp_State (Fixtures.fresh policy) <> None
  /\ resp_State (fst (PolicyResource.Read (net := Fixtures.net)
                        (unmarshalAPIError := Fixtures.unmarshalAPIError)
                        (decodePolicy := Fixtures.decodePolicy)
                        client {| read_State := policy |} (Fixtures.fresh policy) []))
     <> None.
Proof.
  intros client policy.
  assert (Hsome : resp_State (Fixtures.fresh policy) <> None) by discriminate.
  split; [exact Hsome |].
  exact (Policy_Read_never_removes (net := Fixtures.net)
           (unmarshalAPIError := Fixtures.unmarshalAPIError)
           (decodePolicy := Fixtures.decodePolicy)
           client {| read_State := policy |} (Fixtures.fresh policy) [] Hsome).
Defined.

(** X27 for an organization and a policy id. *)
Lemma Policy_ImportState_splits_id_witness :
  index_byte ":"%char "org-1" = None
  /\ PolicyResource.ImportState (net := Fixtures.net)
       {| import_ID := "org-1:pol-1" |} Fixtures.fresh_import
     = {| import_State :=
            <["id" := AttrString "pol-1"]> (<["org_id" := AttrString "org-1"]> ∅);
          import_Diagnostics := [] |}.
Proof.
  assert (Hn : index_byte ":"%char "org-1" = None) by reflexivity.
  split; [exact Hn |].
  exact (proj1 (Policy_ImportState_splits_id (net := Fixtures.net)
                  Fixtures.fresh_import "org-1" "pol-1" Hn)).
Defined.

(** X28: the DELETE is answered with 202. *)
Lemma Policy_Delete_accepts_200_and_204_witness :
  let client := Fixtures.client [Fixtures.status 202 ""] in
  let policy :=
    {| PolicyResource.ID := StringValue "pol-1";
       PolicyResource.Name := StringValue "policy";
       PolicyResource.Description := StringNull;
       PolicyResource.Content := StringValue "package org";
       PolicyResource.OrgID := StringValue "org-1";
       PolicyResource.Enabled := BoolValue true;
       PolicyResource.CreatedAt := StringNull;
       PolicyResource.UpdatedAt := StringNull |} in
  let httpReq := MakeRequest_request client "DELETE" "/v2/policy/org-1/pol-1" None in
  let httpResp := {| StatusCode := 202; Body := "" |} in
  let out :=
    PolicyResource.Delete (net := Fixtures.net)
      (unmarshalAPIError := Fixtures.unmarshalAPIError)
      client {| delete_State := policy |} (Fixtures.fresh policy) [] in
  HasError (resp_Diagnostics (Fixtures.fresh policy)) = false
  /\ http_NewRequest_error (NetLib := Fixtures.net) "DELETE" (URL httpReq) = None
  /\ HTTPClient client [] httpReq = inr httpResp
  /\ snd out = [httpReq]
  /\ resp_State (fst out) = Some policy.
Proof.
  intros client policy httpReq httpResp out.
  assert (Hno : HasError (resp_Diagnostics (Fixtures.fresh policy)) = false)
    by reflexivity.
  assert (Hn : http_NewRequest_error (NetLib := Fixtures.net) "DELETE" (URL httpReq)
               = None) by reflexivity.
  assert (Hd : HTTPClient client [] httpReq = inr httpResp) by reflexivity.
  split; [exact Hno |]. split; [exact Hn |]. split; [exact Hd |].
  destruct (Policy_Delete_accepts_200_and_204 (net := Fixtures.net)
              (unmarshalAPIError := Fixtures.unmarshalAPIError)
              client {| delete_State := policy |} (Fixtures.fresh policy) []
              httpResp Hno Hn Hd) as (Hlog & Hstate & _).
  split; [exact Hlog | exact Hstate].
Defined.

(** ** Configuration of the provider *)

Section ConfigureFacts.
Variable Getenv : string -> string.
Variable defaultClient : HttpClient.

(** X29. Configure of the provider hands the same client to resources
    and data sources, and it hands one over exactly when it reports no
    error. The token of that client is never empty: it is the attribute
    [api_token] when that is not null and the variable [CIRCLECI_TOKEN]
    otherwise; its base URL is the attribute [base_url] when that is not
    null and the public endpoint otherwise. *)
Theorem Configure_client_has_token (req : Provider.ConfigureRequest)
    (resp : Provider.ConfigureResponse) :
  HasError (Provider.cfg_Diagnostics resp) = false ->
  Provider.DataSourceData resp = None ->
  Provider.ResourceData resp = None ->
  let cfg := Provider.Config req in
  let out := Provider.Configure Getenv defaultClient req resp in
  Provider.DataSourceData out = Provider.ResourceData out
  /\ (Provider.ResourceData out = None
      <-> HasError (Provider.cfg_Diagnostics out) = true)
  /\ (forall c,
        Provider.ResourceData out = Some c ->
        ApiToken c <> ""
        /\ ApiToken c = (if IsNull (Provider.cfg_ApiToken cfg)
                         then Getenv "CIRCLECI_TOKEN"
                         else ValueString (Provider.cfg_ApiToken cfg))
        /\ BaseURL c = (if IsNull (Provider.cfg_BaseURL cfg)
                        then "https://circleci.com/api/v2"
                        else ValueString (Provider.cfg_BaseURL cfg))
        /\ HTTPClient c = defaultClient).
Proof.
  intros Hno Hds Hrs cfg out. subst out. unfold Provider.Configure.
  cbn [tfsdk_Get]. fold cfg.
  change (Append (Provider.cfg_Diagnostics resp) []) with (Provider.cfg_Diagnostics resp).
  rewrite Hno.
  destruct (decide ((if IsNull (Provider.cfg_ApiToken cfg)
                     then Getenv "CIRCLECI_TOKEN"
                     else ValueString (Provider.cfg_ApiToken cfg)) = ""))
    as [Hempty | Htoken].
  - cbv beta iota.
    rewrite HasError_Append_error by done.
    cbn [Provider.DataSourceData Provider.ResourceData Provider.cfg_Diagnostics].
    rewrite Hds, Hrs, HasError_Append_error by done.
    split; [done |]. split; [done |]. intros c. discriminate.
  - cbv beta iota. rewrite Hno.
    cbn [Provider.DataSourceData Provider.ResourceData Provider.cfg_Diagnostics].
    rewrite Hno.
    split; [done |]. split; [split; discriminate |].
    intros c [= <-]. by cbn.
Qed.

(** X30. An [api_token] that is set but empty, or not yet known, is an
    error whatever the environment holds: [CIRCLECI_TOKEN] is looked at
    only when the attribute is null. No client is handed over. *)
Theorem Configure_empty_token_no_fallback (req : Provider.ConfigureRequest)
    (resp : Provider.ConfigureResponse) :
  IsNull (Provider.cfg_ApiToken (Provider.Config req)) = false ->
  ValueString (Provider.cfg_ApiToken (Provider.Config req)) = "" ->
  let out := Provider.Configure Getenv defaultClient req resp in
  HasError (Provider.cfg_Diagnostics out) = true
  /\ Provider.ResourceData out = Provider.ResourceData resp
  /\ Provider.DataSourceData out = Provider.DataSourceData resp.
Proof.
  intros Hnull Hempty out. subst out. unfold Provider.Configure.
  cbn [tfsdk_Get].
  change (Append (Provider.cfg_Diagnostics resp) []) with (Provider.cfg_Diagnostics resp).
  rewrite Hnull, Hempty.
  destruct (HasError (Provider.cfg_Diagnostics resp)) eqn:Hprior.
  - by cbn.
  - rewrite decide_True by done. rewrite HasError_Append_error by done.
    cbn [Provider.DataSourceData Provider.ResourceData Provider.cfg_Diagnostics].
    by rewrite HasError_Append_error by done.
Qed.

End ConfigureFacts.

(** X29 with the token taken from the environment. *)
Lemma Configure_client_has_token_witness :
  let req := {| Provider.Config :=
                  {| Provider.cfg_ApiToken := StringNull;
                     Provider.cfg_BaseURL := StringNull |} |} in
  let out := Provider.Configure (Fixtures.env_with "env-token") (Fixtures.scripted [])
               req Fixtures.fresh_configure in
  HasError (Provider.cfg_Diagnostics Fixtures.fresh_configure) = false
  /\ Provider.DataSourceData Fixtures.fresh_configure = None
  /\ Provider.ResourceData Fixtures.fresh_configure = None
  /\ Provider.DataSourceData out = Provider.ResourceData out
  /\ Provider.ResourceData out
     = Some {| ApiToken := "env-token"; BaseURL := "https://circleci.com/api/v2";
               HTTPClient := Fixtures.scripted [] |}.
Proof.
  intros req out.
  split; [reflexivity |]. split; [reflexivity |]. split; [reflexivity |].
  split; [| reflexivity].
  exact (proj1 (Configure_client_has_token (Fixtures.env_with "env-token")
                  (Fixtures.scripted []) req Fixtures.fresh_configure
                  eq_refl eq_refl eq_refl)).
Defined.

(** X30 with an empty [api_token] and a token in the environment. *)
Lemma Configure_empty_token_no_fallback_witness :
  let req := {| Provider.Config :=
                  {| Provider.cfg_ApiToken := StringValue "";
                     Provider.cfg_BaseURL := StringNull |} |} in
  let out := Provider.Configure (Fixtures.env_with "env-token") (Fixtures.scripted [])
               req Fixtures.fresh_configure in
  IsNull (Provider.cfg_ApiToken (Provider.Config req)) = false
  /\ ValueString (Provider.cfg_ApiToken (Provider.Config req)) = ""
  /\ HasError (Provider.cfg_Diagnostics out) = true
  /\ Provider.ResourceData out = None.
Proof.
  intros req out.
  split; [reflexivity |]. split; [reflexivity |].
  destruct (Configure_empty_token_no_fallback (Fixtures.env_with "env-token")
              (Fixtures.scripted []) req Fixtures.fresh_configure eq_refl eq_refl)
    as (Herr & Hrs & _).
  split; [exact Herr | exact Hrs].
Defined.
